(** * Initial-credential acquisition (lib/krb5/krb/get_in_tkt.c)

    A shallow embedding of the AS-exchange state machine of the krb5
    client library: saturating timestamp arithmetic, pre-auth ordering,
    the reply classifier, the reply decryptor and verifier, the
    all-in-one loop [krb5_get_in_tkt] and the step API
    ([krb5_init_creds_step] and friends).

    C integers are [Z] with the wrap-around written out, [krb5_data] is
    a record of a length and an optional byte buffer, NULL-terminated
    pointer arrays are lists of optional entries, and every function
    that is not defined in get_in_tkt.c (transport, ASN.1 codecs,
    crypto, pre-auth plugins, the profile) is a field of a record of
    collaborators acting on an abstract world.  Pointers are values:
    [None] is NULL, freeing is not modelled, and the [magic] tags of the
    structures are left out, the context's apart. *)

From Stdlib Require Import ZArith Lia Bool List String Ascii.
From Stdlib Require Import Strings.Byte.
From stdpp Require Import base list.

Local Open Scope Z_scope.

(** ** Machine integers *)

(** Modelled from the spec: the bounds of a signed 32-bit integer
    (KRB5_INT32_MAX and KRB5_INT32_MIN come from krb5.h). *)
Definition KRB5_INT32_MAX : Z := 2147483647.
Definition KRB5_INT32_MIN : Z := - KRB5_INT32_MAX - 1.

Definition is_int32 (z : Z) : Prop := KRB5_INT32_MIN <= z <= KRB5_INT32_MAX.

(** Two's-complement reduction of a mathematical integer to [krb5_int32]. *)
Definition wrap32 (z : Z) : Z := (z + 2 ^ 31) mod 2 ^ 32 - 2 ^ 31.

(** Conversion to [unsigned int]. *)
Definition to_uint32 (z : Z) : Z := z mod 2 ^ 32.

(** ** 32 bit bounded addition *)

Definition krb5int_addint32 (x y : Z) : Z :=
  if (x >? 0) && (y >? wrap32 (KRB5_INT32_MAX - x)) then
    (* sum will be be greater than KRB5_INT32_MAX *)
    KRB5_INT32_MAX
  else if (x <? 0) && (y <? wrap32 (KRB5_INT32_MIN - x)) then
    (* sum will be less than KRB5_INT32_MIN *)
    KRB5_INT32_MIN
  else wrap32 (x + y).

(** ** Data model *)

(** [krb5_data]: a length and a buffer; [None] is the NULL pointer. *)
Record krb5_data := mk_data {
  d_length : Z;
  d_data : option (list byte)
}.

(** A buffer as the codecs and the transport hand it out. *)
Definition data_of_bytes (bs : list byte) : krb5_data :=
  mk_data (Z.of_nat (length bs)) (Some bs).

(** [d->data[i]]; [None] when the read is outside the buffer. *)
Definition data_at (d : krb5_data) (i : nat) : option byte :=
  match d_data d with
  | Some bs => bs !! i
  | None => None
  end.

(** The value of a byte, 0 to 255. *)
Definition byte_value (b : byte) : Z := Z.of_N (Byte.to_N b).

(** The value of a byte read through a plain [char]. *)
Definition char_val (signed_char : bool) (b : byte) : Z :=
  let v := byte_value b in
  if signed_char && (128 <=? v) then v - 256 else v.

Record krb5_principal_data := mk_princ {
  princ_realm : krb5_data;
  princ_data : list krb5_data;   (* the name components; [length] is their number *)
  princ_type : Z
}.

Record krb5_pa_data := mk_pa {
  pa_type : Z;
  pa_length : Z;
  pa_contents : option (list byte)
}.

(** A [krb5_pa_data **]: the slots of the array, [None] being a NULL
    entry; the sequence ends at the first NULL. *)
Abbreviation pa_array := (list (option krb5_pa_data)).

Record krb5_keyblock := mk_key {
  key_enctype : Z;
  key_length : Z;
  key_contents : option (list byte)
}.

Record krb5_ticket_times := mk_times {
  authtime : Z;
  starttime : Z;
  endtime : Z;
  renew_till : Z
}.

(** ** Headers that are not part of get_in_tkt.c *)

(** The constants the file takes from krb5.h, k5-int.h, the generated
    error tables and errno.h, the platform's choices for [char] and
    [long], and the handle types it only passes around. *)
Class headers := {
  char_is_signed : bool;
  LONG_BITS : Z;
  LONG_BITS_ok : LONG_BITS = 32 \/ LONG_BITS = 64;
  (* errno.h *)
  ENOMEM : Z;
  ENOENT : Z;
  EINVAL : Z;
  (* error tables *)
  ERROR_TABLE_BASE_krb5 : Z;
  KV5M_CONTEXT : Z;
  KRB5KRB_AP_ERR_MSG_TYPE : Z;
  KRB5KRB_AP_ERR_V4_REPLY : Z;
  KRB5KRB_ERR_RESPONSE_TOO_BIG : Z;
  KRB5KRB_ERR_GENERIC : Z;
  KRB5KDC_ERR_WRONG_REALM : Z;
  KRB5KDC_ERR_C_PRINCIPAL_UNKNOWN : Z;
  KRB5_KDCREP_MODIFIED : Z;
  KRB5_KDCREP_SKEW : Z;
  KRB5_IN_TKT_REALM_MISMATCH : Z;
  KRB5_GET_IN_TKT_LOOP : Z;
  error_codes_nonzero :
    Forall (fun c => c <> 0)
      [ENOMEM; ENOENT; EINVAL; KV5M_CONTEXT; KRB5KRB_AP_ERR_MSG_TYPE;
       KRB5KRB_AP_ERR_V4_REPLY; KRB5KRB_ERR_RESPONSE_TOO_BIG;
       KRB5KRB_ERR_GENERIC; KRB5KDC_ERR_WRONG_REALM;
       KRB5KDC_ERR_C_PRINCIPAL_UNKNOWN; KRB5_KDCREP_MODIFIED;
       KRB5_KDCREP_SKEW; KRB5_IN_TKT_REALM_MISMATCH; KRB5_GET_IN_TKT_LOOP];
  v4_reply_distinct : KRB5KRB_AP_ERR_V4_REPLY <> KRB5KRB_AP_ERR_MSG_TYPE;
  (* protocol numbers *)
  KRB5_AS_REQ : Z;
  KRB5_AS_REP : Z;
  KDC_ERR_PREAUTH_REQUIRED : Z;
  KDC_ERR_WRONG_REALM : Z;
  KRB_ERR_RESPONSE_TOO_BIG : Z;
  KDC_OPT_CANONICALIZE : Z;
  KDC_OPT_POSTDATED : Z;
  KDC_OPT_RENEWABLE : Z;
  KDC_OPT_RENEWABLE_OK : Z;
  KRB5_NT_ENTERPRISE_PRINCIPAL : Z;
  KRB5_REFERRAL_MAXHOPS : Z;
  KRB5_LIBOPT_SYNC_KDCTIME : Z;
  SALT_TYPE_AFS_LENGTH : Z;
  get_in_tkt_enctypes : list Z;   (* ENCTYPE_DES3_CBC_SHA1, ..., without the final 0 *)
  (* handles *)
  profile_t : Type;
  krb5_ccache : Type;
  krb5_const_pointer : Type;
  null_pointer : krb5_const_pointer;
  krb5_address : Type;
  krb5_ticket_enc : Type;
  fast_state_t : Type;
  opte_t : Type
}.

Definition LONG_MAX `{headers} : Z := 2 ^ (LONG_BITS - 1) - 1.
Definition LONG_MIN `{headers} : Z := - 2 ^ (LONG_BITS - 1).

(** Modelled from the spec: the step API's flag bit, STEP_COMPLETE = 1
    (KRB5_INIT_CREDS_STEP_FLAG_COMPLETE in krb5.h). *)
Definition KRB5_INIT_CREDS_STEP_FLAG_COMPLETE : Z := 1.

(** Modelled from the spec: the configuration keys under [libdefaults]
    (KRB5_CONF_LIBDEFAULTS and KRB5_CONF_PREFERRED_PREAUTH_TYPES in
    k5-int.h). *)
Definition KRB5_CONF_LIBDEFAULTS : string := "libdefaults".
Definition KRB5_CONF_PREFERRED_PREAUTH_TYPES : string := "preferred_preauth_types".

Definition MAX_IN_TKT_LOOPS : Z := 16.

(* these are in <kerberosIV/prot.h> as well but it isn't worth including. *)
Definition V4_KRB_PROT_VERSION : Z := 4.
Definition V4_AUTH_MSG_ERR_REPLY : Z := Z.shiftl 5 1.

(** Modelled from the spec: the first component of a TGS principal is
    the literal "krbtgt" (KRB5_TGS_NAME in krb5.h). *)
Definition KRB5_TGS_NAME : string := "krbtgt".

(** ** C strings *)

(** [strspn(p, accept)]: the number of leading characters of [p] that
    occur in [accept]. *)
Fixpoint strspn (p : string) (accept : list ascii) : nat :=
  match p with
  | String c rest =>
      if existsb (Ascii.eqb c) accept then S (strspn rest accept) else O
  | EmptyString => O
  end.

(** [p + n]. *)
Fixpoint advance (n : nat) (p : string) : string :=
  match n, p with
  | S n', String _ rest => advance n' rest
  | _, _ => p
  end.

(** [isspace] in the C locale. *)
Definition isspace (c : ascii) : bool :=
  let n := Z.of_N (N_of_ascii c) in
  (n =? 32) || ((9 <=? n) && (n <=? 13)).

Definition digit_value (c : ascii) : option Z :=
  let n := Z.of_N (N_of_ascii c) in
  if (48 <=? n) && (n <=? 57) then Some (n - 48) else None.

Fixpoint count_space (p : string) : nat :=
  match p with
  | String c rest => if isspace c then S (count_space rest) else O
  | EmptyString => O
  end.

(** The decimal digits at the head of [p]: their number and the value
    they denote after [acc]. *)
Fixpoint read_digits (p : string) (acc : Z) : nat * Z :=
  match p with
  | String c rest =>
      match digit_value c with
      | Some d => let '(n, v) := read_digits rest (10 * acc + d) in (S n, v)
      | None => (O, acc)
      end
  | EmptyString => (O, acc)
  end.

(** [strtol(p, &q, 10)] of ISO C: white space, an optional sign, decimal
    digits; the value is clamped to the range of [long].  The second
    component is [q - p], which is 0 when no conversion is performed. *)
Definition strtol `{headers} (p : string) : Z * nat :=
  let ws := count_space p in
  let p1 := advance ws p in
  let '(neg, sg) :=
    match p1 with
    | String "-"%char _ => (true, 1%nat)
    | String "+"%char _ => (false, 1%nat)
    | _ => (false, 0%nat)
    end in
  let '(nd, v) := read_digits (advance sg p1) 0 in
  match nd with
  | O => (0, O)
  | _ =>
      let v := if neg then - v else v in
      (Z.max LONG_MIN (Z.min LONG_MAX v), (ws + sg + nd)%nat)
  end.

(** The bytes of a buffer read as a C string of at most [n] characters
    (what [strncpy] followed by a terminating NUL leaves). *)
Fixpoint c_string_of_bytes (n : nat) (bs : list byte) : string :=
  match n, bs with
  | S n', b :: rest =>
      if Byte.eqb b x00 then EmptyString
      else String (ascii_of_byte b) (c_string_of_bytes n' rest)
  | _, _ => EmptyString
  end.

(** ** Control flow

    A C function body either goes on with a value, leaves for its
    [cleanup:] label (or returns) with a return value, or is stuck: it
    calls through a NULL pointer, reads outside a buffer, fails an
    [assert], or a loop of the model runs out of fuel. *)
Inductive flow (A : Type) : Type :=
| Next (a : A)
| Leave (code : Z)
| Stuck.

Arguments Next {A} a.
Arguments Leave {A} code.
Arguments Stuck {A}.

Definition M (S A : Type) : Type := S -> flow A * S.

Definition ret {S A} (a : A) : M S A := fun s => (Next a, s).

Definition bind {S A B} (m : M S A) (k : A -> M S B) : M S B := fun s =>
  match m s with
  | (Next a, s') => k a s'
  | (Leave c, s') => (Leave c, s')
  | (Stuck, s') => (Stuck, s')
  end.

Notation "x <- m ;; k" := (bind m (fun x => k))
  (at level 20, m at level 99, k at level 200, only parsing).
Notation "' pat <- m ;; k" := (bind m (fun x => match x with pat => k end))
  (at level 20, pat pattern, m at level 99, k at level 200, only parsing).

Definition leave {S A} (code : Z) : M S A := fun s => (Leave code, s).
Definition stuck {S A} : M S A := fun s => (Stuck, s).

(** [if (code != 0) goto cleanup;] *)
Definition check {S} (code : Z) : M S unit :=
  if code =? 0 then ret tt else leave code.

(** A value that must not be NULL where it is dereferenced. *)
Definition deref {S A} (p : option A) : M S A :=
  match p with
  | Some a => ret a
  | None => stuck
  end.

(** A whole function: what its body leaves with is what it returns. *)
Definition returning {S} (body : M S Z) : M S Z := fun s =>
  match body s with
  | (Next c, s') => (Next c, s')
  | (Leave c, s') => (Next c, s')
  | (Stuck, s') => (Stuck, s')
  end.

(** A body with a [cleanup:] label: [cleanup] runs with the return value
    the body reached the label with. *)
Definition with_cleanup {S} (body : M S Z) (cleanup : Z -> M S Z) : M S Z :=
  code <- returning body ;; cleanup code.

(** [p != NULL]. *)
Definition is_Some_b {A} (p : option A) : bool :=
  match p with Some _ => true | None => false end.

(** C truth of an integer. *)
Definition truthy (z : Z) : bool := negb (z =? 0).

Section Model.

Context `{HD : headers}.

Record krb5_context := mk_context {
  magic : Z;
  profile : profile_t;
  library_options : Z;
  clockskew : Z;
  kdc_default_options : Z
}.

Record krb5_kdc_req := mk_req {
  req_msg_type : Z;
  req_padata : option pa_array;
  req_kdc_options : Z;
  req_client : krb5_principal_data;
  req_server : option krb5_principal_data;
  req_from : Z;
  req_till : Z;
  req_rtime : Z;
  req_nonce : Z;
  req_ktype : list Z;              (* [nktypes] is its length *)
  req_addresses : option (list krb5_address)
}.

Record krb5_enc_kdc_rep_part := mk_enc_part2 {
  enc_session : krb5_keyblock;
  enc_nonce : Z;
  enc_flags : Z;
  enc_times : krb5_ticket_times;
  enc_server : krb5_principal_data;
  enc_caddrs : option (list krb5_address)
}.

Record krb5_ticket := mk_ticket {
  tkt_server : krb5_principal_data;
  tkt_enc_part : krb5_ticket_enc
}.

Record krb5_kdc_rep := mk_rep {
  rep_msg_type : Z;
  rep_padata : option pa_array;
  rep_client : krb5_principal_data;
  rep_ticket : krb5_ticket;
  rep_enctype : Z;                 (* enc_part.enctype *)
  rep_ciphertext : krb5_data;      (* enc_part.ciphertext *)
  rep_enc_part2 : option krb5_enc_kdc_rep_part
}.

Record krb5_error := mk_error {
  err_ctime : Z;
  err_cusec : Z;
  err_susec : Z;
  err_stime : Z;
  err_error : Z;
  err_client : option krb5_principal_data;
  err_server : krb5_principal_data;
  err_text : krb5_data;
  err_e_data : krb5_data
}.

Record krb5_creds := mk_creds {
  cr_client : option krb5_principal_data;
  cr_server : option krb5_principal_data;
  cr_keyblock : krb5_keyblock;
  cr_times : krb5_ticket_times;
  cr_is_skey : bool;
  cr_ticket_flags : Z;
  cr_addresses : option (list krb5_address);
  cr_ticket : krb5_data;
  cr_second_ticket : krb5_data
}.

Context {W : Type}.

(** The function pointer types of the callbacks. *)
Definition git_key_proc : Type :=
  krb5_context -> Z -> krb5_data -> krb5_const_pointer -> W ->
  (Z * krb5_keyblock) * W.

Definition git_decrypt_proc : Type :=
  krb5_context -> krb5_keyblock -> krb5_const_pointer -> krb5_kdc_rep -> W ->
  (Z * krb5_kdc_rep) * W.

(** [gak_fct(context, client, etype, prompter, prompter_data, &salt,
    &s2kparams, &as_key, gak_data)]. *)
Definition krb5_gic_get_as_key_fct : Type :=
  krb5_context -> krb5_principal_data -> Z ->
  krb5_const_pointer -> krb5_const_pointer ->
  krb5_data -> krb5_data -> krb5_keyblock -> krb5_const_pointer -> W ->
  (Z * (krb5_data * krb5_data * krb5_keyblock)) * W.

(** What the pre-auth entry points may change: the request, the padata
    list written through their output pointer, the salt, the
    string-to-key parameters, the enctype and the AS key. *)
Definition preauth_out : Type :=
  krb5_kdc_req * option pa_array * krb5_data * krb5_data * Z * krb5_keyblock.

Definition out_padata_of (po : preauth_out) : option pa_array :=
  let '(_, padata, _, _, _, _) := po in padata.

(** ** Collaborators

    Everything get_in_tkt.c calls but does not define.  An effectful
    collaborator takes the world and returns its return code, the
    values it stores through its output parameters, and the new world;
    the stored values are only looked at where the C code looks at
    them. *)
Class externals := {
  (* macros and inline functions of krb5.h and k5-int.h *)
  krb5_is_krb_error : krb5_data -> bool;
  krb5_is_as_rep : krb5_data -> bool;
  IS_TGS_PRINC : krb5_principal_data -> bool;
  data_eq : krb5_data -> krb5_data -> bool;
  data_eq_string : krb5_data -> string -> bool;
  (* principals *)
  krb5_principal_compare : krb5_principal_data -> krb5_principal_data -> bool;
  krb5_realm_compare : krb5_principal_data -> krb5_principal_data -> bool;
  krb5_copy_principal :
    krb5_context -> krb5_principal_data -> W -> (Z * krb5_principal_data) * W;
  krb5_principal2salt :
    krb5_context -> krb5_principal_data -> W -> (Z * krb5_data) * W;
  krb5_parse_name : krb5_context -> string -> W -> (Z * krb5_principal_data) * W;
  (* krb5_build_principal_ext(context, &princ, rlen, realm, len1, s1, ..., 0) *)
  krb5_build_principal_ext :
    krb5_context -> krb5_data -> list krb5_data -> W ->
    (Z * krb5_principal_data) * W;
  krb5_unparse_name : krb5_context -> krb5_principal_data -> W -> (Z * string) * W;
  krb5_set_error_message : krb5_context -> Z -> string -> W -> W;
  (* memory: malloc, realloc and k5alloc succeed or not *)
  alloc : W -> bool * W;
  strdup : string -> W -> option string * W;
  krb5int_copy_data_contents :
    krb5_context -> krb5_data -> W -> (Z * krb5_data) * W;
  krb5_copy_keyblock_contents :
    krb5_context -> krb5_keyblock -> W -> (Z * krb5_keyblock) * W;
  krb5_copy_addresses :
    krb5_context -> option (list krb5_address) -> W ->
    (Z * option (list krb5_address)) * W;
  krb5int_copy_creds_contents :
    krb5_context -> krb5_creds -> W -> (Z * krb5_creds) * W;
  (* profile_get_values(profile, names, &nameval); the third argument
     is [nameval] before the call *)
  profile_get_values :
    profile_t -> list string -> option (list string) -> W ->
    (Z * option (list string)) * W;
  (* the operating system *)
  krb5_timeofday : krb5_context -> W -> (Z * Z) * W;
  krb5_set_real_time : krb5_context -> Z -> Z -> W -> Z * W;
  krb5_os_localaddr :
    krb5_context -> W -> (Z * option (list krb5_address)) * W;
  (* krb5_sendto_kdc(context, packet, realm, &reply, use_master, tcp_only):
     the code, the reply and [*use_master] afterwards *)
  krb5_sendto_kdc :
    krb5_context -> krb5_data -> krb5_data -> Z -> Z -> W ->
    (Z * krb5_data * Z) * W;
  (* ASN.1 *)
  decode_krb5_error : krb5_data -> W -> (Z * krb5_error) * W;
  decode_krb5_as_rep : krb5_data -> W -> (Z * krb5_kdc_rep) * W;
  decode_krb5_padata_sequence : krb5_data -> W -> (Z * option pa_array) * W;
  encode_krb5_as_req : krb5_kdc_req -> W -> (Z * krb5_data) * W;
  encode_krb5_ticket : krb5_ticket -> W -> (Z * krb5_data) * W;
  (* credential cache *)
  krb5_cc_store_cred : krb5_context -> krb5_ccache -> krb5_creds -> W -> Z * W;
  (* crypto *)
  krb5_kdc_rep_decrypt_proc : git_decrypt_proc;
  (* pre-authentication *)
  krb5_obtain_padata :
    krb5_context -> option pa_array -> option git_key_proc ->
    krb5_const_pointer -> krb5_creds -> krb5_kdc_req -> W ->
    (Z * (krb5_creds * krb5_kdc_req)) * W;
  (* the code, then the request, the reply, the decrypt key, the creds
     and [do_more] afterwards *)
  krb5_process_padata :
    krb5_context -> krb5_kdc_req -> krb5_kdc_rep -> option git_key_proc ->
    krb5_const_pointer -> option git_decrypt_proc -> option krb5_keyblock ->
    krb5_creds -> Z -> W ->
    (Z * (krb5_kdc_req * krb5_kdc_rep * option krb5_keyblock * krb5_creds * Z)) * W;
  (* krb5_do_preauth(context, request, encoded_request_body,
     encoded_previous_request, in_padata, out_padata, salt, s2kparams,
     etype, as_key, prompter, prompter_data, gak_fct, gak_data,
     get_data_rock, opte); the sixth argument is [*out_padata] before
     the call *)
  krb5_do_preauth :
    krb5_context -> krb5_kdc_req -> option krb5_data -> option krb5_data ->
    option pa_array -> option pa_array -> krb5_data -> krb5_data -> Z ->
    krb5_keyblock -> krb5_const_pointer -> krb5_const_pointer ->
    option krb5_gic_get_as_key_fct -> krb5_const_pointer -> opte_t -> W ->
    (Z * preauth_out) * W;
  (* as krb5_do_preauth, with the error reply after [out_padata] *)
  krb5_do_preauth_tryagain :
    krb5_context -> krb5_kdc_req -> option krb5_data -> option krb5_data ->
    option pa_array -> option pa_array -> krb5_error -> krb5_data ->
    krb5_data -> Z -> krb5_keyblock -> krb5_const_pointer ->
    krb5_const_pointer -> option krb5_gic_get_as_key_fct ->
    krb5_const_pointer -> opte_t -> W ->
    (Z * preauth_out) * W;
  krb5_preauth_prepare_request :
    krb5_context -> opte_t -> krb5_kdc_req -> W -> krb5_kdc_req * W;
  krb5_clear_preauth_context_use_counts : krb5_context -> W -> W;
  krb5_preauth_request_context_fini : krb5_context -> W -> W;
  (* FAST *)
  (* the code, then [*err_replyptr], [*out_padata] and [*retry] *)
  krb5int_fast_process_error :
    krb5_context -> fast_state_t -> krb5_error -> W ->
    (Z * (krb5_error * option pa_array * bool)) * W;
  (* the code, the reply afterwards and [*strengthen_key] *)
  krb5int_fast_process_response :
    krb5_context -> fast_state_t -> krb5_kdc_rep -> W ->
    (Z * (krb5_kdc_rep * option krb5_keyblock)) * W;
  krb5int_fast_reply_key :
    krb5_context -> option krb5_keyblock -> krb5_keyblock -> krb5_keyblock ->
    W -> (Z * krb5_keyblock) * W;
  krb5int_fast_as_armor :
    krb5_context -> fast_state_t -> opte_t -> krb5_kdc_req -> W ->
    (Z * krb5_kdc_req) * W;
  krb5int_fast_prep_req_body :
    krb5_context -> fast_state_t -> krb5_kdc_req -> option krb5_data -> W ->
    (Z * option krb5_data) * W;
  (* krb5int_fast_prep_req(context, state, request, encoded_request_body,
     encode_krb5_as_req, &encoded_request) *)
  krb5int_fast_prep_req :
    krb5_context -> fast_state_t -> krb5_kdc_req -> option krb5_data -> W ->
    (Z * option krb5_data) * W
}.

Context {E : externals}.

(** A call of a collaborator from a function whose state is the world. *)
Definition call {A} (f : W -> A * W) : M W A := fun w =>
  let '(a, w') := f w in (Next a, w').

(** ** libdefaults lookup *)

Definition krb5_libdefault_string (context : krb5_context) (realm : krb5_data)
    (option_ : string) (w : W) : (Z * option string) * W :=
  if 1023 <? d_length realm then ((EINVAL, None), w)
  else
    let realmstr :=
      c_string_of_bytes (Z.to_nat (d_length realm)) (default [] (d_data realm)) in
    if negb (magic context =? KV5M_CONTEXT) then ((KV5M_CONTEXT, None), w)
    else
      (* Try number one: [libdefaults] REALM = { option = ... } *)
      let '((retval, nameval), w1) :=
        profile_get_values (profile context)
          [KRB5_CONF_LIBDEFAULTS; realmstr; option_] None w in
      let '((retval, nameval), w2) :=
        match retval =? 0, nameval with
        | true, Some (_ :: _) => ((retval, nameval), w1)
        | _, _ =>
            (* Try number two: [libdefaults] option = ... *)
            profile_get_values (profile context)
              [KRB5_CONF_LIBDEFAULTS; option_] nameval w1
        end in
      (* goodbye: *)
      match nameval with
      | None => ((ENOENT, None), w2)
      | Some [] => ((ENOENT, None), w2)
      | Some (v :: _) =>
          let '(ret_value, w3) := strdup v w2 in
          match ret_value with
          | None => ((ENOMEM, None), w3)
          | Some _ => ((retval, ret_value), w3)
          end
      end.

(** ** Pre-auth ordering *)

(** [for (i = base; padata[i] != NULL; i++) if (padata[i]->pa_type == l)]:
    the index of the first entry of type [l] among the slots [rest],
    which start at index [i], before the terminating NULL. *)
Fixpoint find_pa_type (l : Z) (rest : pa_array) (i : nat) : option nat :=
  match rest with
  | Some e :: rest' =>
      if pa_type e =? l then Some i else find_pa_type l rest' (S i)
  | _ => None
  end.

(** [for (j = i; j > base; j--) padata[j] = padata[j - 1];] with [n]
    iterations left. *)
Fixpoint shift_up (n : nat) (j : nat) (padata : pa_array) : pa_array :=
  match n with
  | O => padata
  | S n' =>
      match padata !! (j - 1)%nat with
      | Some x => shift_up n' (j - 1)%nat (<[j := x]> padata)
      | None => padata
      end
  end.

(** The body run for a valid number [l]: bubble the matching entry to
    the front of the list. *)
Definition bubble_to_front (l : Z) (padata : pa_array) (base : nat)
    : pa_array * nat :=
  match find_pa_type l (drop base padata) base with
  | Some i =>
      match padata !! i with
      | Some tmp => (<[base := tmp]> (shift_up (i - base) i padata), S base)
      | None => (padata, base)
      end
  | None => (padata, base)
  end.

(** [for (p = preauth_types; *p != 0;) { ... }]; [None] when [fuel] runs
    out. *)
Fixpoint sort_loop (fuel : nat) (p : string) (padata : pa_array) (base : nat)
    : option pa_array :=
  match fuel with
  | O => None
  | S fuel' =>
      match p with
      | EmptyString => Some padata
      | _ =>
          (* skip whitespace to find an entry *)
          let p := advance (strspn p [","%char; " "%char]) p in
          match p with
          | EmptyString => sort_loop fuel' p padata base
          | _ =>
              (* see if we can extract a number *)
              let '(l, n) := strtol p in
              match n with
              | O => Some padata
              | _ =>
                  (* got a valid number; search for a matchin entry *)
                  let '(padata', base') := bubble_to_front l padata base in
                  sort_loop fuel' (advance n p) padata' base'
              end
          end
      end
  end.

(** Sort a pa_data sequence so that types named in the
    "preferred_preauth_types" libdefaults entry are listed before any
    others.  The result is the return code and the array afterwards;
    [None] only if the loop over the preference string does not end. *)
Definition sort_krb5_padata_sequence (context : krb5_context)
    (realm : krb5_data) (padata : option pa_array) (w : W)
    : option ((Z * option pa_array) * W) :=
  match padata with
  | None => Some ((0, padata), w)
  | Some arr =>
      match arr with
      | Some _ :: _ =>
          let '((ret, preauth_types), w1) :=
            krb5_libdefault_string context realm
              KRB5_CONF_PREFERRED_PREAUTH_TYPES w in
          let preauth_types :=
            match ret =? 0, preauth_types with
            | true, Some s => s
            | _, _ => (* Try to use PKINIT first. *) "17, 16, 15, 14"%string
            end in
          match sort_loop (S (String.length preauth_types)) preauth_types arr 0 with
          | Some arr' => Some ((0, Some arr'), w1)
          | None => None
          end
      | _ => Some ((0, padata), w)
      end
  end.

(** ** The all-in-one request: send, receive, classify *)

(** One pass from [send_again:] on, with [tcp_only] as given;
    [send_again] is what [goto send_again] continues with.  The result
    is the return value, what was stored through [ret_err_reply] and
    [ret_as_reply] ([None]: nothing was), and [*use_master]. *)
Definition send_as_request_pass (tcp_only : Z)
    (send_again : Z -> M W (Z * option krb5_error * option krb5_kdc_rep * Z))
    (context : krb5_context) (packet realm : krb5_data)
    (ret_err_reply ret_as_reply : bool) (k4_version : byte) (use_master : Z)
    : M W (Z * option krb5_error * option krb5_kdc_rep * Z) :=
  '(retval, reply, use_master) <-
    call (krb5_sendto_kdc context packet realm use_master tcp_only) ;;
  if truthy retval then ret (retval, None, None, use_master)
  else
    (* now decode the reply...could be error or as_rep *)
    if krb5_is_krb_error reply then
      '(retval, err_reply) <- call (decode_krb5_error reply) ;;
      if truthy retval then
        (* some other error code--??? *)
        ret (retval, None, None, use_master)
      else if ret_err_reply then
        if (err_error err_reply =? KRB_ERR_RESPONSE_TOO_BIG) && (tcp_only =? 0)
        then send_again use_master
        else ret (retval, Some err_reply, None, use_master)
      else ret (retval, None, None, use_master)
    else if negb (krb5_is_as_rep reply) then
      (* Check to make sure it isn't a V4 reply. *)
      b1 <- deref (data_at reply 1) ;;
      let t_switch :=
        Z.land (to_uint32 (char_val char_is_signed b1)) (to_uint32 (Z.lnot 1)) in
      if t_switch =? V4_AUTH_MSG_ERR_REPLY then
        b0 <- deref (data_at reply 0) ;;
        if (char_val char_is_signed b0 =? V4_KRB_PROT_VERSION)
           || (char_val char_is_signed b0 =? char_val char_is_signed k4_version)
        then ret (KRB5KRB_AP_ERR_V4_REPLY, None, None, use_master)
        else ret (KRB5KRB_AP_ERR_MSG_TYPE, None, None, use_master)
      else ret (KRB5KRB_AP_ERR_MSG_TYPE, None, None, use_master)
    else
      (* It must be a KRB_AS_REP message, or an bad returned packet *)
      '(retval, as_reply) <- call (decode_krb5_as_rep reply) ;;
      if truthy retval then
        (* some other error code ??? *)
        ret (retval, None, None, use_master)
      else if negb (rep_msg_type as_reply =? KRB5_AS_REP) then
        ret (KRB5KRB_AP_ERR_MSG_TYPE, None, None, use_master)
      else if ret_as_reply then ret (retval, None, Some as_reply, use_master)
      else ret (retval, None, None, use_master).

(** This function sends a request to the KDC, and gets back a response;
    the response is parsed into ret_err_reply or ret_as_reply if the
    reponse is a KRB_ERROR or a KRB_AS_REP packet.  [tcp_only] is 0 on
    the first pass and 1 on the second, which cannot jump back. *)
Definition send_as_request (context : krb5_context) (packet realm : krb5_data)
    (ret_err_reply ret_as_reply : bool) (use_master : Z)
    : M W (Z * option krb5_error * option krb5_kdc_rep * Z) :=
  k4_version <- deref (data_at packet 0) ;;
  send_as_request_pass 0
    (send_as_request_pass 1 (fun _ => stuck)
       context packet realm ret_err_reply ret_as_reply k4_version)
    context packet realm ret_err_reply ret_as_reply k4_version use_master.

(** ** Decrypting the reply *)

(** The result is the return value and the reply afterwards. *)
Definition decrypt_as_reply (context : krb5_context)
    (request : option krb5_kdc_req) (as_reply : krb5_kdc_rep)
    (key_proc : option git_key_proc) (keyseed : krb5_const_pointer)
    (key : option krb5_keyblock)
    (decrypt_proc : option git_decrypt_proc) (decryptarg : krb5_const_pointer)
    : M W (Z * krb5_kdc_rep) :=
  match rep_enc_part2 as_reply with
  | Some _ => ret (0, as_reply)
  | None =>
      decrypt_key <-
        match key with
        | Some k => ret (inr k)
        | None =>
            (* Use salt corresponding to the client principal supplied by
               the KDC, which may differ from the requested principal if
               canonicalization is in effect. *)
            '(retval, salt) <-
              call (krb5_principal2salt context (rep_client as_reply)) ;;
            if truthy retval then ret (inl retval)
            else
              kp <- deref key_proc ;;
              '(retval, decrypt_key) <-
                call (kp context (rep_enctype as_reply) salt keyseed) ;;
              if truthy retval then ret (inl retval)
              else ret (inr decrypt_key)
        end ;;
      match decrypt_key with
      | inl retval => ret (retval, as_reply)
      | inr decrypt_key =>
          dp <- deref decrypt_proc ;;
          '(retval, as_reply) <-
            call (dp context decrypt_key decryptarg as_reply) ;;
          ret (retval, as_reply)
      end
  end.

(** ** Verifying the reply *)

Definition set_enc_part2 (p2 : krb5_enc_kdc_rep_part) (r : krb5_kdc_rep)
    : krb5_kdc_rep :=
  mk_rep (rep_msg_type r) (rep_padata r) (rep_client r) (rep_ticket r)
         (rep_enctype r) (rep_ciphertext r) (Some p2).

Definition set_starttime (t : Z) (p2 : krb5_enc_kdc_rep_part)
    : krb5_enc_kdc_rep_part :=
  mk_enc_part2 (enc_session p2) (enc_nonce p2) (enc_flags p2)
    (mk_times (authtime (enc_times p2)) t (endtime (enc_times p2))
              (renew_till (enc_times p2)))
    (enc_server p2) (enc_caddrs p2).

(** We only allow the AS-REP server name to be changed if the caller
    set the canonicalize flag (or requested an enterprise principal)
    and we requested (and received) a TGT. *)
Definition canon_req_of (request : krb5_kdc_req) : bool :=
  truthy (Z.land (req_kdc_options request) KDC_OPT_CANONICALIZE)
  || (princ_type (req_client request) =? KRB5_NT_ENTERPRISE_PRINCIPAL).

(** The result is the return value and the reply afterwards (its
    starttime may have been filled in). *)
Definition verify_as_reply (context : krb5_context) (time_now : Z)
    (request : krb5_kdc_req) (as_reply : krb5_kdc_rep)
    : M W (Z * krb5_kdc_rep) :=
  p2 <- deref (rep_enc_part2 as_reply) ;;
  (* check the contents for sanity: *)
  let p2 :=
    if starttime (enc_times p2) =? 0
    then set_starttime (authtime (enc_times p2)) p2 else p2 in
  let as_reply := set_enc_part2 p2 as_reply in
  let canon_req := canon_req_of request in
  canon_ok <-
    (if canon_req then
       server <- deref (req_server request) ;;
       ret (IS_TGS_PRINC server && IS_TGS_PRINC (enc_server p2))
     else ret false) ;;
  names_differ <-
    (if canon_ok then ret false
     else if negb (krb5_principal_compare (rep_client as_reply)
                     (req_client request)) then ret true
     else
       server <- deref (req_server request) ;;
       ret (negb (krb5_principal_compare (enc_server p2) server))) ;;
  if names_differ
     || negb (krb5_principal_compare (enc_server p2)
                (tkt_server (rep_ticket as_reply)))
     || negb (req_nonce request =? enc_nonce p2)
     || (truthy (Z.land (req_kdc_options request) KDC_OPT_POSTDATED)
         && negb (req_from request =? 0)
         && negb (req_from request =? starttime (enc_times p2)))
     || (negb (req_till request =? 0)
         && (endtime (enc_times p2) >? req_till request))
     || (truthy (Z.land (req_kdc_options request) KDC_OPT_RENEWABLE)
         && negb (req_rtime request =? 0)
         && (renew_till (enc_times p2) >? req_rtime request))
     || (truthy (Z.land (req_kdc_options request) KDC_OPT_RENEWABLE_OK)
         && negb (truthy (Z.land (req_kdc_options request) KDC_OPT_RENEWABLE))
         && truthy (Z.land (enc_flags p2) KDC_OPT_RENEWABLE)
         && negb (req_till request =? 0)
         && (renew_till (enc_times p2) >? req_till request))
  then ret (KRB5_KDCREP_MODIFIED, as_reply)
  else if truthy (Z.land (library_options context) KRB5_LIBOPT_SYNC_KDCTIME) then
    retval <- call (krb5_set_real_time context (authtime (enc_times p2)) (-1)) ;;
    ret (retval, as_reply)
  else if (req_from request =? 0)
          && (Z.abs (wrap32 (starttime (enc_times p2) - time_now))
              >? clockskew context)
  then ret (KRB5_KDCREP_SKEW, as_reply)
  else ret (0, as_reply).

(** ** Filling in the credentials *)

Definition set_cr_keyblock (k : krb5_keyblock) (c : krb5_creds) : krb5_creds :=
  mk_creds (cr_client c) (cr_server c) k (cr_times c) (cr_is_skey c)
    (cr_ticket_flags c) (cr_addresses c) (cr_ticket c) (cr_second_ticket c).

Definition set_cr_addresses (a : option (list krb5_address)) (c : krb5_creds)
    : krb5_creds :=
  mk_creds (cr_client c) (cr_server c) (cr_keyblock c) (cr_times c)
    (cr_is_skey c) (cr_ticket_flags c) a (cr_ticket c) (cr_second_ticket c).

Definition set_cr_ticket (t : krb5_data) (c : krb5_creds) : krb5_creds :=
  mk_creds (cr_client c) (cr_server c) (cr_keyblock c) (cr_times c)
    (cr_is_skey c) (cr_ticket_flags c) (cr_addresses c) t (cr_second_ticket c).

(** The part of [stash_as_reply] under [cleanup:] that runs when
    [retval] is not 0. *)
Definition stash_cleanup (creds : krb5_creds) : krb5_creds :=
  let creds :=
    match key_contents (cr_keyblock creds) with
    | Some _ => set_cr_keyblock (mk_key (key_enctype (cr_keyblock creds)) 0 None) creds
    | None => creds
    end in
  let creds :=
    match d_data (cr_ticket creds) with
    | Some _ => set_cr_ticket (mk_data (d_length (cr_ticket creds)) None) creds
    | None => creds
    end in
  match cr_addresses creds with
  | Some _ => set_cr_addresses None creds
  | None => creds
  end.

(** The result is the return value and the credentials afterwards. *)
Definition stash_as_reply (context : krb5_context) (time_now : Z)
    (request : krb5_kdc_req) (as_reply : krb5_kdc_rep) (creds : krb5_creds)
    (ccache : option krb5_ccache) : M W (Z * krb5_creds) :=
  p2 <- deref (rep_enc_part2 as_reply) ;;
  let fail (retval : Z) (creds : krb5_creds) : M W (Z * krb5_creds) :=
    ret (retval, stash_cleanup creds) in
  '(retval, client) <-
    match cr_client creds with
    | None => call (krb5_copy_principal context (rep_client as_reply))
    | Some c => ret (0, c)
    end ;;
  if truthy retval then fail retval creds
  else
    '(retval, server) <-
      match cr_server creds with
      | None => call (krb5_copy_principal context (enc_server p2))
      | Some s => ret (0, s)
      end ;;
    if truthy retval then fail retval creds
    else
      (* fill in the credentials *)
      '(retval, keyblock) <-
        call (krb5_copy_keyblock_contents context (enc_session p2)) ;;
      let creds := set_cr_keyblock keyblock creds in
      if truthy retval then fail retval creds
      else
        let creds :=
          mk_creds (cr_client creds) (cr_server creds) (cr_keyblock creds)
            (enc_times p2)
            false   (* this is an AS_REQ, so cannot be encrypted in skey *)
            (enc_flags p2) (cr_addresses creds) (cr_ticket creds)
            (cr_second_ticket creds) in
        '(retval, addresses) <- call (krb5_copy_addresses context (enc_caddrs p2)) ;;
        let creds := set_cr_addresses addresses creds in
        if truthy retval then fail retval creds
        else
          let creds :=
            mk_creds (cr_client creds) (cr_server creds) (cr_keyblock creds)
              (cr_times creds) (cr_is_skey creds) (cr_ticket_flags creds)
              (cr_addresses creds) (cr_ticket creds) (mk_data 0 None) in
          '(retval, packet) <- call (encode_krb5_ticket (rep_ticket as_reply)) ;;
          if truthy retval then fail retval creds
          else
            let creds := set_cr_ticket packet creds in
            (* store it in the ccache! *)
            retval <-
              match ccache with
              | Some cc => call (krb5_cc_store_cred context cc creds)
              | None => ret retval
              end ;;
            if truthy retval then fail retval creds
            else
              ret (retval,
                    mk_creds
                      (match cr_client creds with
                       | None => Some client | c => c end)
                      (match cr_server creds with
                       | None => Some server | s => s end)
                      (cr_keyblock creds) (cr_times creds) (cr_is_skey creds)
                      (cr_ticket_flags creds) (cr_addresses creds)
                      (cr_ticket creds) (cr_second_ticket creds)).

(** ** Small helpers of the all-in-one routine *)

Definition set_req_padata (v : option pa_array) (r : krb5_kdc_req)
    : krb5_kdc_req :=
  mk_req (req_msg_type r) v (req_kdc_options r) (req_client r)
    (req_server r) (req_from r) (req_till r) (req_rtime r) (req_nonce r)
    (req_ktype r) (req_addresses r).

Definition set_req_kdc_options (v : Z) (r : krb5_kdc_req) : krb5_kdc_req :=
  mk_req (req_msg_type r) (req_padata r) v (req_client r) (req_server r)
    (req_from r) (req_till r) (req_rtime r) (req_nonce r) (req_ktype r)
    (req_addresses r).

Definition set_req_client (v : krb5_principal_data) (r : krb5_kdc_req)
    : krb5_kdc_req :=
  mk_req (req_msg_type r) (req_padata r) (req_kdc_options r) v
    (req_server r) (req_from r) (req_till r) (req_rtime r) (req_nonce r)
    (req_ktype r) (req_addresses r).

Definition set_req_server (v : option krb5_principal_data) (r : krb5_kdc_req)
    : krb5_kdc_req :=
  mk_req (req_msg_type r) (req_padata r) (req_kdc_options r) (req_client r)
    v (req_from r) (req_till r) (req_rtime r) (req_nonce r) (req_ktype r)
    (req_addresses r).

Definition set_req_from (v : Z) (r : krb5_kdc_req) : krb5_kdc_req :=
  mk_req (req_msg_type r) (req_padata r) (req_kdc_options r) (req_client r)
    (req_server r) v (req_till r) (req_rtime r) (req_nonce r) (req_ktype r)
    (req_addresses r).

Definition set_req_rtime (v : Z) (r : krb5_kdc_req) : krb5_kdc_req :=
  mk_req (req_msg_type r) (req_padata r) (req_kdc_options r) (req_client r)
    (req_server r) (req_from r) (req_till r) v (req_nonce r) (req_ktype r)
    (req_addresses r).

Definition set_req_nonce (v : Z) (r : krb5_kdc_req) : krb5_kdc_req :=
  mk_req (req_msg_type r) (req_padata r) (req_kdc_options r) (req_client r)
    (req_server r) (req_from r) (req_till r) (req_rtime r) v (req_ktype r)
    (req_addresses r).

Definition set_princ_realm (v : krb5_data) (p : krb5_principal_data)
    : krb5_principal_data :=
  mk_princ v (princ_data p) (princ_type p).

(** [for (nptypes=0, ptypep = ptypes; *ptypep; ptypep++, nptypes++);] *)
Fixpoint count_until_zero (cells : list Z) : option nat :=
  match cells with
  | [] => None
  | c :: rest => if c =? 0 then Some O else S <$> count_until_zero rest
  end.

(** The loop of [make_preauth_list] over [i < nptypes], [n] entries to
    go; [None] when a [malloc] fails. *)
Fixpoint make_preauth_entries (n : nat) (i : nat) (ptypes : list Z)
    : M W (option (list krb5_pa_data)) :=
  match n with
  | O => ret (Some [])
  | S n' =>
      ok <- call alloc ;;
      if ok : bool then
        ptype <- deref (ptypes !! i) ;;
        rest <- make_preauth_entries n' (S i) ptypes ;;
        ret (cons (mk_pa ptype 0 None) <$> rest)
      else ret None
  end.

Definition make_preauth_list (context : krb5_context) (ptypes : list Z)
    (nptypes : Z) : M W (Z * option pa_array) :=
  n <- (if nptypes <? 0 then deref (count_until_zero ptypes)
        else ret (Z.to_nat nptypes)) ;;
  (* allocate space for a NULL to terminate the list *)
  ok <- call alloc ;;
  if ok : bool then
    entries <- make_preauth_entries n 0 ptypes ;;
    match entries with
    | Some es =>
        (* fill in the terminating NULL *)
        ret (0, Some (map Some es ++ [None]))
    | None => ret (ENOMEM, None)
    end
  else ret (ENOMEM, None).

(** The result is the return value and [*server]. *)
Definition rewrite_server_realm (context : krb5_context)
    (old_server : krb5_principal_data) (realm : krb5_data) (tgs : bool)
    : M W (Z * option krb5_principal_data) :=
  '(retval, server) <- call (krb5_copy_principal context old_server) ;;
  if truthy retval then ret (retval, None)
  else
    '(retval, new_realm) <- call (krb5int_copy_data_contents context realm) ;;
    let server := set_princ_realm new_realm server in
    if truthy retval then ret (retval, None)
    else if tgs then
      _ <- deref (princ_data server !! 1%nat) ;;
      '(retval, comp) <- call (krb5int_copy_data_contents context realm) ;;
      if truthy retval then ret (retval, None)
      else ret (retval,
                Some (mk_princ (princ_realm server)
                        (<[1%nat := comp]> (princ_data server))
                        (princ_type server)))
    else ret (retval, Some server).

Definition tgt_is_local_realm (creds : krb5_creds) : M W bool :=
  server <- deref (cr_server creds) ;;
  if negb (length (princ_data server) =? 2)%nat then ret false
  else
    c0 <- deref (princ_data server !! 0%nat) ;;
    if negb (data_eq_string c0 KRB5_TGS_NAME) then ret false
    else
      c1 <- deref (princ_data server !! 1%nat) ;;
      client <- deref (cr_client creds) ;;
      ret (data_eq c1 (princ_realm client)
           && data_eq (princ_realm server) (princ_realm client)).

(** [for (i = next + 1; i < request.nktypes; i++)
       if (ktypes[req] == request.ktype[i])], [n] indices to go. *)
Fixpoint find_ktype (k : Z) (ktype : list Z) (i n : nat) : option nat :=
  match n with
  | O => None
  | S n' =>
      match ktype !! i with
      | Some t => if k =? t then Some i else find_ktype k ktype (S i) n'
      | None => None
      end
  end.

(** [for (req = 0; ktypes[req]; req++) { ... }] over the caller's list:
    the array and [next] afterwards; stuck when the caller's list has no
    final 0. *)
Fixpoint order_ktypes (ktypes : list Z) (ktype : list Z) (nktypes next : nat)
    : M W (list Z * nat) :=
  match ktypes with
  | [] => stuck
  | k :: rest =>
      if k =? 0 then ret (ktype, next)
      else
        t <- deref (ktype !! next) ;;
        if k =? t then order_ktypes rest ktype nktypes (S next)
        else
          match find_ktype k ktype (S next) (nktypes - S next) with
          | Some i =>
              (* Found the enctype we want, but not in the position we
                 want.  Move it, but keep the old one from the desired
                 slot around in case it's later in our requested-ktypes
                 list.  *)
              order_ktypes rest (<[i := t]> (<[next := k]> ktype)) nktypes
                (S next)
          | None =>
              (* If we didn't find it, don't do anything special, just
                 drop it.  *)
              order_ktypes rest ktype nktypes next
          end
  end.

(** ** The all-in-one routine *)

(** A collaborator or a function on the world, called from a function
    that also has local state. *)
Definition on_world {S A} (m : M W A) : M (S * W) A := fun sw =>
  let '(r, w') := m (snd sw) in (r, (fst sw, w')).

Definition callw {S A} (f : W -> A * W) : M (S * W) A := on_world (call f).

Definition locals {S} : M (S * W) S := fun sw => (Next (fst sw), sw).

Definition update {S} (f : S -> S) : M (S * W) unit := fun sw =>
  (Next tt, (f (fst sw), snd sw)).

(** The ordering as the callers use it: stuck where the model of the
    loop over the preference string gives no result. *)
Definition sort_padata (context : krb5_context) (realm : krb5_data)
    (padata : option pa_array) : M W (Z * option pa_array) := fun w =>
  match sort_krb5_padata_sequence context realm padata w with
  | Some (r, w') => (Next r, w')
  | None => (Stuck, w)
  end.

(** The local variables of [krb5_get_in_tkt] that live across the loop. *)
Record git_locals := mk_git {
  g_request : krb5_kdc_req;
  g_creds : krb5_creds;
  g_preauth_to_use : option pa_array;
  g_loopcount : Z;
  g_do_more : Z;
  g_use_master : Z;
  g_referral_count : Z;
  g_referred_client : krb5_principal_data;
  g_referred_server : option krb5_principal_data;
  g_decrypt_key : option krb5_keyblock;
  g_as_reply : option krb5_kdc_rep;
  g_time_now : Z
}.

Definition set_g_request (v : krb5_kdc_req) (g : git_locals) : git_locals :=
  mk_git v (g_creds g) (g_preauth_to_use g) (g_loopcount g) (g_do_more g)
    (g_use_master g) (g_referral_count g) (g_referred_client g)
    (g_referred_server g) (g_decrypt_key g) (g_as_reply g) (g_time_now g).

Definition set_g_creds (v : krb5_creds) (g : git_locals) : git_locals :=
  mk_git (g_request g) v (g_preauth_to_use g) (g_loopcount g) (g_do_more g)
    (g_use_master g) (g_referral_count g) (g_referred_client g)
    (g_referred_server g) (g_decrypt_key g) (g_as_reply g) (g_time_now g).

Definition set_g_preauth_to_use (v : option pa_array) (g : git_locals)
    : git_locals :=
  mk_git (g_request g) (g_creds g) v (g_loopcount g) (g_do_more g)
    (g_use_master g) (g_referral_count g) (g_referred_client g)
    (g_referred_server g) (g_decrypt_key g) (g_as_reply g) (g_time_now g).

Definition set_g_loopcount (v : Z) (g : git_locals) : git_locals :=
  mk_git (g_request g) (g_creds g) (g_preauth_to_use g) v (g_do_more g)
    (g_use_master g) (g_referral_count g) (g_referred_client g)
    (g_referred_server g) (g_decrypt_key g) (g_as_reply g) (g_time_now g).

Definition set_g_do_more (v : Z) (g : git_locals) : git_locals :=
  mk_git (g_request g) (g_creds g) (g_preauth_to_use g) (g_loopcount g) v
    (g_use_master g) (g_referral_count g) (g_referred_client g)
    (g_referred_server g) (g_decrypt_key g) (g_as_reply g) (g_time_now g).

Definition set_g_use_master (v : Z) (g : git_locals) : git_locals :=
  mk_git (g_request g) (g_creds g) (g_preauth_to_use g) (g_loopcount g)
    (g_do_more g) v (g_referral_count g) (g_referred_client g)
    (g_referred_server g) (g_decrypt_key g) (g_as_reply g) (g_time_now g).

Definition set_g_referral_count (v : Z) (g : git_locals) : git_locals :=
  mk_git (g_request g) (g_creds g) (g_preauth_to_use g) (g_loopcount g)
    (g_do_more g) (g_use_master g) v (g_referred_client g)
    (g_referred_server g) (g_decrypt_key g) (g_as_reply g) (g_time_now g).

Definition set_g_referred_client (v : krb5_principal_data) (g : git_locals)
    : git_locals :=
  mk_git (g_request g) (g_creds g) (g_preauth_to_use g) (g_loopcount g)
    (g_do_more g) (g_use_master g) (g_referral_count g) v
    (g_referred_server g) (g_decrypt_key g) (g_as_reply g) (g_time_now g).

Definition set_g_referred_server (v : option krb5_principal_data) (g : git_locals)
    : git_locals :=
  mk_git (g_request g) (g_creds g) (g_preauth_to_use g) (g_loopcount g)
    (g_do_more g) (g_use_master g) (g_referral_count g)
    (g_referred_client g) v (g_decrypt_key g) (g_as_reply g) (g_time_now g).

Definition set_g_decrypt_key (v : option krb5_keyblock) (g : git_locals)
    : git_locals :=
  mk_git (g_request g) (g_creds g) (g_preauth_to_use g) (g_loopcount g)
    (g_do_more g) (g_use_master g) (g_referral_count g)
    (g_referred_client g) (g_referred_server g) v (g_as_reply g)
    (g_time_now g).

Definition set_g_as_reply (v : option krb5_kdc_rep) (g : git_locals)
    : git_locals :=
  mk_git (g_request g) (g_creds g) (g_preauth_to_use g) (g_loopcount g)
    (g_do_more g) (g_use_master g) (g_referral_count g)
    (g_referred_client g) (g_referred_server g) (g_decrypt_key g) v
    (g_time_now g).

Definition set_g_time_now (v : Z) (g : git_locals) : git_locals :=
  mk_git (g_request g) (g_creds g) (g_preauth_to_use g) (g_loopcount g)
    (g_do_more g) (g_use_master g) (g_referral_count g)
    (g_referred_client g) (g_referred_server g) (g_decrypt_key g)
    (g_as_reply g) v.

(** The body of [while (1) { ... }]: [true] for [continue], [false] for
    [break]; leaving is [goto cleanup]. *)
Definition get_in_tkt_iteration (context : krb5_context)
    (key_proc : option git_key_proc) (keyseed : krb5_const_pointer)
    (decrypt_proc : option git_decrypt_proc)
    (canon_flag is_tgt_req : bool) : M (git_locals * W) bool :=
  g <- locals ;;
  let loopcount := g_loopcount g in
  _ <- update (set_g_loopcount (loopcount + 1)) ;;
  if loopcount >? MAX_IN_TKT_LOOPS then leave KRB5_GET_IN_TKT_LOOP
  else
    '(retval, (creds, request)) <-
      callw (krb5_obtain_padata context (g_preauth_to_use g) key_proc keyseed
               (g_creds g) (g_request g)) ;;
    _ <- update (fun g => set_g_creds creds (set_g_request request g)) ;;
    _ <- check retval ;;
    _ <- update (set_g_preauth_to_use None) ;;
    (* err_reply = 0; as_reply = 0; *)
    _ <- update (set_g_as_reply None) ;;
    '(retval, time_now) <- callw (krb5_timeofday context) ;;
    _ <- update (set_g_time_now time_now) ;;
    _ <- check retval ;;
    (* XXX we know they are the same size... and we should do something
       better than just the current time *)
    let request := set_req_nonce time_now request in
    _ <- update (set_g_request request) ;;
    '(retval, encoded_request) <- callw (encode_krb5_as_req request) ;;
    _ <- check retval ;;
    '(retval, err_reply, as_reply, use_master) <-
      on_world (send_as_request context encoded_request
                  (princ_realm (req_client request)) true true
                  (g_use_master g)) ;;
    _ <- update (fun g => set_g_use_master use_master (set_g_as_reply as_reply g)) ;;
    _ <- check retval ;;
    match err_reply with
    | Some err_reply =>
        if (err_error err_reply =? KDC_ERR_PREAUTH_REQUIRED)
           && (d_length (err_e_data err_reply) >? 0) then
          '(retval, preauth_to_use) <-
            callw (decode_krb5_padata_sequence (err_e_data err_reply)) ;;
          _ <- update (set_g_preauth_to_use preauth_to_use) ;;
          _ <- check retval ;;
          server <- deref (req_server request) ;;
          '(retval, preauth_to_use) <-
            on_world (sort_padata context (princ_realm server) preauth_to_use) ;;
          _ <- update (set_g_preauth_to_use preauth_to_use) ;;
          _ <- check retval ;;
          ret true
        else if canon_flag && (err_error err_reply =? KDC_ERR_WRONG_REALM) then
          let referral_count := g_referral_count g + 1 in
          _ <- update (set_g_referral_count referral_count) ;;
          match err_client err_reply with
          | Some err_client =>
              if (referral_count >? KRB5_REFERRAL_MAXHOPS)
                 || (d_length (princ_realm err_client) =? 0)
              then leave KRB5KDC_ERR_WRONG_REALM
              else
                (* Rewrite request.client with realm from error reply *)
                '(retval, realm) <-
                  callw (krb5int_copy_data_contents context
                           (princ_realm err_client)) ;;
                let referred_client :=
                  set_princ_realm realm (g_referred_client g) in
                _ <- update (set_g_referred_client referred_client) ;;
                _ <- check retval ;;
                let request := set_req_client referred_client request in
                _ <- update (fun g =>
                       set_g_referred_server None (set_g_request request g)) ;;
                old_server <- deref (cr_server creds) ;;
                '(retval, referred_server) <-
                  on_world (rewrite_server_realm context old_server
                              (princ_realm referred_client) is_tgt_req) ;;
                _ <- update (set_g_referred_server referred_server) ;;
                _ <- check retval ;;
                _ <- update (set_g_request (set_req_server referred_server request)) ;;
                ret true
          | None => leave KRB5KDC_ERR_WRONG_REALM
          end
        else
          leave (wrap32 (wrap32 (err_error err_reply) + ERROR_TABLE_BASE_krb5))
    | None =>
        match as_reply with
        | None => leave KRB5KRB_AP_ERR_MSG_TYPE
        | Some as_reply =>
            '(retval, (request, as_reply, decrypt_key, creds, do_more)) <-
              callw (krb5_process_padata context request as_reply key_proc
                       keyseed decrypt_proc (g_decrypt_key g) creds
                       (g_do_more g)) ;;
            _ <- update (fun g =>
                   set_g_request request (set_g_as_reply (Some as_reply)
                     (set_g_decrypt_key decrypt_key (set_g_creds creds
                        (set_g_do_more do_more g))))) ;;
            _ <- check retval ;;
            ret (truthy do_more)
        end
    end.

(** [while (1) { ... }]; stuck when [fuel] runs out. *)
Fixpoint get_in_tkt_loop (fuel : nat) (context : krb5_context)
    (key_proc : option git_key_proc) (keyseed : krb5_const_pointer)
    (decrypt_proc : option git_decrypt_proc)
    (canon_flag is_tgt_req : bool) : M (git_locals * W) unit :=
  match fuel with
  | O => stuck
  | S fuel' =>
      again <- get_in_tkt_iteration context key_proc keyseed decrypt_proc
                 canon_flag is_tgt_req ;;
      if again : bool then
        get_in_tkt_loop fuel' context key_proc keyseed decrypt_proc
          canon_flag is_tgt_req
      else ret tt
  end.

(** From the loop to [cleanup:]. *)
Definition get_in_tkt_negotiate (context : krb5_context)
    (key_proc : option git_key_proc) (keyseed : krb5_const_pointer)
    (decrypt_proc : option git_decrypt_proc) (decryptarg : krb5_const_pointer)
    (ccache : option krb5_ccache) (canon_flag is_tgt_req : bool)
    : M (git_locals * W) Z :=
  returning (
    _ <- get_in_tkt_loop (Z.to_nat (MAX_IN_TKT_LOOPS + 2)) context key_proc keyseed
           decrypt_proc canon_flag is_tgt_req ;;
    g <- locals ;;
    as_reply <- deref (g_as_reply g) ;;
    '(retval, as_reply) <-
      on_world (decrypt_as_reply context (Some (g_request g)) as_reply key_proc
                  keyseed (g_decrypt_key g) decrypt_proc decryptarg) ;;
    _ <- update (set_g_as_reply (Some as_reply)) ;;
    _ <- check retval ;;
    '(retval, as_reply) <-
      on_world (verify_as_reply context (g_time_now g) (g_request g) as_reply) ;;
    _ <- update (set_g_as_reply (Some as_reply)) ;;
    _ <- check retval ;;
    '(retval, creds) <-
      on_world (stash_as_reply context (g_time_now g) (g_request g) as_reply
                  (g_creds g) ccache) ;;
    _ <- update (set_g_creds creds) ;;
    ret retval).

(** All-purpose initial ticket routine.  [ret_as_reply] is [None] for a
    NULL pointer and otherwise holds what it points to.  The result is
    the return value, the credentials and [*ret_as_reply] afterwards,
    with the locals as the routine leaves them. *)
Definition krb5_get_in_tkt (context : krb5_context) (options : Z)
    (addrs : option (list krb5_address)) (ktypes ptypes : option (list Z))
    (key_proc : option git_key_proc) (keyseed : krb5_const_pointer)
    (decrypt_proc : option git_decrypt_proc) (decryptarg : krb5_const_pointer)
    (creds : krb5_creds) (ccache : option krb5_ccache)
    (ret_as_reply : option (option krb5_kdc_rep))
    : M W (Z * krb5_creds * option (option krb5_kdc_rep) * option git_locals) :=
  client <- deref (cr_client creds) ;;
  server <- deref (cr_server creds) ;;
  if negb (krb5_realm_compare client server) then
    ret (KRB5_IN_TKT_REALM_MISMATCH, creds, ret_as_reply, None)
  else
    let ret_as_reply := (fun _ => None) <$> ret_as_reply in
    let referred_client := set_princ_realm (mk_data 0 None) client in
    (* per referrals draft, enterprise principals imply canonicalization *)
    let canon_flag :=
      truthy (Z.land options KDC_OPT_CANONICALIZE)
      || (princ_type client =? KRB5_NT_ENTERPRISE_PRINCIPAL) in
    (* Set up the basic request structure *)
    let request0 (addresses : option (list krb5_address)) (ktype : list Z) :=
      mk_req KRB5_AS_REQ None options client (Some server)
        (starttime (cr_times creds)) (endtime (cr_times creds))
        (renew_till (cr_times creds)) 0 ktype addresses in
    let locals0 (request : krb5_kdc_req) (preauth_to_use : option pa_array) :=
      mk_git request creds preauth_to_use 0 0 0 0 referred_client None None
        None 0 in
    let finish (retval : Z) (g : git_locals) :=
      (* cleanup: *)
      ret (retval, g_creds g,
           match g_as_reply g, ret_as_reply with
           | Some as_reply, Some _ => Some (Some as_reply)
           | _, _ => ret_as_reply
           end, Some g) in
    '(retval, addresses) <-
      match addrs with
      | Some _ => ret (0, addrs)
      | None => call (krb5_os_localaddr context)
      end ;;
    if truthy retval then finish retval (locals0 (request0 addresses []) None)
    else
      ok <- call alloc ;;
      if ok : bool then
        let ktype := get_in_tkt_enctypes ++ [0] in
        nktypes <- deref (count_until_zero ktype) ;;
        ktype <-
          match ktypes with
          | Some ktypes =>
              '(ktype, next) <- order_ktypes ktypes ktype nktypes 0 ;;
              ret (take next ktype)
          | None => ret (take nktypes ktype)
          end ;;
        let request := request0 addresses ktype in
        (* If a list of preauth types are passed in, convert it to a
           preauth_to_use list. *)
        '(retval, preauth_to_use) <-
          match ptypes with
          | Some ptypes => make_preauth_list context ptypes (-1)
          | None => ret (0, None)
          end ;;
        if truthy retval then finish retval (locals0 request preauth_to_use)
        else
          is_tgt_req <- tgt_is_local_realm creds ;;
          fun w =>
            match get_in_tkt_negotiate context key_proc keyseed decrypt_proc
                    decryptarg ccache canon_flag is_tgt_req
                    (locals0 request preauth_to_use, w) with
            | (Next retval, (g, w')) | (Leave retval, (g, w')) =>
                finish retval g w'
            | (Stuck, (_, w')) => (Stuck, w')
            end
      else finish ENOMEM (locals0 (request0 addresses []) None).


(** ** The step API: the context *)

(** [struct _krb5_init_creds_context] (init_creds_ctx.h), as
    get_in_tkt.c uses it. *)
Record krb5_init_creds_context := mk_ctx {
  opte : opte_t;
  in_tkt_service : option string;
  prompter : krb5_const_pointer;
  prompter_data : krb5_const_pointer;
  gak_fct : option krb5_gic_get_as_key_fct;
  gak_data : krb5_const_pointer;
  request_time : Z;
  start_time : Z;
  tkt_life : Z;
  renew_life : Z;
  loopcount : Z;
  password : krb5_data;
  err_reply : option krb5_error;
  cred : krb5_creds;
  request : krb5_kdc_req;
  reply : option krb5_kdc_rep;
  encoded_request_body : option krb5_data;
  encoded_previous_request : option krb5_data;
  fast_state : fast_state_t;
  preauth_to_use : option pa_array;
  salt : krb5_data;
  s2kparams : krb5_data;
  as_key : krb5_keyblock;
  etype : Z
}.

Definition set_gak_fct (v : option krb5_gic_get_as_key_fct) (c : krb5_init_creds_context)
    : krb5_init_creds_context :=
  mk_ctx (opte c) (in_tkt_service c) (prompter c) (prompter_data c) v
    (gak_data c) (request_time c) (start_time c) (tkt_life c) (renew_life c)
    (loopcount c) (password c) (err_reply c) (cred c) (request c) (reply c)
    (encoded_request_body c) (encoded_previous_request c) (fast_state c)
    (preauth_to_use c) (salt c) (s2kparams c) (as_key c) (etype c).

Definition set_gak_data (v : krb5_const_pointer) (c : krb5_init_creds_context)
    : krb5_init_creds_context :=
  mk_ctx (opte c) (in_tkt_service c) (prompter c) (prompter_data c)
    (gak_fct c) v (request_time c) (start_time c) (tkt_life c)
    (renew_life c) (loopcount c) (password c) (err_reply c) (cred c)
    (request c) (reply c) (encoded_request_body c)
    (encoded_previous_request c) (fast_state c) (preauth_to_use c) (salt c)
    (s2kparams c) (as_key c) (etype c).

Definition set_request_time (v : Z) (c : krb5_init_creds_context)
    : krb5_init_creds_context :=
  mk_ctx (opte c) (in_tkt_service c) (prompter c) (prompter_data c)
    (gak_fct c) (gak_data c) v (start_time c) (tkt_life c) (renew_life c)
    (loopcount c) (password c) (err_reply c) (cred c) (request c) (reply c)
    (encoded_request_body c) (encoded_previous_request c) (fast_state c)
    (preauth_to_use c) (salt c) (s2kparams c) (as_key c) (etype c).

Definition set_loopcount (v : Z) (c : krb5_init_creds_context)
    : krb5_init_creds_context :=
  mk_ctx (opte c) (in_tkt_service c) (prompter c) (prompter_data c)
    (gak_fct c) (gak_data c) (request_time c) (start_time c) (tkt_life c)
    (renew_life c) v (password c) (err_reply c) (cred c) (request c)
    (reply c) (encoded_request_body c) (encoded_previous_request c)
    (fast_state c) (preauth_to_use c) (salt c) (s2kparams c) (as_key c)
    (etype c).

Definition set_err_reply (v : option krb5_error) (c : krb5_init_creds_context)
    : krb5_init_creds_context :=
  mk_ctx (opte c) (in_tkt_service c) (prompter c) (prompter_data c)
    (gak_fct c) (gak_data c) (request_time c) (start_time c) (tkt_life c)
    (renew_life c) (loopcount c) (password c) v (cred c) (request c)
    (reply c) (encoded_request_body c) (encoded_previous_request c)
    (fast_state c) (preauth_to_use c) (salt c) (s2kparams c) (as_key c)
    (etype c).

Definition set_cred (v : krb5_creds) (c : krb5_init_creds_context)
    : krb5_init_creds_context :=
  mk_ctx (opte c) (in_tkt_service c) (prompter c) (prompter_data c)
    (gak_fct c) (gak_data c) (request_time c) (start_time c) (tkt_life c)
    (renew_life c) (loopcount c) (password c) (err_reply c) v (request c)
    (reply c) (encoded_request_body c) (encoded_previous_request c)
    (fast_state c) (preauth_to_use c) (salt c) (s2kparams c) (as_key c)
    (etype c).

Definition set_request (v : krb5_kdc_req) (c : krb5_init_creds_context)
    : krb5_init_creds_context :=
  mk_ctx (opte c) (in_tkt_service c) (prompter c) (prompter_data c)
    (gak_fct c) (gak_data c) (request_time c) (start_time c) (tkt_life c)
    (renew_life c) (loopcount c) (password c) (err_reply c) (cred c) v
    (reply c) (encoded_request_body c) (encoded_previous_request c)
    (fast_state c) (preauth_to_use c) (salt c) (s2kparams c) (as_key c)
    (etype c).

Definition set_reply (v : option krb5_kdc_rep) (c : krb5_init_creds_context)
    : krb5_init_creds_context :=
  mk_ctx (opte c) (in_tkt_service c) (prompter c) (prompter_data c)
    (gak_fct c) (gak_data c) (request_time c) (start_time c) (tkt_life c)
    (renew_life c) (loopcount c) (password c) (err_reply c) (cred c)
    (request c) v (encoded_request_body c) (encoded_previous_request c)
    (fast_state c) (preauth_to_use c) (salt c) (s2kparams c) (as_key c)
    (etype c).

Definition set_encoded_request_body (v : option krb5_data) (c : krb5_init_creds_context)
    : krb5_init_creds_context :=
  mk_ctx (opte c) (in_tkt_service c) (prompter c) (prompter_data c)
    (gak_fct c) (gak_data c) (request_time c) (start_time c) (tkt_life c)
    (renew_life c) (loopcount c) (password c) (err_reply c) (cred c)
    (request c) (reply c) v (encoded_previous_request c) (fast_state c)
    (preauth_to_use c) (salt c) (s2kparams c) (as_key c) (etype c).

Definition set_encoded_previous_request (v : option krb5_data) (c : krb5_init_creds_context)
    : krb5_init_creds_context :=
  mk_ctx (opte c) (in_tkt_service c) (prompter c) (prompter_data c)
    (gak_fct c) (gak_data c) (request_time c) (start_time c) (tkt_life c)
    (renew_life c) (loopcount c) (password c) (err_reply c) (cred c)
    (request c) (reply c) (encoded_request_body c) v (fast_state c)
    (preauth_to_use c) (salt c) (s2kparams c) (as_key c) (etype c).

Definition set_preauth_to_use (v : option pa_array) (c : krb5_init_creds_context)
    : krb5_init_creds_context :=
  mk_ctx (opte c) (in_tkt_service c) (prompter c) (prompter_data c)
    (gak_fct c) (gak_data c) (request_time c) (start_time c) (tkt_life c)
    (renew_life c) (loopcount c) (password c) (err_reply c) (cred c)
    (request c) (reply c) (encoded_request_body c)
    (encoded_previous_request c) (fast_state c) v (salt c) (s2kparams c)
    (as_key c) (etype c).

Definition set_salt (v : krb5_data) (c : krb5_init_creds_context)
    : krb5_init_creds_context :=
  mk_ctx (opte c) (in_tkt_service c) (prompter c) (prompter_data c)
    (gak_fct c) (gak_data c) (request_time c) (start_time c) (tkt_life c)
    (renew_life c) (loopcount c) (password c) (err_reply c) (cred c)
    (request c) (reply c) (encoded_request_body c)
    (encoded_previous_request c) (fast_state c) (preauth_to_use c) v
    (s2kparams c) (as_key c) (etype c).

Definition set_s2kparams (v : krb5_data) (c : krb5_init_creds_context)
    : krb5_init_creds_context :=
  mk_ctx (opte c) (in_tkt_service c) (prompter c) (prompter_data c)
    (gak_fct c) (gak_data c) (request_time c) (start_time c) (tkt_life c)
    (renew_life c) (loopcount c) (password c) (err_reply c) (cred c)
    (request c) (reply c) (encoded_request_body c)
    (encoded_previous_request c) (fast_state c) (preauth_to_use c) (salt c)
    v (as_key c) (etype c).

Definition set_as_key (v : krb5_keyblock) (c : krb5_init_creds_context)
    : krb5_init_creds_context :=
  mk_ctx (opte c) (in_tkt_service c) (prompter c) (prompter_data c)
    (gak_fct c) (gak_data c) (request_time c) (start_time c) (tkt_life c)
    (renew_life c) (loopcount c) (password c) (err_reply c) (cred c)
    (request c) (reply c) (encoded_request_body c)
    (encoded_previous_request c) (fast_state c) (preauth_to_use c) (salt c)
    (s2kparams c) v (etype c).

Definition set_etype (v : Z) (c : krb5_init_creds_context)
    : krb5_init_creds_context :=
  mk_ctx (opte c) (in_tkt_service c) (prompter c) (prompter_data c)
    (gak_fct c) (gak_data c) (request_time c) (start_time c) (tkt_life c)
    (renew_life c) (loopcount c) (password c) (err_reply c) (cred c)
    (request c) (reply c) (encoded_request_body c)
    (encoded_previous_request c) (fast_state c) (preauth_to_use c) (salt c)
    (s2kparams c) (as_key c) v.

Definition set_rep_padata (v : option pa_array) (r : krb5_kdc_rep)
    : krb5_kdc_rep :=
  mk_rep (rep_msg_type r) v (rep_client r) (rep_ticket r) (rep_enctype r)
    (rep_ciphertext r) (rep_enc_part2 r).

(** What a call of [krb5_init_creds_step] works on: the context and the
    caller's [out], [realm] and [flags]. *)
Record step_frame := mk_frame {
  f_ctx : krb5_init_creds_context;
  f_out : krb5_data;
  f_realm : krb5_data;
  f_flags : Z
}.

Definition set_f_ctx (v : krb5_init_creds_context) (f : step_frame)
    : step_frame :=
  mk_frame v (f_out f) (f_realm f) (f_flags f).

Definition set_f_out (v : krb5_data) (f : step_frame) : step_frame :=
  mk_frame (f_ctx f) v (f_realm f) (f_flags f).

Definition set_f_realm (v : krb5_data) (f : step_frame) : step_frame :=
  mk_frame (f_ctx f) (f_out f) v (f_flags f).

Definition set_f_flags (v : Z) (f : step_frame) : step_frame :=
  mk_frame (f_ctx f) (f_out f) (f_realm f) v.

Definition the_ctx : M (step_frame * W) krb5_init_creds_context :=
  fun sw => (Next (f_ctx (fst sw)), sw).

Definition update_ctx (g : krb5_init_creds_context -> krb5_init_creds_context)
    : M (step_frame * W) unit :=
  update (fun f => set_f_ctx (g (f_ctx f)) f).

(** What the pre-auth entry points changed, stored back in the context;
    [out_padata] is where their [out_padata] argument points. *)
Definition store_preauth (po : preauth_out) (c : krb5_init_creds_context)
    : krb5_init_creds_context :=
  let '(request, _, salt, s2kparams, etype, as_key) := po in
  set_request request (set_salt salt (set_s2kparams s2kparams
    (set_etype etype (set_as_key as_key c)))).


(** ** The step API: the state machine *)

Definition build_in_tkt_name (context : krb5_context)
    (in_tkt_service : option string) (client : krb5_principal_data)
    : M W (Z * option krb5_principal_data) :=
  match in_tkt_service with
  | Some service =>
      (* this is ugly, because so are the data structures involved. *)
      '(ret_, server) <- call (krb5_parse_name context service) ;;
      if truthy ret_ then ret (ret_, None)
      else
        (* stuff the client realm into the server principal.
           realloc if necessary *)
        ok <- (if d_length (princ_realm server) <? d_length (princ_realm client)
               then call alloc else ret true) ;;
        if ok : bool then
          bytes <- deref (d_data (princ_realm client)) ;;
          let n := d_length (princ_realm client) in
          ret (ret_,
               Some (set_princ_realm
                       (mk_data n (Some (take (Z.to_nat n) bytes))) server))
        else ret (ENOMEM, None)
  | None =>
      '(ret_, server) <-
        call (krb5_build_principal_ext context (princ_realm client)
                [data_of_bytes (map byte_of_ascii (list_ascii_of_string KRB5_TGS_NAME));
                 princ_realm client]) ;;
      ret (ret_, if truthy ret_ then None else Some server)
  end.

Definition krb5int_init_creds_set_as_key_func (context : krb5_context)
    (ctx : krb5_init_creds_context)
    (gak_fct_ : option krb5_gic_get_as_key_fct) (gak_data_ : krb5_const_pointer)
    : Z * krb5_init_creds_context :=
  (0, set_gak_fct gak_fct_ (set_gak_data gak_data_ ctx)).

Definition init_creds_validate_reply (context : krb5_context)
    (reply_ : krb5_data) : M (step_frame * W) Z :=
  returning (
    _ <- update_ctx (set_err_reply None) ;;
    _ <- update_ctx (set_reply None) ;;
    if krb5_is_krb_error reply_ then
      '(code, error) <- callw (decode_krb5_error reply_) ;;
      _ <- check code ;;
      if err_error error =? KRB_ERR_RESPONSE_TOO_BIG then
        ret KRB5KRB_ERR_RESPONSE_TOO_BIG
      else
        _ <- update_ctx (set_err_reply (Some error)) ;;
        ret 0
    else
      (* Check to make sure it isn't a V4 reply. *)
      if negb (d_length reply_ =? 0) && negb (krb5_is_as_rep reply_) then
        b1 <- deref (data_at reply_ 1) ;;
        let t_switch :=
          Z.land (to_uint32 (char_val char_is_signed b1))
                 (to_uint32 (Z.lnot 1)) in
        if t_switch =? V4_AUTH_MSG_ERR_REPLY then
          b0 <- deref (data_at reply_ 0) ;;
          if char_val char_is_signed b0 =? V4_KRB_PROT_VERSION
          then ret KRB5KRB_AP_ERR_V4_REPLY
          else ret KRB5KRB_AP_ERR_MSG_TYPE
        else ret KRB5KRB_AP_ERR_MSG_TYPE
      else
        (* It must be a KRB_AS_REP message, or an bad returned packet *)
        '(code, as_reply) <- callw (decode_krb5_as_rep reply_) ;;
        _ <- check code ;;
        if negb (rep_msg_type as_reply =? KRB5_AS_REP) then
          ret KRB5KRB_AP_ERR_MSG_TYPE
        else
          _ <- update_ctx (set_reply (Some as_reply)) ;;
          ret 0).

(** [decrypt_as_reply(context, NULL, ctx->reply, NULL, NULL,
    &encrypting_key, krb5_kdc_rep_decrypt_proc, NULL)]. *)
Definition step_decrypt (context : krb5_context) (as_reply : krb5_kdc_rep)
    (encrypting_key : krb5_keyblock) : M (step_frame * W) Z :=
  '(code, as_reply) <-
    on_world (decrypt_as_reply context None as_reply None null_pointer
                (Some encrypting_key) (Some krb5_kdc_rep_decrypt_proc)
                null_pointer) ;;
  _ <- update_ctx (set_reply (Some as_reply)) ;;
  ret code.

Definition init_creds_step_reply (context : krb5_context) (in_ : krb5_data)
    : M (step_frame * W) Z :=
  returning (
    let encrypting_key := mk_key 0 0 None in
    (* process previous KDC response *)
    code <- init_creds_validate_reply context in_ ;;
    _ <- check code ;;
    ctx <- the_ctx ;;
    (* per referrals draft, enterprise principals imply canonicalization *)
    let canon_flag :=
      truthy (Z.land (req_kdc_options (request ctx)) KDC_OPT_CANONICALIZE)
      || (princ_type (req_client (request ctx)) =? KRB5_NT_ENTERPRISE_PRINCIPAL) in
    match err_reply ctx with
    | Some error =>
        '(code, (error, padata, retry)) <-
          callw (krb5int_fast_process_error context (fast_state ctx) error) ;;
        _ <- update_ctx (set_err_reply (Some error)) ;;
        _ <- check code ;;
        if (err_error error =? KDC_ERR_PREAUTH_REQUIRED) && retry then
          (* reset the list of preauth types to try *)
          _ <- update_ctx (set_preauth_to_use padata) ;;
          '(code, padata) <-
            on_world (sort_padata context
                        (princ_realm (req_client (request ctx))) padata) ;;
          _ <- update_ctx (set_preauth_to_use padata) ;;
          ret code
        else if canon_flag && (err_error error =? KDC_ERR_WRONG_REALM) then
          match err_client error with
          | Some err_client =>
              if d_length (princ_realm err_client) =? 0 then
                ret KRB5KDC_ERR_WRONG_REALM
              else
                (* Rewrite request.client with realm from error reply *)
                '(code, realm) <-
                  callw (krb5int_copy_data_contents context
                           (princ_realm err_client)) ;;
                _ <- update_ctx (fun c =>
                       set_request
                         (set_req_client
                            (set_princ_realm realm (req_client (request c)))
                            (request c)) c) ;;
                ret code
          | None => ret KRB5KDC_ERR_WRONG_REALM
          end
        else if retry then ret 0
        else
          (* error + no hints = give up *)
          ret (wrap32 (wrap32 (err_error error) + ERROR_TABLE_BASE_krb5))
    | None =>
        (* We have a response. Process it. *)
        as_reply <- deref (reply ctx) ;;
        if loopcount ctx >=? MAX_IN_TKT_LOOPS then ret KRB5_GET_IN_TKT_LOOP
        else
          (* process any preauth data in the as_reply *)
          _ <- callw (fun w =>
                 (tt, krb5_clear_preauth_context_use_counts context w)) ;;
          '(code, (as_reply, strengthen_key)) <-
            callw (krb5int_fast_process_response context (fast_state ctx)
                     as_reply) ;;
          _ <- update_ctx (set_reply (Some as_reply)) ;;
          _ <- check code ;;
          '(code, padata) <-
            on_world (sort_padata context
                        (princ_realm (req_client (request ctx)))
                        (rep_padata as_reply)) ;;
          let as_reply := set_rep_padata padata as_reply in
          _ <- update_ctx (set_reply (Some as_reply)) ;;
          _ <- check code ;;
          _ <- update_ctx (set_etype (rep_enctype as_reply)) ;;
          '(code, po) <-
            callw (krb5_do_preauth context (request ctx)
                     (encoded_request_body ctx) (encoded_previous_request ctx)
                     (rep_padata as_reply) None (salt ctx) (s2kparams ctx)
                     (rep_enctype as_reply) (as_key ctx) (prompter ctx)
                     (prompter_data ctx) (gak_fct ctx) (gak_data ctx)
                     (opte ctx)) ;;
          _ <- update_ctx (store_preauth po) ;;
          _ <- check code ;;
          (* If we haven't gotten a salt from another source yet, set up
             one corresponding to the client principal returned by the
             KDC. *)
          ctx <- the_ctx ;;
          _ <- (if (d_length (salt ctx) =? SALT_TYPE_AFS_LENGTH)
                   && negb (is_Some_b (d_data (salt ctx))) then
                  '(code, salt_) <-
                    callw (krb5_principal2salt context (rep_client as_reply)) ;;
                  _ <- update_ctx (set_salt salt_) ;;
                  check code
                else ret tt) ;;
          (* If there's an as_key available, try it.  If decrypting the
             as_rep fails, or if there isn't an as_key at all yet, then
             use the gak_fct to get one, and try again. *)
          ctx <- the_ctx ;;
          '(code, encrypting_key) <-
            (if negb (key_length (as_key ctx) =? 0) then
               '(code, encrypting_key) <-
                 callw (krb5int_fast_reply_key context strengthen_key
                          (as_key ctx) encrypting_key) ;;
               _ <- check code ;;
               code <- step_decrypt context as_reply encrypting_key ;;
               ret (code, encrypting_key)
             else ret (-1, encrypting_key)) ;;
          _ <- (if truthy code then
                  (* if we haven't get gotten a key, get it now *)
                  ctx <- the_ctx ;;
                  as_reply <- deref (reply ctx) ;;
                  gak <- deref (gak_fct ctx) ;;
                  '(code, (salt_, s2kparams_, as_key_)) <-
                    callw (gak context (req_client (request ctx))
                             (rep_enctype as_reply) (prompter ctx)
                             (prompter_data ctx) (salt ctx) (s2kparams ctx)
                             (as_key ctx) (gak_data ctx)) ;;
                  _ <- update_ctx (fun c =>
                         set_salt salt_ (set_s2kparams s2kparams_
                           (set_as_key as_key_ c))) ;;
                  _ <- check code ;;
                  '(code, encrypting_key) <-
                    callw (krb5int_fast_reply_key context strengthen_key
                             as_key_ encrypting_key) ;;
                  _ <- check code ;;
                  ctx <- the_ctx ;;
                  as_reply <- deref (reply ctx) ;;
                  code <- step_decrypt context as_reply encrypting_key ;;
                  check code
                else ret tt) ;;
          ctx <- the_ctx ;;
          as_reply <- deref (reply ctx) ;;
          '(code, as_reply) <-
            on_world (verify_as_reply context (request_time ctx) (request ctx)
                        as_reply) ;;
          _ <- update_ctx (set_reply (Some as_reply)) ;;
          _ <- check code ;;
          '(code, cred_) <-
            on_world (stash_as_reply context (request_time ctx) (request ctx)
                        as_reply (cred ctx) None) ;;
          _ <- update_ctx (set_cred cred_) ;;
          _ <- check code ;;
          _ <- callw (fun w => (tt, krb5_preauth_request_context_fini context w)) ;;
          (* success *)
          _ <- update (fun f =>
                 set_f_flags (Z.lor (f_flags f) KRB5_INIT_CREDS_STEP_FLAG_COMPLETE) f) ;;
          ret 0
    end).


Definition init_creds_step_request (context : krb5_context)
    : M (step_frame * W) Z :=
  returning (
    _ <- update_ctx (fun c => set_request (set_req_server None (request c)) c) ;;
    ctx <- the_ctx ;;
    '(code, server) <-
      on_world (build_in_tkt_name context (in_tkt_service ctx)
                  (req_client (request ctx))) ;;
    _ <- update_ctx (fun c => set_request (set_req_server server (request c)) c) ;;
    _ <- check code ;;
    _ <- (if loopcount ctx =? 0 then
            '(code, now) <- callw (krb5_timeofday context) ;;
            _ <- update_ctx (set_request_time now) ;;
            _ <- check code ;;
            ctx <- the_ctx ;;
            '(code, request_) <-
              callw (krb5int_fast_as_armor context (fast_state ctx) (opte ctx)
                       (request ctx)) ;;
            _ <- update_ctx (set_request request_) ;;
            _ <- check code ;;
            (* give the preauth plugins a chance to prep the request body *)
            request_ <-
              callw (krb5_preauth_prepare_request context (opte ctx) request_) ;;
            _ <- update_ctx (set_request request_) ;;
            '(code, body) <-
              callw (krb5int_fast_prep_req_body context (fast_state ctx)
                       request_ (encoded_request_body ctx)) ;;
            _ <- update_ctx (set_encoded_request_body body) ;;
            _ <- check code ;;
            let from := krb5int_addint32 (request_time ctx) (start_time ctx) in
            let request_ := set_req_from from request_ in
            let request_ :=
              if renew_life ctx >? 0 then
                let rtime := krb5int_addint32 from (renew_life ctx) in
                let rtime :=
                  if rtime <? req_till request_ then
                    (* don't ask for a smaller renewable time than the
                       lifetime *)
                    req_till request_
                  else rtime in
                set_req_kdc_options
                  (Z.land (req_kdc_options request_)
                          (Z.lnot KDC_OPT_RENEWABLE_OK))
                  (set_req_rtime rtime request_)
              else set_req_rtime 0 request_ in
            update_ctx (set_request request_)
          else ret tt) ;;
    ctx <- the_ctx ;;
    _ <- match err_reply ctx with
         | None =>
             (* either our first attempt, or retrying after PREAUTH_NEEDED *)
             '(code, po) <-
               callw (krb5_do_preauth context (request ctx)
                        (encoded_request_body ctx)
                        (encoded_previous_request ctx) (preauth_to_use ctx)
                        (req_padata (request ctx)) (salt ctx) (s2kparams ctx)
                        (etype ctx) (as_key ctx) (prompter ctx)
                        (prompter_data ctx) (gak_fct ctx) (gak_data ctx)
                        (opte ctx)) ;;
             _ <- update_ctx (store_preauth po) ;;
             _ <- update_ctx (fun c =>
                    set_request (set_req_padata (out_padata_of po) (request c)) c) ;;
             check code
         | Some error =>
             code <-
               match preauth_to_use ctx with
               | Some _ =>
                   (* Retry after an error other than PREAUTH_NEEDED,
                      using e-data to figure out what to change. *)
                   '(code, po) <-
                     callw (krb5_do_preauth_tryagain context (request ctx)
                              (encoded_request_body ctx)
                              (encoded_previous_request ctx)
                              (preauth_to_use ctx) (req_padata (request ctx))
                              error (salt ctx) (s2kparams ctx) (etype ctx)
                              (as_key ctx) (prompter ctx) (prompter_data ctx)
                              (gak_fct ctx) (gak_data ctx) (opte ctx)) ;;
                   _ <- update_ctx (store_preauth po) ;;
                   _ <- update_ctx (fun c =>
                          set_request
                            (set_req_padata (out_padata_of po) (request c)) c) ;;
                   ret code
               | None =>
                   (* No preauth supplied, so can't query the plugins. *)
                   ret KRB5KRB_ERR_GENERIC
               end ;;
             if truthy code then
               (* couldn't come up with anything better *)
               leave (wrap32 (err_error error + ERROR_TABLE_BASE_krb5))
             else ret tt
         end ;;
    _ <- update_ctx (set_encoded_previous_request None) ;;
    ctx <- the_ctx ;;
    '(code, encoded) <-
      callw (krb5int_fast_prep_req context (fast_state ctx) (request ctx)
               (encoded_request_body ctx)) ;;
    _ <- update_ctx (set_encoded_previous_request encoded) ;;
    _ <- check code ;;
    previous <- deref encoded ;;
    '(code, out) <- callw (krb5int_copy_data_contents context previous) ;;
    _ <- update (set_f_out out) ;;
    ret code).

Definition krb5_init_creds_step (context : krb5_context) (in_ : krb5_data)
    : M (step_frame * W) Z :=
  _ <- update (fun f =>
         set_f_flags 0 (set_f_out (mk_data 0 None)
           (set_f_realm (mk_data 0 None) f))) ;;
  with_cleanup (
    _ <- (if negb (d_length in_ =? 0) then
            code <- init_creds_step_reply context in_ ;;
            code <-
              (if code =? KRB5KRB_ERR_RESPONSE_TOO_BIG then
                 ctx <- the_ctx ;;
                 previous <- deref (encoded_previous_request ctx) ;;
                 '(code, out) <-
                   callw (krb5int_copy_data_contents context previous) ;;
                 _ <- update (set_f_out out) ;;
                 ret code
               else ret code) ;;
            f <- locals ;;
            if truthy code
               || truthy (Z.land (f_flags f) KRB5_INIT_CREDS_STEP_FLAG_COMPLETE)
            then leave code
            else ret tt
          else ret tt) ;;
    code <- init_creds_step_request context ;;
    _ <- check code ;;
    ctx <- the_ctx ;;
    server <- deref (req_server (request ctx)) ;;
    '(code, realm) <-
      callw (krb5int_copy_data_contents context (princ_realm server)) ;;
    _ <- update (set_f_realm realm) ;;
    _ <- check code ;;
    _ <- update_ctx (fun c => set_loopcount (loopcount c + 1) c) ;;
    ret code)
  (fun code =>
     (* cleanup: *)
     if code =? KRB5KDC_ERR_C_PRINCIPAL_UNKNOWN then
       ctx <- the_ctx ;;
       (* See if we can produce a more detailed error message *)
       '(rc, client_name) <-
         callw (krb5_unparse_name context (req_client (request ctx))) ;;
       _ <- (if rc =? 0 then
               callw (fun w =>
                 (tt, krb5_set_error_message context code
                        ("Client '" ++ client_name
                         ++ "' not found in Kerberos database")%string w))
             else ret tt) ;;
       ret code
     else ret code).

(** What the caller of [krb5_init_creds_step] sees: the return value,
    the context afterwards, [out], [realm] and [flags]; [None] when the
    call is stuck. *)
Definition step_call (context : krb5_context) (ctx : krb5_init_creds_context)
    (in_ : krb5_data) (w : W)
    : option (Z * krb5_init_creds_context * krb5_data * krb5_data * Z) * W :=
  match krb5_init_creds_step context in_
          (mk_frame ctx (mk_data 0 None) (mk_data 0 None) 0, w) with
  | (Next code, (f, w')) | (Leave code, (f, w')) =>
      (Some (code, f_ctx f, f_out f, f_realm f, f_flags f), w')
  | (Stuck, (_, w')) => (None, w')
  end.

(** The locals of [krb5int_init_creds_get_ext] across its loop. *)
Record get_ext_locals := mk_get_ext {
  x_ctx : krb5_init_creds_context;
  x_reply : krb5_data;
  x_tcp_only : Z;
  x_use_master : Z
}.

(** [for (;;) { ... }] of [krb5int_init_creds_get_ext]; stuck when [fuel]
    runs out or a step is. *)
Fixpoint get_ext_loop (fuel : nat) (context : krb5_context)
    (x : get_ext_locals) (w : W) : flow Z * (get_ext_locals * W) :=
  match fuel with
  | O => (Stuck, (x, w))
  | S fuel' =>
      match step_call context (x_ctx x) (x_reply x) w with
      | (Some (code, ctx, request_, realm, flags), w1) =>
          let x := mk_get_ext ctx (x_reply x) (x_tcp_only x) (x_use_master x) in
          let go_on (tcp_only : Z) :=
            let '((code, reply_, use_master), w2) :=
              krb5_sendto_kdc context request_ realm (x_use_master x)
                tcp_only w1 in
            let x := mk_get_ext ctx reply_ tcp_only use_master in
            if truthy code then (Next code, (x, w2))
            else get_ext_loop fuel' context x w2 in
          if (code =? KRB5KRB_ERR_RESPONSE_TOO_BIG) && (x_tcp_only x =? 0)
          then go_on 1
          else if truthy code
                  || truthy (Z.land flags KRB5_INIT_CREDS_STEP_FLAG_COMPLETE)
          then (Next code, (x, w1))
          else go_on (x_tcp_only x)
      | (None, w1) => (Stuck, (x, w1))
      end
  end.

(** Internal API that may return some additional information: the
    return value, the context and [*use_master] afterwards. *)
Definition krb5int_init_creds_get_ext (fuel : nat) (context : krb5_context)
    (ctx : krb5_init_creds_context) (use_master : Z) (w : W)
    : option (Z * krb5_init_creds_context * Z) * W :=
  match reply ctx with
  | Some _ =>
      (* we're finished. *)
      (Some (0, ctx, use_master), w)
  | None =>
      match get_ext_loop fuel context
              (mk_get_ext ctx (mk_data 0 None) 0 use_master) w with
      | (Next code, (x, w')) | (Leave code, (x, w')) =>
          (Some (code, x_ctx x, x_use_master x), w')
      | (Stuck, (_, w')) => (None, w')
      end
  end.

(** Heimdal API *)
Definition krb5_init_creds_get (fuel : nat) (context : krb5_context)
    (ctx : krb5_init_creds_context) (w : W)
    : option (Z * krb5_init_creds_context) * W :=
  match krb5int_init_creds_get_ext fuel context ctx 0 w with
  | (Some (code, ctx', _), w') => (Some (code, ctx'), w')
  | (None, w') => (None, w')
  end.

Definition krb5_init_creds_get_creds (context : krb5_context)
    (ctx : krb5_init_creds_context) (w : W) : (Z * krb5_creds) * W :=
  krb5int_copy_creds_contents context (cred ctx) w.

(** The result is the return value and [*error]. *)
Definition krb5_init_creds_get_error (context : krb5_context)
    (ctx : krb5_init_creds_context) : M W (Z * option krb5_error) :=
  match err_reply ctx with
  | None => ret (0, None)
  | Some e =>
      ok <- call alloc ;;
      if ok : bool then
        '(code, client) <-
          match err_client e with
          | Some c =>
              '(code, c') <- call (krb5_copy_principal context c) ;;
              ret (code, Some c')
          | None => ret (0, None)
          end ;;
        if truthy code then ret (code, None)
        else
          '(code, server) <- call (krb5_copy_principal context (err_server e)) ;;
          if truthy code then ret (code, None)
          else
            '(code, text) <-
              call (krb5int_copy_data_contents context (err_text e)) ;;
            if truthy code then ret (code, None)
            else
              '(code, e_data) <-
                call (krb5int_copy_data_contents context (err_e_data e)) ;;
              if truthy code then ret (code, None)
              else
                ret (code,
                     Some (mk_error (err_ctime e) (err_cusec e) (err_susec e)
                             (err_stime e) (err_error e) client server text
                             e_data))
      else ret (ENOMEM, None)
  end.

(** ** Specification of the ordering *)

(** The first entry of type [l] of a sequence, with the entries before
    and after it; what the search loop finds, for stating what the
    ordering does. *)
Fixpoint split_first (l : Z) (tl : list krb5_pa_data)
    : option (list krb5_pa_data * krb5_pa_data * list krb5_pa_data) :=
  match tl with
  | [] => None
  | e :: tl' =>
      if pa_type e =? l then Some ([], e, tl')
      else match split_first l tl' with
           | Some (pre, x, post) => Some (e :: pre, x, post)
           | None => None
           end
  end.

(** One preferred type handled, on the entries already moved to the
    front and the others. *)
Definition move_pref (st : list krb5_pa_data * list krb5_pa_data) (l : Z) :=
  match split_first l (snd st) with
  | Some (pre, x, post) => (fst st ++ [x], pre ++ post)
  | None => st
  end.

(** The numbers the loop over the preference string extracts, in order:
    the same steps as [sort_loop], without the array. *)
Fixpoint preferred_types (fuel : nat) (p : string) : list Z :=
  match fuel with
  | O => []
  | S fuel' =>
      match p with
      | EmptyString => []
      | _ =>
          let p := advance (strspn p [","%char; " "%char]) p in
          match p with
          | EmptyString => []
          | _ =>
              let '(l, n) := strtol p in
              match n with
              | O => []
              | _ => l :: preferred_types fuel' (advance n p)
              end
          end
      end
  end.

(** The types a preference string names, as the loop reads it. *)
Definition named_types (s : string) : list Z :=
  preferred_types (S (String.length s)) s.

(** The preference string the ordering works with, and the world after
    looking it up. *)
Definition preference_string (context : krb5_context) (realm : krb5_data) (w : W)
    : string * W :=
  let '((ret, preauth_types), w1) :=
    krb5_libdefault_string context realm KRB5_CONF_PREFERRED_PREAUTH_TYPES w in
  (match ret =? 0, preauth_types with
   | true, Some s => s
   | _, _ => "17, 16, 15, 14"%string
   end, w1).

End Model.

(** ** A scripted KDC

    One instance of the headers and of the collaborators, for running
    the model on concrete exchanges: the constants of the MIT headers,
    a transport that hands out a scripted list of replies and counts the
    requests, toy codecs (the first byte is the message tag, as in DER:
    0x7e KRB-ERROR, 0x6b AS-REP, 0x6a AS-REQ), an encrypted-timestamp
    pre-auth method that stamps the clock, and a key callback that
    counts its calls. *)

Definition mit_headers : headers := {|
  char_is_signed := true;
  LONG_BITS := 64;
  LONG_BITS_ok := or_intror eq_refl;
  ENOMEM := 12;
  ENOENT := 2;
  EINVAL := 22;
  ERROR_TABLE_BASE_krb5 := -1765328384;
  KV5M_CONTEXT := -1760647388;
  KRB5KRB_AP_ERR_MSG_TYPE := -1765328344;
  KRB5KRB_AP_ERR_V4_REPLY := -1765328165;
  KRB5KRB_ERR_RESPONSE_TOO_BIG := -1765328332;
  KRB5KRB_ERR_GENERIC := -1765328324;
  KRB5KDC_ERR_WRONG_REALM := -1765328316;
  KRB5KDC_ERR_C_PRINCIPAL_UNKNOWN := -1765328378;
  KRB5_KDCREP_MODIFIED := -1765328237;
  KRB5_KDCREP_SKEW := -1765328236;
  KRB5_IN_TKT_REALM_MISMATCH := -1765328235;
  KRB5_GET_IN_TKT_LOOP := -1765328161;
  error_codes_nonzero :=
    ltac:(repeat constructor; discriminate);
  v4_reply_distinct := ltac:(discriminate);
  KRB5_AS_REQ := 10;
  KRB5_AS_REP := 11;
  KDC_ERR_PREAUTH_REQUIRED := 25;
  KDC_ERR_WRONG_REALM := 68;
  KRB_ERR_RESPONSE_TOO_BIG := 52;
  KDC_OPT_CANONICALIZE := 0x00010000;
  KDC_OPT_POSTDATED := 0x02000000;
  KDC_OPT_RENEWABLE := 0x00800000;
  KDC_OPT_RENEWABLE_OK := 0x00000010;
  KRB5_NT_ENTERPRISE_PRINCIPAL := 10;
  KRB5_REFERRAL_MAXHOPS := 10;
  KRB5_LIBOPT_SYNC_KDCTIME := 1;
  SALT_TYPE_AFS_LENGTH := 4294967295;
  get_in_tkt_enctypes := [16; 23; 3; 2; 1];
  profile_t := option string;
  krb5_ccache := unit;
  krb5_const_pointer := unit;
  null_pointer := tt;
  krb5_address := unit;
  krb5_ticket_enc := unit;
  fast_state_t := unit;
  opte_t := unit
|}.

(** The world of the scripted KDC. *)
Record script_world := mk_world {
  clock : Z;                     (* what krb5_timeofday returns next *)
  script : list (list byte);     (* the replies the KDC still has to give *)
  sent : list (list byte);       (* the requests sent so far, latest first *)
  key_calls : nat;               (* calls of the key callbacks *)
  decrypt_calls : nat            (* calls of the decrypt callback *)
}.

Definition byte_of_Z (z : Z) : byte :=
  default x00 (Byte.of_N (Z.to_N (z mod 256))).

Definition bytes_of_string (s : string) : list byte :=
  map byte_of_ascii (list_ascii_of_string s).

Definition data_of_string (s : string) : krb5_data :=
  data_of_bytes (bytes_of_string s).

Definition bytes_of (d : krb5_data) : list byte :=
  take (Z.to_nat (d_length d)) (default [] (d_data d)).

Definition tick (w : script_world) : script_world :=
  mk_world (clock w + 1) (script w) (sent w) (key_calls w) (decrypt_calls w).

Definition count_key_call (w : script_world) : script_world :=
  mk_world (clock w) (script w) (sent w) (S (key_calls w)) (decrypt_calls w).

Definition count_decrypt_call (w : script_world) : script_world :=
  mk_world (clock w) (script w) (sent w) (key_calls w) (S (decrypt_calls w)).

(** Modelled from the spec: a TGS principal has exactly two name
    components where the first equals the literal "krbtgt"; equality of
    principals is component-wise (IS_TGS_PRINC, data_eq and
    krb5_principal_compare are not defined in get_in_tkt.c). *)
Definition spec_data_eq (d1 d2 : krb5_data) : bool :=
  (d_length d1 =? d_length d2)
  && (length (bytes_of d1) =? length (bytes_of d2))%nat
  && forallb (fun bb => Byte.eqb (fst bb) (snd bb))
       (combine (bytes_of d1) (bytes_of d2)).

Definition spec_is_tgs_princ (p : krb5_principal_data) : bool :=
  match princ_data p with
  | [c0; _] => spec_data_eq c0 (data_of_string KRB5_TGS_NAME)
  | _ => false
  end.

Definition spec_principal_compare (p q : krb5_principal_data) : bool :=
  spec_data_eq (princ_realm p) (princ_realm q)
  && (length (princ_data p) =? length (princ_data q))%nat
  && forallb (fun cd => spec_data_eq (fst cd) (snd cd))
       (combine (princ_data p) (princ_data q)).

Section Scripted.

#[local] Existing Instance mit_headers.

Definition toy_key : krb5_keyblock := mk_key 23 16 (Some (bytes_of_string "0123456789abcdef")).

Definition tgs_principal (realm : string) : krb5_principal_data :=
  mk_princ (data_of_string realm)
    [data_of_string KRB5_TGS_NAME; data_of_string realm] 2.

Definition user_principal (name realm : string) : krb5_principal_data :=
  mk_princ (data_of_string realm) [data_of_string name] 1.

(** Toy codecs.  A KRB-ERROR is 0x7e, the error code, the e-data; an
    AS-REP is 0x6b, then the nonce its encrypted part will show; an
    AS-REQ is 0x6a, the low byte of the nonce, the padata contents. *)
Definition toy_decode_error (d : krb5_data) : krb5_error :=
  let bs := bytes_of d in
  mk_error 0 0 0 0 (byte_value (default x00 (bs !! 1%nat))) None
    (tgs_principal "EXAMPLE") (mk_data 0 None) (data_of_bytes (drop 2 bs)).

Definition toy_decode_as_rep (d : krb5_data) : krb5_kdc_rep :=
  mk_rep 11 None (user_principal "alice" "EXAMPLE")
    (mk_ticket (tgs_principal "EXAMPLE") tt) 23
    (data_of_bytes (drop 1 (bytes_of d))) None.

Definition toy_decode_padata (d : krb5_data) : pa_array :=
  map (fun b => Some (mk_pa (byte_value b) 0 None)) (bytes_of d) ++ [None].

Fixpoint padata_bytes (padata : pa_array) : list byte :=
  match padata with
  | Some e :: rest => default [] (pa_contents e) ++ padata_bytes rest
  | _ => []
  end.

Definition toy_encode_as_req (r : krb5_kdc_req) : krb5_data :=
  data_of_bytes
    (x6a :: byte_of_Z (req_nonce r)
       :: padata_bytes (default [] (req_padata r))).

Definition toy_decrypt (r : krb5_kdc_rep) : krb5_kdc_rep :=
  set_enc_part2
    (mk_enc_part2 toy_key
       (byte_value (default x00 (bytes_of (rep_ciphertext r) !! 0%nat)))
       0 (mk_times 1000 0 37000 0) (tgs_principal "EXAMPLE") None) r.

(** The encrypted-timestamp method: for a candidate of type 2, a padata
    entry that holds the clock. *)
Definition toy_preauth (in_padata : option pa_array) (w : script_world)
    : option pa_array :=
  match in_padata with
  | Some arr =>
      if existsb (fun o => match o with
                           | Some e => pa_type e =? 2
                           | None => false
                           end) arr
      then Some [Some (mk_pa 2 1 (Some [byte_of_Z (clock w)])); None]
      else None
  | None => None
  end.

Definition toy_gak : krb5_gic_get_as_key_fct (W := script_world) :=
  fun _ _ _ _ _ salt s2kparams _ _ w =>
    ((0, (salt, s2kparams, toy_key)), count_key_call w).

Definition toy_key_proc : git_key_proc (W := script_world) :=
  fun _ _ _ _ w => ((0, toy_key), count_key_call w).

Definition toy_decrypt_proc : git_decrypt_proc (W := script_world) :=
  fun _ _ _ r w => ((0, toy_decrypt r), count_decrypt_call w).

Definition scripted_kdc : externals (W := script_world) := {|
  krb5_is_krb_error := fun d =>
    match bytes_of d with
    | b :: _ => (byte_value b =? 0x7e) || (byte_value b =? 0x5e)
    | [] => false
    end;
  krb5_is_as_rep := fun d =>
    match bytes_of d with
    | b :: _ => (byte_value b =? 0x6b) || (byte_value b =? 0x4b)
    | [] => false
    end;
  IS_TGS_PRINC := spec_is_tgs_princ;
  data_eq := spec_data_eq;
  data_eq_string := fun d s => spec_data_eq d (data_of_string s);
  krb5_principal_compare := spec_principal_compare;
  krb5_realm_compare := fun p q => spec_data_eq (princ_realm p) (princ_realm q);
  krb5_copy_principal := fun _ p w => ((0, p), w);
  krb5_principal2salt := fun _ p w =>
    ((0, data_of_bytes
           (bytes_of (princ_realm p) ++ concat (map bytes_of (princ_data p)))), w);
  krb5_parse_name := fun _ s w =>
    ((0, mk_princ (mk_data 0 None) [data_of_string s] 1), w);
  krb5_build_principal_ext := fun _ realm comps w =>
    ((0, mk_princ realm comps 0), w);
  krb5_unparse_name := fun _ p w => ((0, "alice@EXAMPLE"%string), w);
  krb5_set_error_message := fun _ _ _ w => w;
  alloc := fun w => (true, w);
  strdup := fun s w => (Some s, w);
  krb5int_copy_data_contents := fun _ d w => ((0, d), w);
  krb5_copy_keyblock_contents := fun _ k w => ((0, k), w);
  krb5_copy_addresses := fun _ a w => ((0, a), w);
  krb5int_copy_creds_contents := fun _ c w => ((0, c), w);
  profile_get_values := fun prof names old w =>
    match names, prof with
    | [_; _], Some s => ((0, Some [s]), w)
    | _, _ => ((2, old), w)
    end;
  krb5_timeofday := fun _ w => ((0, clock w), tick w);
  krb5_set_real_time := fun _ _ _ w => (0, w);
  krb5_os_localaddr := fun _ w => ((0, None), w);
  krb5_sendto_kdc := fun _ packet _ use_master _ w =>
    let w' (rest : list (list byte)) :=
      mk_world (clock w) rest (bytes_of packet :: sent w) (key_calls w)
        (decrypt_calls w) in
    match script w with
    | r :: rest => ((0, data_of_bytes r, use_master), w' rest)
    | [] => ((-1765328228, mk_data 0 None, use_master), w' [])
    end;
  decode_krb5_error := fun d w => ((0, toy_decode_error d), w);
  decode_krb5_as_rep := fun d w => ((0, toy_decode_as_rep d), w);
  decode_krb5_padata_sequence := fun d w => ((0, Some (toy_decode_padata d)), w);
  encode_krb5_as_req := fun r w => ((0, toy_encode_as_req r), w);
  encode_krb5_ticket := fun _ w => ((0, data_of_bytes [x61]), w);
  krb5_cc_store_cred := fun _ _ _ w => (0, w);
  krb5_kdc_rep_decrypt_proc := toy_decrypt_proc;
  krb5_obtain_padata := fun _ padata _ _ creds request w =>
    ((0, (creds, set_req_padata (toy_preauth padata w) request)), tick w);
  krb5_process_padata := fun _ request as_reply _ _ _ key creds _ w =>
    ((0, (request, as_reply, key, creds, 0)), w);
  krb5_do_preauth :=
    fun _ request _ _ in_padata _ salt_ s2kparams_ etype_ as_key_ _ _ _ _ _ w =>
    ((0, (request, toy_preauth in_padata w, salt_, s2kparams_, etype_, as_key_)),
     tick w);
  krb5_do_preauth_tryagain :=
    fun _ request _ _ in_padata _ _ salt_ s2kparams_ etype_ as_key_ _ _ _ _ _ w =>
    ((0, (request, toy_preauth in_padata w, salt_, s2kparams_, etype_, as_key_)),
     tick w);
  krb5_preauth_prepare_request := fun _ _ request w => (request, w);
  krb5_clear_preauth_context_use_counts := fun _ w => w;
  krb5_preauth_request_context_fini := fun _ w => w;
  krb5int_fast_process_error := fun _ _ e w =>
    if d_length (err_e_data e) =? 0 then ((0, (e, None, false)), w)
    else ((0, (e, Some (toy_decode_padata (err_e_data e)), true)), w);
  krb5int_fast_process_response := fun _ _ r w => ((0, (r, None)), w);
  krb5int_fast_reply_key := fun _ _ as_key_ _ w => ((0, as_key_), w);
  krb5int_fast_as_armor := fun _ _ _ request w => ((0, request), w);
  krb5int_fast_prep_req_body := fun _ _ _ _ w =>
    ((0, Some (data_of_bytes [x30])), w);
  krb5int_fast_prep_req := fun _ _ request _ w =>
    ((0, Some (toy_encode_as_req request)), w)
|}.

#[local] Existing Instance scripted_kdc.

Definition test_context (preferred : option string) : krb5_context :=
  mk_context KV5M_CONTEXT preferred 0 300 0.

(** A context as [krb5_init_creds_init] leaves it for alice@EXAMPLE,
    with the key callback set. *)
Definition alice_ctx : krb5_init_creds_context :=
  mk_ctx tt None tt tt (Some toy_gak) tt 0 0 86400 0 0 (mk_data 0 None) None
    (mk_creds None None (mk_key 0 0 None) (mk_times 0 0 0 0) false 0 None
       (mk_data 0 None) (mk_data 0 None))
    (mk_req 0 None 0 (user_principal "alice" "EXAMPLE") None 0 0 0 7
       [23] None)
    None None None tt None (mk_data 4294967295 None) (mk_data 0 None)
    (mk_key 0 0 None) 0.

Definition alice_creds : krb5_creds :=
  mk_creds (Some (user_principal "alice" "EXAMPLE"))
    (Some (tgs_principal "EXAMPLE")) (mk_key 0 0 None) (mk_times 0 0 0 0)
    false 0 None (mk_data 0 None) (mk_data 0 None).

Definition world0 (replies : list (list byte)) : script_world :=
  mk_world 1000 replies [] 0 0.

(** KRB-ERROR PREAUTH_REQUIRED (25) with e-data naming pa-type 2. *)
Definition preauth_required_reply : list byte := [x7e; x19; x02].

(** KRB-ERROR RESPONSE_TOO_BIG (52). *)
Definition too_big_reply : list byte := [x7e; x34].

(** AS-REP whose encrypted part shows nonce 7. *)
Definition as_rep_reply : list byte := [x6b; x07].

(** An AS-REP for alice, already decrypted. *)
Definition decrypted_reply : krb5_kdc_rep :=
  toy_decrypt (toy_decode_as_rep (data_of_bytes as_rep_reply)).

(** The request of scenario 5: client Alice@EXAMPLE, no CANONICALIZE,
    server krbtgt/EXAMPLE@EXAMPLE, nonce 7. *)
Definition request_Alice : krb5_kdc_req :=
  mk_req 10 None 0 (user_principal "Alice" "EXAMPLE")
    (Some (tgs_principal "EXAMPLE")) 0 0 0 7 [23] None.

(** [n] calls of [krb5_init_creds_step], each fed the next reply of
    [ins]; the results of the calls, latest first. *)
Fixpoint run_steps (context : krb5_context) (ctx : krb5_init_creds_context)
    (ins : list krb5_data) (w : script_world)
    : list (option (Z * krb5_init_creds_context * krb5_data * krb5_data * Z)) :=
  match ins with
  | [] => []
  | i :: rest =>
      match step_call context ctx i w with
      | (Some (code, ctx', out, realm, flags), w') =>
          run_steps context ctx' rest w'
            ++ [Some (code, ctx', out, realm, flags)]
      | (None, _) => [None]
      end
  end.

(** The context and the world after the first call of the step API for
    alice, which produces the first request. *)
Definition ctx_after_first_step : krb5_init_creds_context :=
  match step_call (test_context None) alice_ctx (mk_data 0 None) (world0 []) with
  | (Some (_, ctx, _, _, _), _) => ctx
  | (None, _) => alice_ctx
  end.

Definition world_after_first_step : script_world :=
  snd (step_call (test_context None) alice_ctx (mk_data 0 None) (world0 [])).

End Scripted.

(** * The rest of get_in_tkt.c

    The libdefaults booleans, the enctype list of the all-in-one
    routine, and the entry points of the step API that create the
    context and drive it. *)

(** ** libdefaults booleans *)

(* XXX Duplicating this is annoying; try to work on a better way.*)
Definition conf_yes : list string :=
  ["y"; "yes"; "true"; "t"; "1"; "on"]%string.

Definition conf_no : list string :=
  ["n"; "no"; "false"; "nil"; "0"; "off"]%string.

(** [tolower] in the C locale. *)
Definition tolower (c : ascii) : ascii :=
  let n := N_of_ascii c in
  if ((65 <=? n) && (n <=? 90))%N then ascii_of_N (n + 32) else c.

(** [strcasecmp(a, b)]: 0 when the two C strings are equal up to the
    case of their letters, and otherwise the difference of the first
    two characters that differ, lowered.  A C string ends at its first
    NUL character. *)
Fixpoint strcasecmp (a b : string) : Z :=
  let code (s : string) : Z :=
    match s with
    | String c _ => Z.of_N (N_of_ascii (tolower c))
    | EmptyString => 0
    end in
  match a, b with
  | String c a', String d b' =>
      if code a =? code b
      then if code a =? 0 then 0 else strcasecmp a' b'
      else code a - code b
  | _, _ => code a - code b
  end.

(** The loop over one of the two tables, which returns at the first
    word that [strcasecmp] finds equal to [s]: whether there is one. *)
Fixpoint conf_lookup (table : list string) (s : string) : bool :=
  match table with
  | p :: rest => if strcasecmp p s =? 0 then true else conf_lookup rest s
  | [] => false
  end.

Definition _krb5_conf_boolean (s : string) : Z :=
  if conf_lookup conf_yes s then 1
  else if conf_lookup conf_no s then 0
  else (* Default to "no" *) 0.

(** A string with its letters lowered, and a string without a NUL
    character inside: for stating what [_krb5_conf_boolean] accepts. *)
Fixpoint string_lower (s : string) : string :=
  match s with
  | String c rest => String (tolower c) (string_lower rest)
  | EmptyString => EmptyString
  end.

Fixpoint no_nul (s : string) : bool :=
  match s with
  | String c rest => negb (N_of_ascii c =? 0)%N && no_nul rest
  | EmptyString => true
  end.

Section Booleans.

Context `{HD : headers} {W : Type} {E : externals (W := W)}.

(** not static so verify_init_creds() can call it; [ret_value] is what
    [*ret_value] holds before the call, and the result is the return
    value and [*ret_value] afterwards. *)
Definition krb5_libdefault_boolean (context : krb5_context) (realm : krb5_data)
    (option_ : string) (ret_value : Z) : M W (Z * Z) :=
  '(retval, string_) <- call (krb5_libdefault_string context realm option_) ;;
  if truthy retval then ret (retval, ret_value)
  else
    s <- deref string_ ;;
    ret (0, _krb5_conf_boolean s).

End Booleans.

(** ** The enctype list, for stating what the loop over the caller's
    list computes *)

(** The caller's enctypes that the library offers, each once, in the
    caller's order, after those already [chosen]. *)
Fixpoint select_ktypes (offered ktypes chosen : list Z) : list Z :=
  match ktypes with
  | [] => chosen
  | k :: rest =>
      if existsb (Z.eqb k) offered && negb (existsb (Z.eqb k) chosen)
      then select_ktypes offered rest (chosen ++ [k])
      else select_ktypes offered rest chosen
  end.

(** ** Creating the context *)

(** Modelled from the spec: the other configuration keys under
    [libdefaults] (KRB5_CONF_FORWARDABLE and the like in k5-int.h). *)
Definition KRB5_CONF_FORWARDABLE : string := "forwardable".
Definition KRB5_CONF_PROXIABLE : string := "proxiable".
Definition KRB5_CONF_CANONICALIZE : string := "canonicalize".
Definition KRB5_CONF_TICKET_LIFETIME : string := "ticket_lifetime".
Definition KRB5_CONF_RENEW_LIFETIME : string := "renew_lifetime".
Definition KRB5_CONF_NOADDRESSES : string := "noaddresses".

(** [for (n = 0; cells[n] != stop; n++);] *)
Fixpoint count_until (stop : Z) (cells : list Z) : option nat :=
  match cells with
  | [] => None
  | c :: rest => if c =? stop then Some O else S <$> count_until stop rest
  end.

(** A body that leaves for [cleanup:] only with a code that is not 0. *)
Definition leaves_nonzero {S A} (m : M S A) : Prop :=
  forall s c s', m s = (Leave c, s') -> c <> 0.

Section InitCreds.

Context `{HD : headers} {W : Type} {E : externals (W := W)}.

(** What only [krb5_init_creds_init] and [krb5_get_init_creds] take
    from the headers and the rest of the library: the two option
    structures (krb5_get_init_creds_opt, and krb5_gic_opt_ext, which
    extends it) through the fields that are read, the flag bits, and
    the collaborators. *)
Class init_externals := {
  krb5_get_init_creds_opt : Type;
  (* (krb5_get_init_creds_opt * )options, for a krb5_gic_opt_ext *options *)
  opt_of_opte : opte_t -> krb5_get_init_creds_opt;
  opt_tkt_life : krb5_get_init_creds_opt -> Z;
  opt_renew_life : krb5_get_init_creds_opt -> Z;
  opte_flags : opte_t -> Z;
  opte_forwardable : opte_t -> Z;
  opte_proxiable : opte_t -> Z;
  opte_etype_list : opte_t -> list Z;
  opte_etype_list_length : opte_t -> Z;
  opte_address_list : opte_t -> option (list krb5_address);
  opte_preauth_list : opte_t -> list Z;
  opte_preauth_list_length : opte_t -> Z;
  opte_salt : opte_t -> option krb5_data;
  KRB5_GET_INIT_CREDS_OPT_TKT_LIFE : Z;
  KRB5_GET_INIT_CREDS_OPT_RENEW_LIFE : Z;
  KRB5_GET_INIT_CREDS_OPT_FORWARDABLE : Z;
  KRB5_GET_INIT_CREDS_OPT_PROXIABLE : Z;
  KRB5_GET_INIT_CREDS_OPT_CANONICALIZE : Z;
  KRB5_GET_INIT_CREDS_OPT_ETYPE_LIST : Z;
  KRB5_GET_INIT_CREDS_OPT_ADDRESS_LIST : Z;
  KRB5_GET_INIT_CREDS_OPT_PREAUTH_LIST : Z;
  KRB5_GET_INIT_CREDS_OPT_SALT : Z;
  KDC_OPT_FORWARDABLE : Z;
  KDC_OPT_PROXIABLE : Z;
  KDC_OPT_ALLOW_POSTDATE : Z;
  ENCTYPE_NULL : Z;
  KRB5_CONFIG_ETYPE_NOSUPP : Z;
  KRB5_CONFIG_ETYPE_NOSUPP_nonzero : KRB5_CONFIG_ETYPE_NOSUPP <> 0;
  krb5_get_init_creds_opt_alloc :
    krb5_context -> W -> (Z * krb5_get_init_creds_opt) * W;
  (* krb5int_gic_opt_to_opte(context, opt, &opte, force, where) *)
  krb5int_gic_opt_to_opte :
    krb5_context -> krb5_get_init_creds_opt -> Z -> string -> W ->
    (Z * opte_t) * W;
  krb5int_fast_make_state : krb5_context -> W -> (Z * fast_state_t) * W;
  krb5_string_to_deltat : string -> W -> (Z * Z) * W;
  (* the code and the array of enctypes, which ends with ENCTYPE_NULL *)
  krb5_get_default_in_tkt_ktypes : krb5_context -> W -> (Z * list Z) * W;
  krb5_preauth_request_context_init : krb5_context -> W -> W;
  (* krb5_c_random_make_octets(context, &random_data): the code and the
     bytes of the buffer afterwards *)
  krb5_c_random_make_octets : krb5_context -> Z -> W -> (Z * list byte) * W;
  (* an unsigned 32-bit value read from four bytes in the byte order of
     the platform *)
  load_32_n : list byte -> Z
}.

Context {I : init_externals}.

(** An option of the context: the caller's value when the flag is set,
    else the libdefaults boolean, else 0. *)
Definition init_boolean (context : krb5_context) (realm : krb5_data)
    (flags flag : Z) (given : Z) (option_ : string) (tmp : Z) : M W Z :=
  if truthy (Z.land flags flag) then ret given
  else
    '(rc, tmp) <- krb5_libdefault_boolean context realm option_ tmp ;;
    if rc =? 0 then ret tmp else ret 0.

(** A lifetime of the context: the caller's value when the flag is set,
    else the libdefaults string as a duration, else [default_]. *)
Definition init_lifetime (context : krb5_context) (realm : krb5_data)
    (flags flag : Z) (given : Z) (option_ : string) (default_ : Z) : M W Z :=
  if truthy (Z.land flags flag) then ret given
  else
    '(rc, str) <- call (krb5_libdefault_string context realm option_) ;;
    if rc =? 0 then
      str <- deref str ;;
      '(code, life) <- call (krb5_string_to_deltat str) ;;
      _ <- check code ;;
      ret life
    else ret default_.

(** The body of [krb5_init_creds_init] down to [*pctx = ctx]: the
    context it has built, or the code it goes to [cleanup:] with.  The
    context and the request come zeroed from [k5alloc]; the
    [get_data_rock] of the context, which points back into it, is not
    modelled. *)
Definition init_creds_init_body (context : krb5_context)
    (client : krb5_principal_data) (prompter_ data : krb5_const_pointer)
    (start_time_ : Z) (options : option krb5_get_init_creds_opt)
    : M W (krb5_init_creds_context (W := W)) :=
  ok <- call alloc ;;
  _ <- (if ok : bool then ret tt else leave ENOMEM) ;;
  ok <- call alloc ;;
  _ <- (if ok : bool then ret tt else leave ENOMEM) ;;
  '(code, client) <- call (krb5_copy_principal context client) ;;
  _ <- check code ;;
  options <-
    match options with
    | Some o => ret o
    | None =>
        '(code, o) <- call (krb5_get_init_creds_opt_alloc context) ;;
        _ <- check code ;;
        ret o
    end ;;
  '(code, opte_) <-
    call (krb5int_gic_opt_to_opte context options 1 "krb5_init_creds_init") ;;
  _ <- check code ;;
  '(code, fast_state_) <- call (krb5int_fast_make_state context) ;;
  _ <- check code ;;
  let realm := princ_realm client in
  let flags := opte_flags opte_ in
  (* Initialise request parameters as per krb5_get_init_creds() *)
  let kdc_options := kdc_default_options context in
  (* forwaradble *)
  tmp <- init_boolean context realm flags KRB5_GET_INIT_CREDS_OPT_FORWARDABLE
           (opte_forwardable opte_) KRB5_CONF_FORWARDABLE 0 ;;
  let kdc_options :=
    if truthy tmp then Z.lor kdc_options KDC_OPT_FORWARDABLE else kdc_options in
  (* proxiable *)
  tmp <- init_boolean context realm flags KRB5_GET_INIT_CREDS_OPT_PROXIABLE
           (opte_proxiable opte_) KRB5_CONF_PROXIABLE tmp ;;
  let kdc_options :=
    if truthy tmp then Z.lor kdc_options KDC_OPT_PROXIABLE else kdc_options in
  (* canonicalize *)
  tmp <- init_boolean context realm flags KRB5_GET_INIT_CREDS_OPT_CANONICALIZE
           1 KRB5_CONF_CANONICALIZE tmp ;;
  let kdc_options :=
    if truthy tmp then Z.lor kdc_options KDC_OPT_CANONICALIZE else kdc_options in
  (* allow_postdate *)
  let kdc_options :=
    if start_time_ >? 0
    then Z.lor kdc_options (Z.lor KDC_OPT_ALLOW_POSTDATE KDC_OPT_POSTDATED)
    else kdc_options in
  (* ticket lifetime *)
  tkt_life_ <-
    init_lifetime context realm flags KRB5_GET_INIT_CREDS_OPT_TKT_LIFE
      (opt_tkt_life options) KRB5_CONF_TICKET_LIFETIME
      (24 * 60 * 60) (* previously hardcoded in kinit *) ;;
  (* renewable lifetime *)
  renew_life_ <-
    init_lifetime context realm flags KRB5_GET_INIT_CREDS_OPT_RENEW_LIFE
      (opt_renew_life options) KRB5_CONF_RENEW_LIFETIME 0 ;;
  let kdc_options :=
    if renew_life_ >? 0 then Z.lor kdc_options KDC_OPT_RENEWABLE
    else kdc_options in
  (* enctypes *)
  ktype <-
    (if truthy (Z.land flags KRB5_GET_INIT_CREDS_OPT_ETYPE_LIST) then
       ok <- call alloc ;;
       _ <- (if ok : bool then ret tt else leave ENOMEM) ;;
       let n := opte_etype_list_length opte_ in
       if (0 <=? n) && (n <=? Z.of_nat (length (opte_etype_list opte_)))
       then ret (take (Z.to_nat n) (opte_etype_list opte_))
       else stuck
     else
       '(rc, ktype) <- call (krb5_get_default_in_tkt_ktypes context) ;;
       if rc =? 0 then
         n <- deref (count_until ENCTYPE_NULL ktype) ;;
         ret (take n ktype)
       else
         (* there isn't any useful default here. *)
         leave KRB5_CONFIG_ETYPE_NOSUPP) ;;
  (* addresess *)
  addresses <-
    (if truthy (Z.land flags KRB5_GET_INIT_CREDS_OPT_ADDRESS_LIST) then
       '(code, a) <- call (krb5_copy_addresses context (opte_address_list opte_)) ;;
       _ <- check code ;;
       ret a
     else
       '(rc, tmp) <-
         krb5_libdefault_boolean context realm KRB5_CONF_NOADDRESSES tmp ;;
       if negb (rc =? 0) || truthy tmp then ret None
       else
         '(code, a) <- call (krb5_os_localaddr context) ;;
         _ <- check code ;;
         ret a) ;;
  (* initial preauth state *)
  _ <- call (fun w => (tt, krb5_preauth_request_context_init context w)) ;;
  preauth_to_use_ <-
    (if truthy (Z.land flags KRB5_GET_INIT_CREDS_OPT_PREAUTH_LIST) then
       '(code, list_) <-
         make_preauth_list context (opte_preauth_list opte_)
           (opte_preauth_list_length opte_) ;;
       _ <- check code ;;
       ret list_
     else ret None) ;;
  salt_ <-
    (if truthy (Z.land flags KRB5_GET_INIT_CREDS_OPT_SALT) then
       given <- deref (opte_salt opte_) ;;
       '(code, s) <- call (krb5int_copy_data_contents context given) ;;
       _ <- check code ;;
       ret s
     else ret (mk_data SALT_TYPE_AFS_LENGTH None)) ;;
  (* nonce *)
  nonce <-
    ('(rc, random_buf) <- call (krb5_c_random_make_octets context 4) ;;
     (* See RT ticket 3196 at MIT.  If we set the high bit, we may have
        compatibility problems with Heimdal, because we (incorrectly)
        encode this value as signed. *)
     if rc =? 0 then ret (Z.land 0x7fffffff (load_32_n random_buf))
     else
       '(code, now) <- call (krb5_timeofday context) ;;
       _ <- check code ;;
       ret (wrap32 now)) ;;
  ret (mk_ctx opte_ None prompter_ data None null_pointer 0 start_time_
         tkt_life_ renew_life_ 0 (mk_data 0 None) None
         (mk_creds None None (mk_key 0 0 None) (mk_times 0 0 0 0) false 0 None
            (mk_data 0 None) (mk_data 0 None))
         (mk_req 0 None kdc_options client None 0 0 0 nonce ktype addresses)
         None None None fast_state_ preauth_to_use_ salt_ (mk_data 0 None)
         (mk_key 0 0 None) 0).

(** The result is the return value and [*pctx], which is written only
    on success. *)
Definition krb5_init_creds_init (context : krb5_context)
    (client : krb5_principal_data) (prompter_ data : krb5_const_pointer)
    (start_time_ : Z) (options : option krb5_get_init_creds_opt)
    : M W (Z * option (krb5_init_creds_context (W := W))) := fun w =>
  match init_creds_init_body context client prompter_ data start_time_
          options w with
  | (Next ctx, w') => (Next (0, Some ctx), w')
  | (Leave code, w') => (Next (code, None), w')
  | (Stuck, w') => (Stuck, w')
  end.

(** The result is the return value, the credentials, [*use_master] and
    [*as_reply] afterwards; [as_reply] is [None] for a NULL pointer.
    The argument [in_tkt_service] is not used. *)
Definition krb5_get_init_creds (fuel : nat) (context : krb5_context)
    (creds : krb5_creds) (client : krb5_principal_data)
    (prompter_ prompter_data_ : krb5_const_pointer) (start_time_ : Z)
    (in_tkt_service_ : option string) (options : option opte_t)
    (gak_fct_ : option krb5_gic_get_as_key_fct) (gak_data_ : krb5_const_pointer)
    (use_master : Z) (as_reply : option (option krb5_kdc_rep))
    : M W (Z * krb5_creds * Z * option (option krb5_kdc_rep)) :=
  '(code, ctx) <-
    krb5_init_creds_init context client prompter_ prompter_data_ start_time_
      (opt_of_opte <$> options) ;;
  if truthy code then ret (code, creds, use_master, as_reply)
  else
    ctx <- deref ctx ;;
    let '(code, ctx) :=
      krb5int_init_creds_set_as_key_func context ctx gak_fct_ gak_data_ in
    if truthy code then ret (code, creds, use_master, as_reply)
    else
      r <- (fun w =>
              match krb5int_init_creds_get_ext fuel context ctx use_master w with
              | (Some r, w') => (Next r, w')
              | (None, w') => (Stuck, w')
              end) ;;
      let '(code, ctx, use_master) := r in
      if truthy code then ret (code, creds, use_master, as_reply)
      else
        '(code, creds) <- call (krb5_init_creds_get_creds context ctx) ;;
        if truthy code then ret (code, creds, use_master, as_reply)
        else
          ret (code, creds, use_master,
               match as_reply with
               | Some _ => Some (reply ctx)
               | None => None
               end).

End InitCreds.

(** ** Scripted options

    One instance of what [krb5_init_creds_init] takes from the rest of
    the library, for running it with the scripted KDC: the flag bits of
    krb5.h, and the options of a caller who asks for a forwardable
    ticket of ten hours with the enctypes 18 and 23.  The random
    generator hands out the bytes of the nonce 7, which [load_32_n]
    reads least significant byte first; a duration is a decimal number
    of seconds. *)

Fixpoint decimal_of (s : string) (acc : Z) : option Z :=
  match s with
  | EmptyString => Some acc
  | String c rest =>
      let d := Z.of_N (N_of_ascii c) - 48 in
      if (0 <=? d) && (d <=? 9) then decimal_of rest (10 * acc + d) else None
  end.

Section ScriptedOptions.

#[local] Existing Instance mit_headers.
#[local] Existing Instance scripted_kdc.

Definition scripted_options : init_externals (W := script_world) := {|
  krb5_get_init_creds_opt := unit;
  opt_of_opte := fun _ => tt;
  opt_tkt_life := fun _ => 36000;
  opt_renew_life := fun _ => 0;
  opte_flags := fun _ => 0x0015;
  opte_forwardable := fun _ => 1;
  opte_proxiable := fun _ => 0;
  opte_etype_list := fun _ => [18; 23];
  opte_etype_list_length := fun _ => 2;
  opte_address_list := fun _ => None;
  opte_preauth_list := fun _ => [];
  opte_preauth_list_length := fun _ => 0;
  opte_salt := fun _ => None;
  KRB5_GET_INIT_CREDS_OPT_TKT_LIFE := 0x0001;
  KRB5_GET_INIT_CREDS_OPT_RENEW_LIFE := 0x0002;
  KRB5_GET_INIT_CREDS_OPT_FORWARDABLE := 0x0004;
  KRB5_GET_INIT_CREDS_OPT_PROXIABLE := 0x0008;
  KRB5_GET_INIT_CREDS_OPT_CANONICALIZE := 0x0200;
  KRB5_GET_INIT_CREDS_OPT_ETYPE_LIST := 0x0010;
  KRB5_GET_INIT_CREDS_OPT_ADDRESS_LIST := 0x0020;
  KRB5_GET_INIT_CREDS_OPT_PREAUTH_LIST := 0x0040;
  KRB5_GET_INIT_CREDS_OPT_SALT := 0x0080;
  KDC_OPT_FORWARDABLE := 0x40000000;
  KDC_OPT_PROXIABLE := 0x10000000;
  KDC_OPT_ALLOW_POSTDATE := 0x04000000;
  ENCTYPE_NULL := 0;
  KRB5_CONFIG_ETYPE_NOSUPP := -1765328147;
  KRB5_CONFIG_ETYPE_NOSUPP_nonzero := ltac:(discriminate);
  krb5_get_init_creds_opt_alloc := fun _ w => ((0, tt), w);
  krb5int_gic_opt_to_opte := fun _ _ _ _ w => ((0, tt), w);
  krb5int_fast_make_state := fun _ w => ((0, tt), w);
  krb5_string_to_deltat := fun s w =>
    match decimal_of s 0 with
    | Some z => ((0, z), w)
    | None => ((22, 0), w)
    end;
  krb5_get_default_in_tkt_ktypes := fun _ w => ((0, [18; 17; 23; 0]), w);
  krb5_preauth_request_context_init := fun _ w => w;
  krb5_c_random_make_octets := fun _ n w =>
    ((0, take (Z.to_nat n) [x07; x00; x00; x00]), w);
  load_32_n := fun bs =>
    fold_right (fun b acc => byte_value b + 256 * acc) 0 bs
|}.

#[local] Existing Instance scripted_options.

(** The options structure of the scripted caller. *)
Definition kinit_options : krb5_get_init_creds_opt := tt.

End ScriptedOptions.

(** * Properties *)

(** ** Tactics for running the control-flow monad *)

(** Case analysis on the innermost scrutinee of the goal. *)
Ltac exec1 :=
  match goal with
  | |- context [match ?x with _ => _ end] =>
      match x with
      | context [match _ with _ => _ end] => fail 1
      | _ => destruct x eqn:?
      end
  | |- context [if ?x then _ else _] =>
      match x with
      | context [if _ then _ else _] => fail 1
      | context [match _ with _ => _ end] => fail 1
      | _ => destruct x eqn:?
      end
  end.

(** The monad's operations, unfolded. *)
Ltac unfold_m :=
  unfold with_cleanup, returning, bind, update_ctx, update, the_ctx, locals,
    callw, on_world, call, check, deref, ret, leave, stuck in *.

(** The result of a step call, taken apart. *)
Ltac inj_step :=
  let H := fresh in intros H; inversion H; subst; clear H; simpl in *.


Lemma wrap32_id z : is_int32 z -> wrap32 z = z.
Proof.
  unfold is_int32, wrap32, KRB5_INT32_MIN, KRB5_INT32_MAX. intros Hz.
  rewrite Z.mod_small; lia.
Qed.

Lemma wrap32_range z : is_int32 (wrap32 z).
Proof.
  unfold is_int32, wrap32, KRB5_INT32_MIN, KRB5_INT32_MAX.
  pose proof (Z.mod_pos_bound (z + 2 ^ 31) (2 ^ 32) ltac:(lia)). lia.
Qed.

(** C6. For signed 32-bit [x] and [y], [krb5int_addint32] returns
    KRB5_INT32_MAX when [x > 0] and [y > MAX - x], KRB5_INT32_MIN when
    [x < 0] and [y < MIN - x], and [x + y] otherwise; the result is
    always a signed 32-bit value and it is the mathematical sum
    whenever that sum is representable. *)
Theorem krb5int_addint32_saturates (x y : Z) :
  is_int32 x -> is_int32 y ->
  (x > 0 /\ y > KRB5_INT32_MAX - x -> krb5int_addint32 x y = KRB5_INT32_MAX) /\
  (x < 0 /\ y < KRB5_INT32_MIN - x -> krb5int_addint32 x y = KRB5_INT32_MIN) /\
  (~ (x > 0 /\ y > KRB5_INT32_MAX - x) ->
   ~ (x < 0 /\ y < KRB5_INT32_MIN - x) -> krb5int_addint32 x y = x + y) /\
  is_int32 (krb5int_addint32 x y) /\
  (is_int32 (x + y) -> krb5int_addint32 x y = x + y).
Proof.
  intros Hx Hy. unfold krb5int_addint32.
  assert (Hmax : x > 0 -> wrap32 (KRB5_INT32_MAX - x) = KRB5_INT32_MAX - x).
  { intros. apply wrap32_id. unfold is_int32, KRB5_INT32_MIN, KRB5_INT32_MAX in *. lia. }
  assert (Hmin : x < 0 -> wrap32 (KRB5_INT32_MIN - x) = KRB5_INT32_MIN - x).
  { intros. apply wrap32_id. unfold is_int32, KRB5_INT32_MIN, KRB5_INT32_MAX in *. lia. }
  assert (Hsum : is_int32 (x + y) -> wrap32 (x + y) = x + y) by apply wrap32_id.
  pose proof (wrap32_range (x + y)) as Hr.
  destruct (Z.gtb_spec x 0) as [Hp|Hp]; simpl;
    [rewrite Hmax by lia; destruct (Z.gtb_spec y (KRB5_INT32_MAX - x)); simpl|];
    try (destruct (Z.ltb_spec x 0) as [Hn|Hn]; simpl;
         [rewrite Hmin by lia; destruct (Z.ltb_spec y (KRB5_INT32_MIN - x)); simpl|]);
    unfold is_int32, KRB5_INT32_MIN, KRB5_INT32_MAX in *;
    repeat split; intros; try lia; try (rewrite Hsum; lia).
Qed.

Lemma krb5int_addint32_saturates_witness :
  krb5int_addint32 2147483000 1000 = KRB5_INT32_MAX /\
  krb5int_addint32 (-2147483000) (-1000) = KRB5_INT32_MIN /\
  krb5int_addint32 5 7 = 12.
Proof.
  pose proof (krb5int_addint32_saturates 2147483000 1000
                ltac:(unfold is_int32, KRB5_INT32_MIN, KRB5_INT32_MAX; lia)
                ltac:(unfold is_int32, KRB5_INT32_MIN, KRB5_INT32_MAX; lia)) as [H1 _].
  pose proof (krb5int_addint32_saturates (-2147483000) (-1000)
                ltac:(unfold is_int32, KRB5_INT32_MIN, KRB5_INT32_MAX; lia)
                ltac:(unfold is_int32, KRB5_INT32_MIN, KRB5_INT32_MAX; lia)) as (_ & H2 & _).
  pose proof (krb5int_addint32_saturates 5 7
                ltac:(unfold is_int32, KRB5_INT32_MIN, KRB5_INT32_MAX; lia)
                ltac:(unfold is_int32, KRB5_INT32_MIN, KRB5_INT32_MAX; lia)) as (_ & _ & H3 & _).
  split; [apply H1; unfold KRB5_INT32_MAX; lia|].
  split; [apply H2; unfold KRB5_INT32_MIN, KRB5_INT32_MAX; lia|].
  apply H3; unfold KRB5_INT32_MIN, KRB5_INT32_MAX; lia.
Defined.

Section SortFacts.

Context `{HD : headers} {W : Type} {E : externals (W := W)}.

Lemma split_first_Some l tl pre x post :
  split_first l tl = Some (pre, x, post) ->
  tl = pre ++ x :: post /\ pa_type x = l /\ Forall (fun e => pa_type e <> l) pre.
Proof.
  revert pre x post. induction tl as [|e tl IH]; intros pre x post; simpl; [discriminate|].
  destruct (Z.eqb_spec (pa_type e) l) as [Heq|Hne].
  - intros [= <- <- <-]. auto.
  - destruct (split_first l tl) as [[[pre' x'] post']|] eqn:Hs; [|discriminate].
    intros [= <- <- <-]. destruct (IH _ _ _ eq_refl) as (-> & Hx & Hpre).
    repeat split; auto.
Qed.

Lemma find_pa_type_spec l tl rest i :
  find_pa_type l (map Some tl ++ None :: rest) i =
  match split_first l tl with
  | Some (pre, _, _) => Some (i + length pre)%nat
  | None => None
  end.
Proof.
  revert i. induction tl as [|e tl IH]; intros i; simpl; [reflexivity|].
  destruct (pa_type e =? l).
  - f_equal. simpl. lia.
  - rewrite IH. destruct (split_first l tl) as [[[pre x] post]|]; [|reflexivity].
    f_equal. simpl. lia.
Qed.

Lemma shift_up_app (A seg : pa_array) y post :
  shift_up (length seg) (length A + length seg) (A ++ seg ++ y :: post) =
  A ++ hd y seg :: seg ++ post.
Proof.
  revert y post. induction seg as [|z seg IH] using rev_ind; intros y post.
  - simpl. reflexivity.
  - rewrite length_app. simpl length.
    replace (length seg + 1)%nat with (S (length seg)) by lia.
    simpl shift_up.
    replace (length A + S (length seg) - 1)%nat with (length A + length seg)%nat by lia.
    rewrite <- (app_assoc seg [z]). simpl app.
    assert (Hl : (A ++ seg ++ z :: y :: post) !! (length A + length seg)%nat = Some z).
    { rewrite lookup_app_r by lia. rewrite lookup_app_r by lia.
      replace (length A + length seg - length A - length seg)%nat with 0%nat by lia.
      reflexivity. }
    rewrite Hl.
    replace (<[(length A + S (length seg))%nat := z]> (A ++ seg ++ z :: y :: post))
      with (A ++ seg ++ z :: z :: post).
    2:{ rewrite insert_app_r. f_equal.
        replace (S (length seg)) with (length seg + 1)%nat by lia.
        rewrite insert_app_r. reflexivity. }
    rewrite IH. f_equal. rewrite <- app_assoc. simpl.
    destruct seg; reflexivity.
Qed.

Lemma bubble_to_front_spec l front tl rest :
  bubble_to_front l (map Some (front ++ tl) ++ None :: rest) (length front) =
  let st := move_pref (front, tl) l in
  (map Some (fst st ++ snd st) ++ None :: rest, length (fst st)).
Proof.
  unfold bubble_to_front, move_pref. simpl snd.
  rewrite map_app, <- app_assoc.
  rewrite drop_app_length' by (rewrite length_map; reflexivity).
  rewrite find_pa_type_spec.
  destruct (split_first l tl) as [[[pre x] post]|] eqn:Hs; simpl.
  2:{ rewrite map_app, <- app_assoc. reflexivity. }
  apply split_first_Some in Hs as (-> & _ & _).
  rewrite lookup_app_r by (rewrite length_map; lia).
  rewrite length_map, map_app.
  replace (length front + length pre - length front)%nat with (length pre) by lia.
  rewrite <- app_assoc.
  rewrite lookup_app_r by (rewrite length_map; lia).
  rewrite length_map, Nat.sub_diag. simpl.
  pose proof (shift_up_app (map Some front) (map Some pre) (Some x) (map Some post ++ None :: rest)) as Hsh.
  rewrite !length_map in Hsh. rewrite Hsh.
  rewrite <- (length_map Some front) at 1.
  replace (length (map Some front)) with (length (map Some front) + 0)%nat by lia.
  rewrite insert_app_r. simpl.
  rewrite length_app. simpl.
  rewrite !map_app, <- !app_assoc. simpl.
  f_equal. lia.
Qed.

Lemma length_advance_le n p : (String.length (advance n p) <= String.length p)%nat.
Proof.
  revert p. induction n as [|n IH]; intros [|c p]; simpl; try lia.
  specialize (IH p). lia.
Qed.

Lemma length_advance_lt n p :
  n <> O -> p <> EmptyString ->
  (String.length (advance n p) < String.length p)%nat.
Proof.
  intros Hn Hp. destruct n as [|n]; [congruence|]. destruct p as [|c p]; [congruence|].
  simpl. pose proof (length_advance_le n p). lia.
Qed.

Lemma sort_loop_spec fuel : forall p front tl rest,
  (String.length p < fuel)%nat ->
  sort_loop fuel p (map Some (front ++ tl) ++ None :: rest) (length front) =
  Some (let st := fold_left move_pref (preferred_types fuel p) (front, tl) in
        map Some (fst st ++ snd st) ++ None :: rest).
Proof.
  induction fuel as [|fuel IH]; intros p front tl rest Hlen; [lia|].
  simpl sort_loop. simpl preferred_types.
  destruct p as [|c p]; [reflexivity|].
  pose proof (length_advance_le (strspn (String c p) [","%char; " "%char])
                (String c p)) as Hp1.
  destruct (advance (strspn (String c p) [","%char; " "%char]) (String c p))
    as [|c1 p1] eqn:Ep1.
  - destruct fuel; [simpl in Hlen; lia | reflexivity].
  - destruct (strtol (String c1 p1)) as [l n] eqn:Est.
    destruct n as [|n]; [reflexivity|].
    rewrite bubble_to_front_spec.
    destruct (move_pref (front, tl) l) as [front' tl'] eqn:Emv. simpl fst; simpl snd.
    cbv beta iota zeta. rewrite IH.
    + simpl fold_left. rewrite Emv. reflexivity.
    + pose proof (length_advance_lt (S n) (String c1 p1) ltac:(lia) ltac:(discriminate)).
      lia.
Qed.

Lemma fold_move_pref_spec ls : forall front tl,
  let st := fold_left move_pref ls (front, tl) in
  exists added,
    fst st = front ++ added /\
    Forall (fun e => pa_type e ∈ ls) added /\
    map pa_type added `sublist_of` ls /\
    snd st `sublist_of` tl /\
    added ++ snd st ≡ₚ tl /\
    (forall (P : krb5_pa_data -> Prop) (HP : forall e, Decision (P e)),
        (forall e, pa_type e ∈ ls -> ~ P e) ->
        filter P (snd st) = filter P tl).
Proof.
  induction ls as [|l ls IH]; intros front tl; simpl.
  - exists []. rewrite app_nil_r. repeat split; auto. 
  - assert (Hmv : move_pref (front, tl) l =
                   match split_first l tl with
                   | Some (pre, x, post) => (front ++ [x], pre ++ post)
                   | None => (front, tl)
                   end) by reflexivity.
    rewrite Hmv. clear Hmv.
    destruct (split_first l tl) as [[[pre x] post]|] eqn:Hs.
    + apply split_first_Some in Hs as (-> & Hx & Hpre).
      destruct (IH (front ++ [x]) (pre ++ post))
        as (added & Hf & Hin & Hord & Hsub & Hperm & Hfil).
      exists (x :: added). rewrite Hf, <- app_assoc. simpl.
      split; [reflexivity|]. split.
      { constructor; [rewrite Hx; left|].
        eapply Forall_impl; [exact Hin|]. intros e He. right. exact He. }
      split; [rewrite Hx; by apply sublist_skip|].
      split.
      { etrans; [exact Hsub|]. apply sublist_app; [reflexivity|]. by apply sublist_cons. }
      split.
      { rewrite Hperm. apply Permutation_middle. }
      intros P HP Hno. rewrite Hfil by (intros e He; apply Hno; right; exact He).
      rewrite !filter_app. f_equal. rewrite filter_cons_False; [reflexivity|].
      apply Hno. rewrite Hx. left.
    + destruct (IH front tl) as (added & Hf & Hin & Hord & Hsub & Hperm & Hfil).
      exists added. repeat split; auto.
      { eapply Forall_impl; [exact Hin|]. intros e He. right. exact He. }
      { by apply sublist_cons. }
      intros P HP Hno. apply Hfil. intros e He. apply Hno. right. exact He.
Qed.

Lemma sort_krb5_padata_sequence_spec context realm e es rest w :
  sort_krb5_padata_sequence context realm
    (Some (map Some (e :: es) ++ None :: rest)) w =
  let '(s, w1) := preference_string context realm w in
  let st := fold_left move_pref (named_types s) ([], e :: es) in
  Some ((0, Some (map Some (fst st ++ snd st) ++ None :: rest)), w1).
Proof.
  unfold sort_krb5_padata_sequence, preference_string. simpl map. simpl app.
  destruct (krb5_libdefault_string context realm
              KRB5_CONF_PREFERRED_PREAUTH_TYPES w) as [[ret pt] w1].
  set (s := match (ret =? 0)%Z, pt with
            | true, Some s => s
            | _, _ => "17, 16, 15, 14"%string
            end).
  pose proof (sort_loop_spec (S (String.length s)) s [] (e :: es) rest
                ltac:(lia)) as Hl.
  simpl map in Hl. simpl app in Hl. change (length (@nil krb5_pa_data)) with 0%nat in Hl.
  rewrite Hl. reflexivity.
Qed.

Lemma clamp_long_small v :
  - 2 ^ 31 <= v <= 2 ^ 31 - 1 -> Z.max LONG_MIN (Z.min LONG_MAX v) = v.
Proof.
  intros Hv. unfold LONG_MIN, LONG_MAX.
  destruct LONG_BITS_ok as [Hb | Hb]; rewrite Hb;
    [change (2 ^ (32 - 1)) with 2147483648
    |change (2 ^ (64 - 1)) with 9223372036854775808]. all: lia.
Qed.

Lemma named_types_1 : named_types "1" = [1].
Proof. unfold named_types. simpl. rewrite clamp_long_small by lia. reflexivity. Qed.

Lemma named_types_1_3 : named_types "1, 3" = [1; 3].
Proof. unfold named_types. simpl. rewrite !clamp_long_small by lia. reflexivity. Qed.

Lemma named_types_1_x_2 : named_types "1, x, 2" = [1].
Proof. unfold named_types. simpl. rewrite !clamp_long_small by lia. reflexivity. Qed.

Lemma named_types_default : named_types "17, 16, 15, 14" = [17; 16; 15; 14].
Proof. unfold named_types. simpl. rewrite !clamp_long_small by lia. reflexivity. Qed.

Lemma sort_krb5_padata_sequence_shape context realm es rest w :
  exists front tail w',
    sort_krb5_padata_sequence context realm
      (Some (map Some es ++ None :: rest)) w =
    Some ((0, Some (map Some (front ++ tail) ++ None :: rest)), w') /\
    (es = [] -> front = [] /\ tail = [] /\ w' = w) /\
    (es <> [] -> w' = snd (preference_string context realm w)) /\
    let named := named_types (fst (preference_string context realm w)) in
    Forall (fun e => pa_type e ∈ named) front /\
    map pa_type front `sublist_of` named /\
    tail `sublist_of` es /\
    front ++ tail ≡ₚ es /\
    filter (fun e => pa_type e ∉ named) tail =
    filter (fun e => pa_type e ∉ named) es.
Proof.
  destruct es as [|e es].
  - exists [], [], w. simpl. repeat split; auto; try congruence.
    apply sublist_nil_l.
  - rewrite sort_krb5_padata_sequence_spec.
    destruct (preference_string context realm w) as [s w1]. simpl fst. simpl snd.
    destruct (fold_move_pref_spec (named_types s) [] (e :: es))
      as (added & Hf & Hin & Hord & Hsub & Hperm & Hfil).
    simpl in Hf.
    exists added, (snd (fold_left move_pref (named_types s) ([], e :: es))), w1.
    cbv beta iota zeta. rewrite Hf. repeat split; auto; try congruence.
    all: try (apply Hfil; intros x Hx Hn; exact (Hn Hx)).
Qed.

(** C9. On a NULL pointer, and on every NULL-terminated array, under
    every preference configuration, the ordering returns 0 and only
    permutes the entries before the terminating NULL: the array keeps
    its length, the NULL stays where it was, the slots after it are
    untouched and the entries are the same values. *)
Theorem sort_krb5_padata_sequence_permutes context realm w :
  sort_krb5_padata_sequence context realm None w = Some ((0, None), w) /\
  (forall rest,
      sort_krb5_padata_sequence context realm (Some (None :: rest)) w =
      Some ((0, Some (None :: rest)), w)) /\
  (forall es rest, exists es' w',
      sort_krb5_padata_sequence context realm
        (Some (map Some es ++ None :: rest)) w =
      Some ((0, Some (map Some es' ++ None :: rest)), w') /\
      es' ≡ₚ es /\
      length es' = length es /\
      length (map Some es' ++ None :: rest) = length (map Some es ++ None :: rest) /\
      (map Some es' ++ None :: rest) !! length es = Some None).
Proof.
  split; [reflexivity|]. split; [reflexivity|].
  intros es rest.
  destruct (sort_krb5_padata_sequence_shape context realm es rest w)
    as (front & tail & w' & Heq & _ & _ & _ & _ & _ & Hperm & _).
  exists (front ++ tail), w'. split; [exact Heq|]. split; [exact Hperm|].
  assert (Hlen : length (front ++ tail) = length es) by (rewrite Hperm; reflexivity).
  split; [exact Hlen|]. split.
  - rewrite !length_app, !length_map, Hlen. reflexivity.
  - rewrite lookup_app_r by (rewrite length_map; lia).
    rewrite length_map, Hlen, Nat.sub_diag. reflexivity.
Qed.

(** C7. With the preference string [s] found in the profile: "1"
    orders the types [2, 1, 3] as [1, 2, 3] and "1, 3" as [1, 3, 2]; the
    empty string leaves every array as it is; in general the result is
    the entries moved to the front, all of types the string names and in
    the order it names them, followed by the others in their original
    relative order, none of the types the string does not name being
    moved; and a token that is
    not a number ends the loop over the string with the array as it is
    then, the return code still being 0 (as for "1, x, 2"). *)
Theorem sort_krb5_padata_sequence_order context realm w s w1 :
  krb5_libdefault_string context realm KRB5_CONF_PREFERRED_PREAUTH_TYPES w =
    ((0, Some s), w1) ->
  (forall e1 e2 e3 rest,
      pa_type e1 = 1 -> pa_type e2 = 2 -> pa_type e3 = 3 ->
      (s = "1"%string ->
       sort_krb5_padata_sequence context realm
         (Some (Some e2 :: Some e1 :: Some e3 :: None :: rest)) w =
       Some ((0, Some (Some e1 :: Some e2 :: Some e3 :: None :: rest)), w1)) /\
      (s = "1, 3"%string ->
       sort_krb5_padata_sequence context realm
         (Some (Some e2 :: Some e1 :: Some e3 :: None :: rest)) w =
       Some ((0, Some (Some e1 :: Some e3 :: Some e2 :: None :: rest)), w1)) /\
      (s = "1, x, 2"%string ->
       sort_krb5_padata_sequence context realm
         (Some (Some e3 :: Some e2 :: Some e1 :: None :: rest)) w =
       Some ((0, Some (Some e1 :: Some e3 :: Some e2 :: None :: rest)), w1))) /\
  (s = ""%string ->
   forall arr, exists w',
     sort_krb5_padata_sequence context realm (Some arr) w =
     Some ((0, Some arr), w')) /\
  (forall es rest, exists front tail w',
      sort_krb5_padata_sequence context realm
        (Some (map Some es ++ None :: rest)) w =
      Some ((0, Some (map Some (front ++ tail) ++ None :: rest)), w') /\
      Forall (fun e => pa_type e ∈ named_types s) front /\
      map pa_type front `sublist_of` named_types s /\
      tail `sublist_of` es /\
      filter (fun e => pa_type e ∉ named_types s) tail =
      filter (fun e => pa_type e ∉ named_types s) es) /\
  (forall fuel p padata base,
      let q := advance (strspn p [","%char; " "%char]) p in
      q <> EmptyString -> snd (strtol q) = O ->
      sort_loop (S fuel) p padata base = Some padata).
Proof.
  intros Hs.
  assert (Hpref : preference_string context realm w = (s, w1)).
  { unfold preference_string. rewrite Hs. reflexivity. }
  split; [|split; [|split]].
  - intros e1 e2 e3 rest H1 H2 H3.
    pose proof (sort_krb5_padata_sequence_spec context realm e2 [e1; e3] rest w) as Ha.
    pose proof (sort_krb5_padata_sequence_spec context realm e3 [e2; e1] rest w) as Hb.
    rewrite Hpref in Ha, Hb. simpl map in Ha, Hb. simpl app in Ha, Hb.
    split; [|split]; intros ->.
    + rewrite Ha, named_types_1. unfold move_pref; simpl.
      rewrite H1, H2. reflexivity.
    + rewrite Ha, named_types_1_3. unfold move_pref; simpl.
      rewrite H1, H2, H3. simpl. rewrite H2, H3. reflexivity.
    + rewrite Hb, named_types_1_x_2. unfold move_pref; simpl.
      rewrite H1, H2, H3. reflexivity.
  - intros -> arr. unfold sort_krb5_padata_sequence.
    destruct arr as [|[e|] arr]; eauto.
    rewrite Hs. simpl. eauto.
  - intros es rest.
    destruct (sort_krb5_padata_sequence_shape context realm es rest w)
      as (front & tail & w' & Heq & _ & _ & Hin & Hord & Hsub & _ & Hfil).
    rewrite Hpref in Hin, Hord, Hfil. simpl fst in Hin, Hord, Hfil.
    exists front, tail, w'. auto.
  - intros fuel p padata base q Hq Hst. simpl.
    destruct p as [|c p]; [reflexivity|].
    fold q. destruct q as [|c1 q1]; [congruence|].
    destruct (strtol (String c1 q1)) as [l n]. simpl in Hst. subst n. reflexivity.
Qed.

End SortFacts.

Section StepFacts.
Context `{HD : headers} {W : Type} {E : externals (W := W)}.

Lemma init_creds_validate_reply_flags context reply_ f w :
  f_flags (fst (snd (init_creds_validate_reply context reply_ (f, w)))) = f_flags f /\
  (forall c, fst (init_creds_validate_reply context reply_ (f, w)) <> Leave c).
Proof.
  unfold init_creds_validate_reply. unfold_m. simpl.
  repeat (exec1; simpl; try (split; [reflexivity | intros; discriminate])).
Qed.

(** C10. With no KRB-ERROR retained on the context,
    [krb5_init_creds_get_error] returns 0 and leaves [*error] NULL; it
    calls no collaborator. *)
Theorem krb5_init_creds_get_error_none context
    (ctx : krb5_init_creds_context (W := W)) w :
  err_reply ctx = None ->
  krb5_init_creds_get_error context ctx w = (Next (0, None), w).
Proof. intros Hn. unfold krb5_init_creds_get_error. rewrite Hn. reflexivity. Qed.

(** C8. On a reply whose [enc_part2] is already there,
    [decrypt_as_reply] returns 0 at once, whatever the key argument and
    the callbacks are: the reply and the world are as before, so
    neither [key_proc] nor [decrypt_proc] (nor the salt derivation) has
    run. *)
Theorem decrypt_as_reply_already_decrypted context request as_reply p2
    key_proc keyseed key decrypt_proc decryptarg w :
  rep_enc_part2 as_reply = Some p2 ->
  decrypt_as_reply context request as_reply key_proc keyseed key decrypt_proc
    decryptarg w = (Next (0, as_reply), w).
Proof. intros Hp. unfold decrypt_as_reply. rewrite Hp. reflexivity. Qed.

Lemma KRB5_KDCREP_MODIFIED_nonzero : KRB5_KDCREP_MODIFIED <> 0.
Proof.
  pose proof error_codes_nonzero as Hnz. rewrite Forall_forall in Hnz.
  apply Hnz. repeat (first [left; reflexivity | right]).
Qed.

(** C2. For a request with a server and a decrypted reply whose client
    differs from the requested client, [verify_as_reply] returns
    KRB5_KDCREP_MODIFIED unless canonicalization was requested (the
    CANONICALIZE option or an enterprise client) and both the
    request's server and the reply's server are TGS principals; so it
    accepts such a reply (returns 0, or anything but
    KRB5_KDCREP_MODIFIED) only in that case. *)
Theorem verify_as_reply_client_rewrite context time_now request as_reply p2
    server w :
  rep_enc_part2 as_reply = Some p2 ->
  req_server request = Some server ->
  krb5_principal_compare (rep_client as_reply) (req_client request) = false ->
  let canon_ok :=
    canon_req_of request && IS_TGS_PRINC server && IS_TGS_PRINC (enc_server p2) in
  exists code as_reply' w',
    verify_as_reply context time_now request as_reply w =
      (Next (code, as_reply'), w') /\
    (canon_ok = false -> code = KRB5_KDCREP_MODIFIED) /\
    (code <> KRB5_KDCREP_MODIFIED -> canon_ok = true) /\
    (code = 0 -> canon_ok = true).
Proof.
  intros Hp2 Hsrv Hcl canon_ok. subst canon_ok.
  assert (Hgoal : exists code as_reply' w',
    verify_as_reply context time_now request as_reply w =
      (Next (code, as_reply'), w') /\
    (canon_req_of request && IS_TGS_PRINC server && IS_TGS_PRINC (enc_server p2)
       = false -> code = KRB5_KDCREP_MODIFIED)).
  { unfold verify_as_reply. rewrite Hp2, Hsrv. unfold_m. simpl.
    assert (Hsv : forall t, enc_server (if starttime (enc_times p2) =? 0
                              then set_starttime t p2 else p2) = enc_server p2).
    { intros t. destruct (starttime (enc_times p2) =? 0); reflexivity. }
    rewrite !Hsv, Hcl.
    destruct (canon_req_of request); simpl.
    - destruct (IS_TGS_PRINC server && IS_TGS_PRINC (enc_server p2)) eqn:Hok; simpl.
      + repeat (exec1; simpl); eauto 10 using eq_refl.
        all: do 3 eexists; split; [reflexivity | intros; discriminate].
      + do 3 eexists. split; [reflexivity | auto].
    - do 3 eexists. split; [reflexivity | auto]. }
  destruct Hgoal as (code & r' & w' & Heq & Hmod).
  exists code, r', w'. split; [exact Heq|]. split; [exact Hmod|].
  assert (Hne : code <> KRB5_KDCREP_MODIFIED ->
                canon_req_of request && IS_TGS_PRINC server
                  && IS_TGS_PRINC (enc_server p2) = true).
  { intros Hc.
    destruct (canon_req_of request && IS_TGS_PRINC server
              && IS_TGS_PRINC (enc_server p2)); [reflexivity|].
    exfalso. apply Hc, Hmod. reflexivity. }
  split; [exact Hne|]. intros ->. apply Hne.
  intros H0. symmetry in H0. exact (KRB5_KDCREP_MODIFIED_nonzero H0).
Qed.

Lemma t_switch_byte sg b :
  (Z.land (to_uint32 (char_val sg b)) (to_uint32 (Z.lnot 1))
     =? V4_AUTH_MSG_ERR_REPLY) =
  (Z.land (byte_value b) (Z.lnot 1) =? Z.shiftl 5 1).
Proof. destruct sg, b; reflexivity. Qed.

Lemma char_val_version sg b :
  (char_val sg b =? V4_KRB_PROT_VERSION) = (byte_value b =? 4).
Proof. destruct sg, b; reflexivity. Qed.

Lemma char_val_eqb sg b c :
  (char_val sg b =? char_val sg c) = Byte.eqb b c.
Proof.
  destruct (Byte.eqb b c) eqn:Hbc.
  - apply Byte.byte_dec_bl in Hbc. subst c. apply Z.eqb_refl.
  - apply Z.eqb_neq. intros Heq. apply (f_equal (fun z => z mod 256)) in Heq.
    assert (Hm : forall x, char_val sg x mod 256 = byte_value x)
      by (intros x; destruct sg, x; reflexivity).
    rewrite !Hm in Heq. unfold byte_value in Heq.
    apply N2Z.inj in Heq.
    assert (Hbc' : Some b = Some c)
      by (rewrite <- (Byte.of_to_N b), <- (Byte.of_to_N c), Heq; reflexivity).
    injection Hbc' as <-.
    rewrite Byte.byte_dec_lb in Hbc by reflexivity. discriminate.
Qed.

(** C5 (as the code has it). For a reply that is neither a KRB-ERROR
    nor an AS-REP and has the bytes [b0] and [b1] at offsets 0 and 1:
    the classifier of the step API, on a reply of non-zero length,
    returns KRB5KRB_AP_ERR_V4_REPLY exactly when [b0 = 4] and
    [b1 & ~1 = 5 << 1], and KRB5KRB_AP_ERR_MSG_TYPE otherwise; the
    classifier of the all-in-one request returns
    KRB5KRB_AP_ERR_V4_REPLY exactly when [b1 & ~1 = 5 << 1] and [b0] is
    4 or the first byte of the request that was sent, and
    KRB5KRB_AP_ERR_MSG_TYPE otherwise. *)
Theorem reply_classifier_v4 context reply_ b0 b1 :
  krb5_is_krb_error reply_ = false ->
  krb5_is_as_rep reply_ = false ->
  data_at reply_ 0 = Some b0 ->
  data_at reply_ 1 = Some b1 ->
  let v4_type := Z.land (byte_value b1) (Z.lnot 1) =? Z.shiftl 5 1 in
  (d_length reply_ <> 0 ->
   forall f w, exists code f',
     init_creds_validate_reply context reply_ (f, w) = (Next code, (f', w)) /\
     code = (if v4_type && (byte_value b0 =? 4)
             then KRB5KRB_AP_ERR_V4_REPLY else KRB5KRB_AP_ERR_MSG_TYPE) /\
     (code = KRB5KRB_AP_ERR_V4_REPLY <->
      byte_value b0 = 4 /\ Z.land (byte_value b1) (Z.lnot 1) = Z.shiftl 5 1)) /\
  (forall packet realm k4 ret_err_reply ret_as_reply use_master w use_master' w',
     data_at packet 0 = Some k4 ->
     krb5_sendto_kdc context packet realm use_master 0 w =
       ((0, reply_, use_master'), w') ->
     exists code,
       send_as_request context packet realm ret_err_reply ret_as_reply
         use_master w = (Next (code, None, None, use_master'), w') /\
       code = (if v4_type && ((byte_value b0 =? 4) || Byte.eqb b0 k4)
               then KRB5KRB_AP_ERR_V4_REPLY else KRB5KRB_AP_ERR_MSG_TYPE) /\
       (code = KRB5KRB_AP_ERR_V4_REPLY <->
        (byte_value b0 = 4 \/ b0 = k4) /\
        Z.land (byte_value b1) (Z.lnot 1) = Z.shiftl 5 1)).
Proof.
  intros Herr Hrep H0 H1 v4_type. subst v4_type. split.
  - intros Hlen f w.
    assert (Hl : (d_length reply_ =? 0) = false) by (apply Z.eqb_neq; exact Hlen).
    unfold init_creds_validate_reply. unfold_m. simpl.
    rewrite Herr, Hl, Hrep, H1. simpl. rewrite t_switch_byte.
    destruct (Z.eqb_spec (Z.land (byte_value b1) (Z.lnot 1)) (Z.shiftl 5 1))
      as [Ht|Ht]; simpl.
    + rewrite H0. simpl. rewrite char_val_version.
      destruct (Z.eqb_spec (byte_value b0) 4) as [Hv|Hv]; simpl;
        do 2 eexists; (split; [reflexivity|]); (split; [reflexivity|]).
      * tauto.
      * split; [intros Hc; symmetry in Hc; destruct (v4_reply_distinct Hc)|tauto].
    + do 2 eexists. split; [reflexivity|]. split; [reflexivity|].
      split; [intros Hc; symmetry in Hc; destruct (v4_reply_distinct Hc)|tauto].
  - intros packet realm k4 re ra um w um' w' Hk Hsend.
    unfold send_as_request, send_as_request_pass. unfold_m.
    rewrite Hk, Hsend. simpl. rewrite Herr, Hrep, H1. simpl.
    rewrite t_switch_byte.
    destruct (Z.eqb_spec (Z.land (byte_value b1) (Z.lnot 1)) (Z.shiftl 5 1))
      as [Ht|Ht]; simpl.
    + rewrite H0. simpl. rewrite char_val_version, char_val_eqb.
      destruct (Z.eqb_spec (byte_value b0) 4) as [Hv|Hv]; simpl.
      * eexists. split; [reflexivity|]. split; [reflexivity|]. tauto.
      * destruct (Byte.eqb b0 k4) eqn:Hb; simpl;
          eexists; (split; [reflexivity|]); (split; [reflexivity|]).
        -- apply Byte.byte_dec_bl in Hb. tauto.
        -- split; [intros Hc; symmetry in Hc; destruct (v4_reply_distinct Hc)|].
           intros [[Hx|Hx] _]; [tauto|]. subst k4.
           rewrite Byte.byte_dec_lb in Hb by reflexivity. discriminate.
    + eexists. split; [reflexivity|]. split; [reflexivity|].
      split; [intros Hc; symmetry in Hc; destruct (v4_reply_distinct Hc)|tauto].
Qed.

#[local] Arguments init_creds_validate_reply : simpl never.
#[local] Arguments sort_padata : simpl never.
#[local] Arguments decrypt_as_reply : simpl never.
#[local] Arguments verify_as_reply : simpl never.
#[local] Arguments stash_as_reply : simpl never.
#[local] Arguments build_in_tkt_name : simpl never.
#[local] Arguments store_preauth : simpl never.

(** A step over a reply leaves the caller's flags alone, or sets the
    COMPLETE bit, returns 0 and has the reply on the context. *)
Lemma init_creds_step_reply_flags context in_ f w :
  let r := init_creds_step_reply context in_ (f, w) in
  (forall c, fst r <> Leave c) /\
  (f_flags (fst (snd r)) = f_flags f \/
   (f_flags (fst (snd r)) =
      Z.lor (f_flags f) KRB5_INIT_CREDS_STEP_FLAG_COMPLETE /\
    fst r = Next 0 /\
    is_Some_b (reply (f_ctx (fst (snd r)))) = true)).
Proof.
  pose proof (init_creds_validate_reply_flags context in_ f w) as [Hvf Hvl].
  unfold init_creds_step_reply, step_decrypt. unfold_m. simpl.
  destruct (init_creds_validate_reply context in_ (f, w)) as [[c|c|] [f1 w1]];
    simpl in *.
  2:{ destruct (Hvl c eq_refl). }
  2:{ split; [intros; discriminate | left; exact Hvf]. }
  rewrite <- Hvf.
  repeat (exec1; simpl;
          try (split; [intros; discriminate | left; reflexivity])).
  all: split; [intros; discriminate | right; auto].
Qed.

Lemma init_creds_step_request_flags context f w :
  let r := init_creds_step_request context (f, w) in
  (forall c, fst r <> Leave c) /\ f_flags (fst (snd r)) = f_flags f.
Proof.
  unfold init_creds_step_request. unfold_m. simpl.
  repeat (exec1; simpl; try (split; [intros; discriminate | reflexivity])).
Qed.

#[local] Arguments init_creds_step_reply : simpl never.
#[local] Arguments init_creds_step_request : simpl never.

Lemma KRB5KDC_ERR_C_PRINCIPAL_UNKNOWN_nonzero :
  KRB5KDC_ERR_C_PRINCIPAL_UNKNOWN <> 0.
Proof.
  pose proof error_codes_nonzero as Hnz. rewrite Forall_forall in Hnz.
  apply Hnz. repeat (first [left; reflexivity | right]).
Qed.

Lemma KRB5KRB_ERR_RESPONSE_TOO_BIG_nonzero : KRB5KRB_ERR_RESPONSE_TOO_BIG <> 0.
Proof.
  pose proof error_codes_nonzero as Hnz. rewrite Forall_forall in Hnz.
  apply Hnz. repeat (first [left; reflexivity | right]).
Qed.

(** When a call of [krb5_init_creds_step] sets the COMPLETE flag, it
    returns 0 and the context holds the reply. *)
Lemma krb5_init_creds_step_complete context ctx in_ w code ctx' out realm
    flags w' :
  step_call context ctx in_ w = (Some (code, ctx', out, realm, flags), w') ->
  truthy (Z.land flags KRB5_INIT_CREDS_STEP_FLAG_COMPLETE) = true ->
  code = 0 /\ is_Some_b (reply ctx') = true.
Proof.
  unfold step_call, krb5_init_creds_step. unfold_m. simpl.
  destruct (negb (d_length in_ =? 0)); simpl.
  - match goal with
    | |- context [init_creds_step_reply context in_ (?f0, w)] =>
        pose proof (init_creds_step_reply_flags context in_ f0 w) as [Hl Hf];
        destruct (init_creds_step_reply context in_ (f0, w))
          as [[c|c|] [f1 w1]]
    end; simpl in *.
    2:{ destruct (Hl c eq_refl). }
    2:{ intros [=]. }
    destruct Hf as [Hf | (Hf & Hc & Hr)].
    + (* flags still 0 *)
      destruct (c =? KRB5KRB_ERR_RESPONSE_TOO_BIG); simpl.
      * destruct (encoded_previous_request (f_ctx f1)) as [k|]; simpl; [|intros [=]].
        destruct (krb5int_copy_data_contents context k w1) as [[c2 o] w2]; simpl.
        rewrite Hf. simpl. rewrite orb_false_r.
        destruct (truthy c2) eqn:Hc2; simpl.
        -- destruct (c2 =? KRB5KDC_ERR_C_PRINCIPAL_UNKNOWN); simpl.
           ++ destruct (krb5_unparse_name context _ w2) as [[rc nm] w3]; simpl.
              destruct (rc =? 0); simpl; inj_step;
                rewrite Hf; discriminate.
           ++ inj_step. rewrite Hf. discriminate.
        -- pose proof (init_creds_step_request_flags context
                         (set_f_out o f1) w2) as [Hl2 Hf2].
           destruct (init_creds_step_request context (set_f_out o f1, w2))
             as [[c3|c3|] [f3 w3]]; simpl in *.
           2:{ destruct (Hl2 c3 eq_refl). }
           2:{ intros [=]. }
           repeat (exec1; simpl); inj_step;
             simpl; rewrite ?Hf2, Hf; discriminate.
      * rewrite Hf. simpl. rewrite orb_false_r.
        destruct (truthy c) eqn:Hc2; simpl.
        -- destruct (c =? KRB5KDC_ERR_C_PRINCIPAL_UNKNOWN); simpl.
           ++ destruct (krb5_unparse_name context _ w1) as [[rc nm] w3]; simpl.
              destruct (rc =? 0); simpl; inj_step;
                rewrite Hf; discriminate.
           ++ inj_step. rewrite Hf. discriminate.
        -- pose proof (init_creds_step_request_flags context f1 w1) as [Hl2 Hf2].
           destruct (init_creds_step_request context (f1, w1))
             as [[c3|c3|] [f3 w3]]; simpl in *.
           2:{ destruct (Hl2 c3 eq_refl). }
           2:{ intros [=]. }
           repeat (exec1; simpl); inj_step;
             simpl; rewrite ?Hf2, Hf; discriminate.
    + (* COMPLETE was set: the call leaves at once *)
      injection Hc as ->.
      pose proof KRB5KRB_ERR_RESPONSE_TOO_BIG_nonzero as Hz.
      pose proof KRB5KDC_ERR_C_PRINCIPAL_UNKNOWN_nonzero as Hz'.
      destruct KRB5KRB_ERR_RESPONSE_TOO_BIG; [congruence| |];
        destruct KRB5KDC_ERR_C_PRINCIPAL_UNKNOWN; try congruence;
        simpl; rewrite Hf; simpl; inj_step; auto.
  - match goal with
    | |- context [init_creds_step_request context (?f0, w)] =>
        pose proof (init_creds_step_request_flags context f0 w) as [Hl2 Hf2];
        destruct (init_creds_step_request context (f0, w))
          as [[c3|c3|] [f3 w3]]
    end; simpl in *.
    2:{ destruct (Hl2 c3 eq_refl). }
    2:{ intros [=]. }
    repeat (exec1; simpl); inj_step;
      simpl; rewrite ?Hf2; discriminate.
Qed.

(** C3 (as the code has it). Once a call of [krb5_init_creds_step] has
    set the COMPLETE flag, every later call of
    [krb5int_init_creds_get_ext] on the context it left returns 0 at
    once: the context, [*use_master] and the world are as before, so
    no step is taken and nothing is sent. *)
Theorem krb5int_init_creds_get_ext_complete context ctx in_ w code ctx' out
    realm flags w' :
  step_call context ctx in_ w = (Some (code, ctx', out, realm, flags), w') ->
  truthy (Z.land flags KRB5_INIT_CREDS_STEP_FLAG_COMPLETE) = true ->
  forall fuel use_master w'',
    krb5int_init_creds_get_ext fuel context ctx' use_master w'' =
    (Some (0, ctx', use_master), w'').
Proof.
  intros Hstep Hflag fuel use_master w''.
  destruct (krb5_init_creds_step_complete _ _ _ _ _ _ _ _ _ _ Hstep Hflag)
    as [_ Hr].
  unfold krb5int_init_creds_get_ext.
  destruct (reply ctx'); [reflexivity | discriminate].
Qed.

End StepFacts.

Section LoopFacts.
Context `{HD : headers} {W : Type} {E : externals (W := W)}.

#[local] Arguments send_as_request : simpl never.
#[local] Arguments sort_padata : simpl never.
#[local] Arguments rewrite_server_realm : simpl never.

(** One turn of the loop of [krb5_get_in_tkt] counts the loop up by
    one, and leaves with KRB5_GET_IN_TKT_LOOP, before calling anything,
    when the count was above MAX_IN_TKT_LOOPS; it goes round again only
    when the count was at most MAX_IN_TKT_LOOPS. *)
Lemma get_in_tkt_iteration_count context key_proc keyseed decrypt_proc
    canon_flag is_tgt_req g w :
  let r := get_in_tkt_iteration context key_proc keyseed decrypt_proc
             canon_flag is_tgt_req (g, w) in
  g_loopcount (fst (snd r)) = g_loopcount g + 1 /\
  (g_loopcount g > MAX_IN_TKT_LOOPS ->
   r = (Leave KRB5_GET_IN_TKT_LOOP, (set_g_loopcount (g_loopcount g + 1) g, w))) /\
  (forall again, fst r = Next again -> g_loopcount g <= MAX_IN_TKT_LOOPS).
Proof.
  unfold get_in_tkt_iteration. unfold_m. simpl.
  destruct (Z.gtb_spec (g_loopcount g) MAX_IN_TKT_LOOPS) as [Hgt|Hle]; simpl.
  - split; [reflexivity|]. split; [reflexivity|]. intros again [=].
  - repeat (exec1; simpl;
            try (split; [reflexivity|]; split; [lia|]; intros; lia)).
Qed.

#[local] Arguments get_in_tkt_iteration : simpl never.

(** The fuel of the model is enough: once the turns left before the
    loop check fires are covered, more fuel changes nothing. *)
Lemma get_in_tkt_loop_enough_fuel context key_proc keyseed decrypt_proc
    canon_flag is_tgt_req (n : nat) : forall fuel g w,
  (1 <= n <= fuel)%nat ->
  MAX_IN_TKT_LOOPS + 2 <= g_loopcount g + Z.of_nat n ->
  get_in_tkt_loop fuel context key_proc keyseed decrypt_proc canon_flag
    is_tgt_req (g, w) =
  get_in_tkt_loop n context key_proc keyseed decrypt_proc canon_flag
    is_tgt_req (g, w).
Proof.
  induction n as [|n IH]; intros fuel g w Hn Hlc; [lia|].
  destruct fuel as [|fuel]; [lia|].
  simpl. unfold bind.
  pose proof (get_in_tkt_iteration_count context key_proc keyseed decrypt_proc
                canon_flag is_tgt_req g w) as (Hinc & Hfire & Hnext).
  destruct (get_in_tkt_iteration context key_proc keyseed decrypt_proc
              canon_flag is_tgt_req (g, w)) as [[again|c|] [g1 w1]];
    simpl in *; try reflexivity.
  destruct again; [|reflexivity].
  specialize (Hnext true eq_refl).
  destruct n as [|n]; [unfold MAX_IN_TKT_LOOPS in *; lia|].
  apply IH; [lia|]. rewrite Hinc. lia.
Qed.

(** Whatever the KDC answers, the loop count of [krb5_get_in_tkt] never
    exceeds MAX_IN_TKT_LOOPS + 2 = 18. *)
Lemma get_in_tkt_loop_count_bound context key_proc keyseed decrypt_proc
    canon_flag is_tgt_req (fuel : nat) : forall g w,
  g_loopcount g <= MAX_IN_TKT_LOOPS + 1 ->
  g_loopcount
    (fst (snd (get_in_tkt_loop fuel context key_proc keyseed decrypt_proc
                 canon_flag is_tgt_req (g, w)))) <= MAX_IN_TKT_LOOPS + 2.
Proof.
  induction fuel as [|fuel IH]; intros g w Hlc; simpl; [unfold stuck; simpl; lia|].
  unfold bind.
  pose proof (get_in_tkt_iteration_count context key_proc keyseed decrypt_proc
                canon_flag is_tgt_req g w) as (Hinc & Hfire & Hnext).
  destruct (get_in_tkt_iteration context key_proc keyseed decrypt_proc
              canon_flag is_tgt_req (g, w)) as [[again|c|] [g1 w1]];
    simpl in *; try lia.
  specialize (Hnext again eq_refl).
  destruct again; simpl; [apply IH|]; lia.
Qed.

End LoopFacts.

Section TooBig.
Context `{HD : headers} {W : Type} {E : externals (W := W)}.

#[local] Arguments init_creds_step_reply : simpl never.
#[local] Arguments init_creds_step_request : simpl never.

(** What [krb5_init_creds_step] does when the reply is
    RESPONSE_TOO_BIG, for any collaborators: the previous request is
    copied to [out], and since the copy returns 0 the call goes on to
    [init_creds_step_request] with that frame; when the request is
    built, the call returns 0 with the [out] the builder wrote, and
    counts the loop up. *)
Lemma krb5_init_creds_step_too_big context ctx in_ w f1 w1 previous copy w2
    f2 w3 server realm w4 :
  d_length in_ <> 0 ->
  init_creds_step_reply context in_
    (mk_frame ctx (mk_data 0 None) (mk_data 0 None) 0, w) =
    (Next KRB5KRB_ERR_RESPONSE_TOO_BIG, (f1, w1)) ->
  f_flags f1 = 0 ->
  encoded_previous_request (f_ctx f1) = Some previous ->
  krb5int_copy_data_contents context previous w1 = ((0, copy), w2) ->
  init_creds_step_request context (set_f_out copy f1, w2) = (Next 0, (f2, w3)) ->
  req_server (request (f_ctx f2)) = Some server ->
  krb5int_copy_data_contents context (princ_realm server) w3 = ((0, realm), w4) ->
  step_call context ctx in_ w =
  (Some (0, set_loopcount (loopcount (f_ctx f2) + 1) (f_ctx f2), f_out f2,
         realm, f_flags f2), w4).
Proof.
  intros Hlen Hreply Hflags Hprev Hcopy Hreq Hsrv Hrealm.
  assert (Hl : (d_length in_ =? 0) = false) by (apply Z.eqb_neq; exact Hlen).
  pose proof KRB5KDC_ERR_C_PRINCIPAL_UNKNOWN_nonzero as Hz.
  unfold step_call, krb5_init_creds_step. unfold_m. simpl.
  change (set_f_flags 0
            (set_f_out (mk_data 0 None)
               (set_f_realm (mk_data 0 None)
                  (mk_frame ctx (mk_data 0 None) (mk_data 0 None) 0))))
    with (mk_frame ctx (mk_data 0 None) (mk_data 0 None) 0).
  rewrite Hl. simpl. rewrite Hreply. simpl.
  rewrite Z.eqb_refl. simpl. rewrite Hprev. simpl. rewrite Hcopy. simpl.
  rewrite Hflags. simpl. rewrite Hreq. simpl.
  rewrite Hsrv. simpl. rewrite Hrealm. simpl.
  destruct KRB5KDC_ERR_C_PRINCIPAL_UNKNOWN; [congruence| |]; reflexivity.
Qed.

End TooBig.

Section ScriptedRuns.

#[local] Existing Instance mit_headers.
#[local] Existing Instance scripted_kdc.

Lemma krb5_init_creds_get_error_none_witness :
  krb5_init_creds_get_error (test_context None) alice_ctx (world0 []) =
  (Next (0, None), world0 []).
Proof.
  apply (krb5_init_creds_get_error_none (test_context None) alice_ctx (world0 [])).
  reflexivity.
Defined.

Lemma decrypt_as_reply_already_decrypted_witness :
  decrypt_as_reply (test_context None) None decrypted_reply
    (Some toy_key_proc) tt None (Some toy_decrypt_proc) tt (world0 []) =
  (Next (0, decrypted_reply), world0 []) /\
  key_calls (world0 []) = O /\ decrypt_calls (world0 []) = O.
Proof.
  split; [|split; reflexivity].
  eapply (decrypt_as_reply_already_decrypted (test_context None) None
            decrypted_reply _ (Some toy_key_proc) tt None
            (Some toy_decrypt_proc) tt (world0 [])).
  reflexivity.
Defined.

Lemma verify_as_reply_client_rewrite_witness :
  exists as_reply' w',
    verify_as_reply (test_context None) 1000 request_Alice decrypted_reply
      (world0 []) = (Next (KRB5_KDCREP_MODIFIED, as_reply'), w').
Proof.
  destruct (verify_as_reply_client_rewrite (test_context None) 1000
              request_Alice decrypted_reply
              (mk_enc_part2 toy_key 7 0 (mk_times 1000 0 37000 0)
                 (tgs_principal "EXAMPLE") None)
              (tgs_principal "EXAMPLE") (world0 [])
              ltac:(vm_compute; reflexivity) ltac:(vm_compute; reflexivity)
              ltac:(vm_compute; reflexivity))
    as (code & r' & w' & Heq & Hmod & _).
  exists r', w'. rewrite Heq, (Hmod ltac:(vm_compute; reflexivity)). reflexivity.
Defined.

(** Scenarios 4 and 5 of the specification: the rewrite of Alice to
    alice is accepted with CANONICALIZE set, and refused without. *)
Example canonicalization_permitted :
  fst (verify_as_reply (test_context None) 1000
         (set_req_kdc_options KDC_OPT_CANONICALIZE request_Alice)
         decrypted_reply (world0 [])) =
  Next (0, set_enc_part2
             (mk_enc_part2 toy_key 7 0 (mk_times 1000 1000 37000 0)
                (tgs_principal "EXAMPLE") None) decrypted_reply).
Proof. vm_compute. reflexivity. Qed.

Example canonicalization_not_permitted :
  fst (verify_as_reply (test_context None) 1000 request_Alice decrypted_reply
         (world0 [])) =
  Next (KRB5_KDCREP_MODIFIED,
        set_enc_part2
          (mk_enc_part2 toy_key 7 0 (mk_times 1000 1000 37000 0)
             (tgs_principal "EXAMPLE") None) decrypted_reply).
Proof. vm_compute. reflexivity. Qed.

Lemma first_step :
  step_call (test_context None) alice_ctx (mk_data 0 None) (world0 []) =
  (Some (0, ctx_after_first_step, data_of_bytes [x6a; x07],
         data_of_string "EXAMPLE", 0), world_after_first_step).
Proof. vm_compute. reflexivity. Qed.

Lemma krb5int_init_creds_get_ext_complete_witness :
  exists ctx' w',
    fst (step_call (test_context None) ctx_after_first_step
           (data_of_bytes as_rep_reply) world_after_first_step) =
      Some (0, ctx', mk_data 0 None, mk_data 0 None,
            KRB5_INIT_CREDS_STEP_FLAG_COMPLETE) /\
    krb5int_init_creds_get_ext 5 (test_context None) ctx' 0 w' =
      (Some (0, ctx', 0), w').
Proof.
  destruct (step_call (test_context None) ctx_after_first_step
              (data_of_bytes as_rep_reply) world_after_first_step)
    as [[[[[[code ctx'] out] realm] flags]|] w'] eqn:Hstep;
    [|vm_compute in Hstep; discriminate Hstep].
  assert (Hshape : code = 0 /\ out = mk_data 0 None /\ realm = mk_data 0 None /\
                   flags = KRB5_INIT_CREDS_STEP_FLAG_COMPLETE).
  { vm_compute in Hstep. injection Hstep as <- _ <- <- <- _. auto. }
  destruct Hshape as (-> & -> & -> & ->).
  exists ctx', w'. split; [reflexivity|].
  apply (krb5int_init_creds_get_ext_complete (test_context None)
           ctx_after_first_step (data_of_bytes as_rep_reply)
           world_after_first_step 0 ctx' (mk_data 0 None) (mk_data 0 None)
           KRB5_INIT_CREDS_STEP_FLAG_COMPLETE w' Hstep).
  reflexivity.
Defined.

(** Counterexample to C3 as stated: after the call that set COMPLETE, another
    call of [krb5_init_creds_step] (with an empty [in]) builds a request
    again: it fills [out] and [realm] and counts the loop up. *)
Lemma step_after_complete_counterexample :
  match run_steps (test_context None) alice_ctx
          [mk_data 0 None; data_of_bytes as_rep_reply; mk_data 0 None]
          (world0 []) with
  | [Some (code3, ctx3, out3, realm3, flags3);
     Some (code2, ctx2, out2, realm2, flags2); _] =>
      truthy (Z.land flags2 KRB5_INIT_CREDS_STEP_FLAG_COMPLETE) = true /\
      code3 = 0 /\
      out3 = data_of_bytes [x6a; x07] /\
      realm3 = data_of_string "EXAMPLE" /\
      loopcount ctx2 = 1 /\ loopcount ctx3 = 2 /\
      ctx3 <> ctx2
  | _ => False
  end.
Proof.
  vm_compute. repeat split. intros Heq.
  apply (f_equal loopcount) in Heq. discriminate Heq.
Qed.

(** C4, on the failing input: the KDC asks for pre-authentication, the
    second request carries a timestamp, and the KDC answers it with
    RESPONSE_TOO_BIG.  The third call copies the second request to
    [out], then goes on to build a third request over it: it returns 0
    with [out] a new request, and counts the loop up. *)
Theorem krb5_init_creds_step_too_big_rebuilds :
  match run_steps (test_context None) alice_ctx
          [mk_data 0 None; data_of_bytes preauth_required_reply;
           data_of_bytes too_big_reply] (world0 []) with
  | [Some (code3, ctx3, out3, realm3, flags3);
     Some (code2, ctx2, out2, realm2, flags2); _] =>
      code2 = 0 /\
      out2 = data_of_bytes [x6a; x07; xea] /\
      encoded_previous_request ctx2 = Some out2 /\
      code3 = 0 /\
      out3 = data_of_bytes [x6a; x07; xeb] /\
      out3 <> out2 /\
      loopcount ctx2 = 2 /\ loopcount ctx3 = 3
  | _ => False
  end.
Proof. vm_compute. repeat split. discriminate. Qed.

(** C1, on the failing input: a KDC that answers every request with
    PREAUTH_REQUIRED.  [krb5_get_in_tkt] sends 17 requests and fails
    with KRB5_GET_IN_TKT_LOOP on entering the 18th iteration, its loop
    count being 18; the step API, fed 20 such replies, never fails and
    counts to 21. *)
Theorem krb5_get_in_tkt_loop_limit :
  (exists creds ret_as_reply g w,
      krb5_get_in_tkt (test_context None) 0 None None None
        (Some toy_key_proc) tt (Some toy_decrypt_proc) tt alice_creds None
        None (world0 (repeat preauth_required_reply 30)) =
        (Next (KRB5_GET_IN_TKT_LOOP, creds, ret_as_reply, Some g), w) /\
      g_loopcount g = 18 /\
      length (sent w) = 17%nat) /\
  (let results :=
     run_steps (test_context None) alice_ctx
       (mk_data 0 None :: repeat (data_of_bytes preauth_required_reply) 20)
       (world0 []) in
   length results = 21%nat /\
   Forall (fun r => match r with
                    | Some (code, _, _, _, _) => code = 0
                    | None => False
                    end) results /\
   match results with
   | Some (_, ctx, _, _, _) :: _ => loopcount ctx = 21
   | _ => False
   end).
Proof.
  split.
  - vm_compute. do 4 eexists. split; [reflexivity|]. split; reflexivity.
  - vm_compute. split; [reflexivity|]. split; [|reflexivity].
    repeat constructor.
Qed.

Lemma reply_classifier_v4_witness :
  fst (init_creds_validate_reply (test_context None)
         (data_of_bytes [x04; x0b])
         (mk_frame alice_ctx (mk_data 0 None) (mk_data 0 None) 0, world0 [])) =
    Next KRB5KRB_AP_ERR_V4_REPLY /\
  fst (init_creds_validate_reply (test_context None)
         (data_of_bytes [x05; x0b])
         (mk_frame alice_ctx (mk_data 0 None) (mk_data 0 None) 0, world0 [])) =
    Next KRB5KRB_AP_ERR_MSG_TYPE.
Proof.
  split.
  - destruct (reply_classifier_v4 (E := scripted_kdc) (test_context None)
                (data_of_bytes [x04; x0b]) x04 x0b
                ltac:(vm_compute; reflexivity) ltac:(vm_compute; reflexivity)
                ltac:(vm_compute; reflexivity) ltac:(vm_compute; reflexivity))
      as [Hstep _].
    destruct (Hstep ltac:(discriminate)
                (mk_frame alice_ctx (mk_data 0 None) (mk_data 0 None) 0)
                (world0 [])) as (code & f' & Heq & -> & _).
    rewrite Heq. reflexivity.
  - destruct (reply_classifier_v4 (E := scripted_kdc) (test_context None)
                (data_of_bytes [x05; x0b]) x05 x0b
                ltac:(vm_compute; reflexivity) ltac:(vm_compute; reflexivity)
                ltac:(vm_compute; reflexivity) ltac:(vm_compute; reflexivity))
      as [Hstep _].
    destruct (Hstep ltac:(discriminate)
                (mk_frame alice_ctx (mk_data 0 None) (mk_data 0 None) 0)
                (world0 [])) as (code & f' & Heq & -> & _).
    rewrite Heq. reflexivity.
Defined.

(** Counterexample to C5 as stated: the all-in-one request was sent with first
    byte 0x6a; the reply 0x6a 0x0a is neither a KRB-ERROR nor an AS-REP,
    its first byte is not 4, and the classifier of [send_as_request]
    returns KRB5KRB_AP_ERR_V4_REPLY. *)
Lemma reply_classifier_v4_counterexample :
  let reply_ := data_of_bytes [x6a; x0a] in
  krb5_is_krb_error reply_ = false /\
  krb5_is_as_rep reply_ = false /\
  data_at reply_ 0 = Some x6a /\
  byte_value x6a <> 4 /\
  fst (send_as_request (test_context None) (data_of_bytes [x6a; x07])
         (data_of_string "EXAMPLE") true true 0 (world0 [[x6a; x0a]])) =
  Next (KRB5KRB_AP_ERR_V4_REPLY, None, None, 0).
Proof. vm_compute. repeat split. discriminate. Qed.

Lemma sort_krb5_padata_sequence_order_witness :
  sort_krb5_padata_sequence (test_context (Some "1, 3"%string))
    (data_of_string "EXAMPLE")
    (Some [Some (mk_pa 2 0 None); Some (mk_pa 1 0 None);
           Some (mk_pa 3 0 None); None]) (world0 []) =
  Some ((0, Some [Some (mk_pa 1 0 None); Some (mk_pa 3 0 None);
                  Some (mk_pa 2 0 None); None]), world0 []).
Proof.
  destruct (sort_krb5_padata_sequence_order (E := scripted_kdc)
              (test_context (Some "1, 3"%string)) (data_of_string "EXAMPLE")
              (world0 []) "1, 3"%string (world0 [])
              ltac:(vm_compute; reflexivity)) as [Hex _].
  destruct (Hex (mk_pa 1 0 None) (mk_pa 2 0 None) (mk_pa 3 0 None) []
              eq_refl eq_refl eq_refl) as (_ & H13 & _).
  exact (H13 eq_refl).
Defined.

End ScriptedRuns.

(** * The rest of get_in_tkt.c: properties *)

(** ** Bounded addition *)

Lemma krb5int_addint32_cases x y :
  is_int32 x -> is_int32 y ->
  krb5int_addint32 x y = Z.max KRB5_INT32_MIN (Z.min KRB5_INT32_MAX (x + y)).
Proof.
  intros Hx Hy. unfold krb5int_addint32.
  assert (Hid : forall z, -2147483648 <= z <= 2147483647 -> wrap32 z = z).
  { intros z Hz. apply wrap32_id.
    unfold is_int32, KRB5_INT32_MIN, KRB5_INT32_MAX. lia. }
  unfold is_int32, KRB5_INT32_MIN, KRB5_INT32_MAX in Hx, Hy.
  destruct (Z.gtb_spec x 0) as [Hp|Hp]; simpl.
  - rewrite (Hid (KRB5_INT32_MAX - x)) by (unfold KRB5_INT32_MAX; lia).
    destruct (Z.gtb_spec y (KRB5_INT32_MAX - x)) as [Hgt|Hle]; simpl;
      unfold KRB5_INT32_MIN, KRB5_INT32_MAX in *; [lia|].
    destruct (Z.ltb_spec x 0); [lia|]. simpl.
    rewrite Hid by lia. lia.
  - destruct (Z.ltb_spec x 0) as [Hn|Hn]; simpl.
    + rewrite (Hid (KRB5_INT32_MIN - x))
        by (unfold KRB5_INT32_MIN, KRB5_INT32_MAX; lia).
      destruct (Z.ltb_spec y (KRB5_INT32_MIN - x)) as [Hlt|Hge]; simpl;
        unfold KRB5_INT32_MIN, KRB5_INT32_MAX in *; [lia|].
      rewrite Hid by lia. lia.
    + unfold KRB5_INT32_MIN, KRB5_INT32_MAX. rewrite Hid by lia. lia.
Qed.

(** The bounded addition does not depend on the order of its
    arguments, although the code tests only the sign of the first, and
    it never decreases when an argument grows: a later start or a
    longer lifetime never gives an earlier time. *)
Theorem krb5int_addint32_comm_monotone x y x' y' :
  is_int32 x -> is_int32 y -> is_int32 x' -> is_int32 y' ->
  krb5int_addint32 x y = krb5int_addint32 y x /\
  (x <= x' -> y <= y' -> krb5int_addint32 x y <= krb5int_addint32 x' y').
Proof.
  intros Hx Hy Hx' Hy'.
  rewrite !krb5int_addint32_cases by assumption.
  split; [f_equal; f_equal; lia | lia].
Qed.

Lemma krb5int_addint32_comm_monotone_witness :
  krb5int_addint32 (-5) 2147483647 = krb5int_addint32 2147483647 (-5) /\
  krb5int_addint32 1000 86400 <= krb5int_addint32 2147483000 86400.
Proof.
  assert (Hr : forall z, -2147483648 <= z <= 2147483647 -> is_int32 z)
    by (intros z Hz; unfold is_int32, KRB5_INT32_MIN, KRB5_INT32_MAX; lia).
  split.
  - apply (krb5int_addint32_comm_monotone (-5) 2147483647 0 0); apply Hr; lia.
  - apply (krb5int_addint32_comm_monotone 1000 86400 2147483000 86400);
      try apply Hr; lia.
Defined.

(** ** libdefaults booleans *)

Lemma tolower_code_nonzero c :
  (N_of_ascii c =? 0)%N = false -> Z.of_N (N_of_ascii (tolower c)) <> 0.
Proof. destruct c as [[] [] [] [] [] [] [] []]; vm_compute; congruence. Qed.

Lemma tolower_code_inj c d :
  Z.of_N (N_of_ascii (tolower c)) = Z.of_N (N_of_ascii (tolower d)) ->
  tolower c = tolower d.
Proof.
  intros H. apply N2Z.inj in H.
  rewrite <- (ascii_N_embedding (tolower c)), <- (ascii_N_embedding (tolower d)), H.
  reflexivity.
Qed.

Lemma strcasecmp_zero a : forall b,
  no_nul a = true -> no_nul b = true ->
  (strcasecmp a b = 0 <-> string_lower a = string_lower b).
Proof.
  induction a as [|c a IH]; intros [|d b] Ha Hb; simpl in *.
  - tauto.
  - apply andb_prop in Hb as [Hd _]. apply negb_true_iff in Hd.
    pose proof (tolower_code_nonzero d Hd). split; [lia | discriminate].
  - apply andb_prop in Ha as [Hc _]. apply negb_true_iff in Hc.
    pose proof (tolower_code_nonzero c Hc). split; [lia | discriminate].
  - apply andb_prop in Ha as [Hc Ha]. apply andb_prop in Hb as [Hd Hb].
    apply negb_true_iff in Hc, Hd.
    pose proof (tolower_code_nonzero c Hc) as Hcn.
    destruct (Z.eqb_spec (Z.of_N (N_of_ascii (tolower c)))
                (Z.of_N (N_of_ascii (tolower d)))) as [Heq|Hne].
    + destruct (Z.eqb_spec (Z.of_N (N_of_ascii (tolower c))) 0); [contradiction|].
      rewrite (IH b Ha Hb). rewrite (tolower_code_inj _ _ Heq).
      split; [intros ->; reflexivity | intros [=]; assumption].
    + split; [lia|]. intros [= Hcd _]. rewrite Hcd in Hne. contradiction.
Qed.

Lemma conf_lookup_In table s :
  forallb no_nul table = true -> no_nul s = true ->
  (conf_lookup table s = true <-> In (string_lower s) (map string_lower table)).
Proof.
  intros Ht Hs. induction table as [|p table IH]; simpl in *.
  - split; [discriminate | tauto].
  - apply andb_prop in Ht as [Hp Ht].
    destruct (Z.eqb_spec (strcasecmp p s) 0) as [Hz|Hz].
    + apply (strcasecmp_zero p s Hp Hs) in Hz. split; [auto | reflexivity].
    + rewrite (IH Ht). split; [auto|]. intros [Heq|Hin]; [|exact Hin].
      exfalso. apply Hz. apply (strcasecmp_zero p s Hp Hs). exact Heq.
Qed.

(** [_krb5_conf_boolean] answers 1 exactly for the words y, yes, true,
    t, 1 and on, in any mix of upper and lower case, and 0 for every
    other string: the words for "no", and also the empty string, an
    unknown word or a word with blanks around it. *)
Theorem krb5_conf_boolean_yes_words s :
  no_nul s = true ->
  (_krb5_conf_boolean s = 1 <-> In (string_lower s) conf_yes) /\
  (_krb5_conf_boolean s = 0 <-> ~ In (string_lower s) conf_yes).
Proof.
  intros Hs. unfold _krb5_conf_boolean.
  pose proof (conf_lookup_In conf_yes s eq_refl Hs) as Hy.
  change (map string_lower conf_yes) with conf_yes in Hy.
  destruct (conf_lookup conf_yes s).
  - assert (Hin : In (string_lower s) conf_yes) by (apply Hy; reflexivity).
    split; split; try tauto; try discriminate.
  - assert (Hn : ~ In (string_lower s) conf_yes)
      by (intros Hin; apply Hy in Hin; discriminate).
    destruct (conf_lookup conf_no s); split; split; try tauto; try discriminate.
Qed.

Lemma krb5_conf_boolean_yes_words_witness :
  _krb5_conf_boolean "Yes" = 1 /\ _krb5_conf_boolean "TRUE" = 1 /\
  _krb5_conf_boolean " yes" = 0 /\ _krb5_conf_boolean "" = 0 /\
  _krb5_conf_boolean "2" = 0.
Proof.
  split; [|split; [|split; [|split]]].
  - apply (krb5_conf_boolean_yes_words "Yes" eq_refl). vm_compute. tauto.
  - apply (krb5_conf_boolean_yes_words "TRUE" eq_refl). vm_compute. tauto.
  - apply (krb5_conf_boolean_yes_words " yes" eq_refl). vm_compute.
    intuition discriminate.
  - apply (krb5_conf_boolean_yes_words "" eq_refl). vm_compute.
    intuition discriminate.
  - apply (krb5_conf_boolean_yes_words "2" eq_refl). vm_compute.
    intuition discriminate.
Defined.

Section ConfigFacts.
Context `{HD : headers} {W : Type} {E : externals (W := W)}.

Lemma errno_nonzero : ENOMEM <> 0 /\ ENOENT <> 0 /\ EINVAL <> 0 /\ KV5M_CONTEXT <> 0.
Proof.
  pose proof error_codes_nonzero as Hnz. rewrite Forall_forall in Hnz.
  repeat split; apply Hnz; repeat (first [left; reflexivity | right]).
Qed.

Lemma libdefault_string_zero context realm option_ (w : W) :
  fst (fst (krb5_libdefault_string context realm option_ w)) = 0 ->
  exists s, snd (fst (krb5_libdefault_string context realm option_ w)) = Some s.
Proof.
  destruct errno_nonzero as (Hm & He & Hi & Hc).
  unfold krb5_libdefault_string.
  repeat (exec1; simpl; try congruence); eauto.
Qed.

(** [krb5_libdefault_string] returns 0 only together with a string, and
    when it gives no string its return value is one of EINVAL,
    KV5M_CONTEXT, ENOENT and ENOMEM: an error of the profile library
    never reaches the caller as such, a lookup that fails counts as
    "no such entry". *)
Theorem krb5_libdefault_string_value context realm option_ w :
  let r := krb5_libdefault_string context realm option_ w in
  (fst (fst r) = 0 -> exists s, snd (fst r) = Some s) /\
  (snd (fst r) = None ->
   fst (fst r) = EINVAL \/ fst (fst r) = KV5M_CONTEXT \/
   fst (fst r) = ENOENT \/ fst (fst r) = ENOMEM).
Proof.
  split; [apply libdefault_string_zero|].
  unfold krb5_libdefault_string.
  repeat (exec1; simpl; try (auto; intros; discriminate)).
Qed.


End ConfigFacts.

Section ListFacts.
Context `{HD : headers} {W : Type} {E : externals (W := W)}.

(** ** The pre-auth list made from the caller's types *)

Lemma count_until_zero_app body rest :
  Forall (fun t => t <> 0) body ->
  count_until_zero (body ++ 0 :: rest) = Some (length body).
Proof.
  induction body as [|t body IH]; intros Hb; simpl; [reflexivity|].
  inversion Hb as [|? ? Ht Hb']; subst.
  destruct (Z.eqb_spec t 0); [contradiction|]. rewrite (IH Hb'). reflexivity.
Qed.

Lemma make_preauth_entries_spec n : forall i ptypes w,
  (i + n <= length ptypes)%nat ->
  exists r w',
    make_preauth_entries n i ptypes w = (Next r, w') /\
    (r = None \/
     r = Some (map (fun t => mk_pa t 0 None) (take n (drop i ptypes)))).
Proof.
  induction n as [|n IH]; intros i ptypes w Hlen; simpl.
  - do 2 eexists. split; [reflexivity|]. right. reflexivity.
  - unfold_m. destruct (alloc w) as [[|] w1]; simpl.
    2:{ do 2 eexists. split; [reflexivity | left; reflexivity]. }
    destruct (lookup_lt_is_Some_2 ptypes i ltac:(lia)) as [t Ht].
    rewrite Ht. simpl.
    destruct (IH (S i) ptypes w1 ltac:(lia)) as (r & w2 & Heq & Hr).
    rewrite Heq. simpl. do 2 eexists. split; [reflexivity|].
    destruct Hr as [->| ->]; [left; reflexivity|]. right. simpl. f_equal.
    rewrite (drop_S _ _ _ Ht). reflexivity.
Qed.

(** [make_preauth_list] is all or nothing.  For a count [nptypes >= 0]
    within the caller's array, or for a negative count and an array
    that holds a 0, it returns either ENOMEM with no list, or 0 with a
    NULL-terminated list of one empty entry (length 0, no contents) per
    type, in the caller's order: the first [nptypes] types, or with a
    negative count the types before the first 0. *)
Theorem make_preauth_list_result context ptypes nptypes body w :
  (0 <= nptypes /\ body = take (Z.to_nat nptypes) ptypes /\
   (Z.to_nat nptypes <= length ptypes)%nat) \/
  (nptypes < 0 /\ Forall (fun t => t <> 0) body /\
   exists rest, ptypes = body ++ 0 :: rest) ->
  exists code r w',
    make_preauth_list context ptypes nptypes w = (Next (code, r), w') /\
    ((code = ENOMEM /\ r = None) \/
     (code = 0 /\
      r = Some (map (fun t => Some (mk_pa t 0 None)) body ++ [None]))).
Proof.
  intros Hn. unfold make_preauth_list.
  assert (Hcount : exists n,
    (if nptypes <? 0 then deref (count_until_zero ptypes)
     else ret (Z.to_nat nptypes)) = ret (S := W) n /\
    (n <= length ptypes)%nat /\ body = take n ptypes).
  { destruct Hn as [(Hpos & -> & Hlen) | (Hneg & Hbody & rest & ->)].
    - exists (Z.to_nat nptypes). destruct (Z.ltb_spec nptypes 0); [lia|]. auto.
    - exists (length body). destruct (Z.ltb_spec nptypes 0); [|lia].
      rewrite count_until_zero_app by assumption. split; [reflexivity|].
      rewrite length_app. simpl. split; [lia|].
      rewrite take_app_length. reflexivity. }
  destruct Hcount as (n & -> & Hlen & ->). unfold_m.
  destruct (alloc w) as [[|] w1]; simpl.
  2:{ do 3 eexists. split; [reflexivity | left; auto]. }
  destruct (make_preauth_entries_spec n 0 ptypes w1 ltac:(lia))
    as (r & w2 & Heq & Hr).
  rewrite Heq. simpl.
  destruct Hr as [->| ->]; do 3 eexists; (split; [reflexivity|]).
  - left. auto.
  - right. split; [reflexivity|]. rewrite drop_0, map_map. reflexivity.
Qed.

End ListFacts.

Section EnctypeFacts.
Context `{HD : headers} {W : Type} {E : externals (W := W)}.

(** ** The enctypes of the all-in-one request *)

Lemma existsb_Zeqb k (l : list Z) : existsb (Z.eqb k) l = true <-> k ∈ l.
Proof.
  rewrite existsb_exists. split.
  - intros (x & Hin & Heq). apply Z.eqb_eq in Heq. subst x.
    apply list_elem_of_In. exact Hin.
  - intros Hin. exists k. split; [apply list_elem_of_In; exact Hin | apply Z.eqb_refl].
Qed.

Lemma find_ktype_None k seg : forall pre post,
  k ∉ seg ->
  find_ktype k (pre ++ seg ++ post) (length pre) (length seg) = None.
Proof.
  induction seg as [|t seg IH]; intros pre post Hk; simpl; [reflexivity|].
  rewrite lookup_app_r by lia. rewrite Nat.sub_diag. simpl.
  destruct (Z.eqb_spec k t) as [->|Hne]; [exfalso; apply Hk; left|].
  specialize (IH (pre ++ [t]) post ltac:(intros Hin; apply Hk; right; exact Hin)).
  rewrite length_app, <- app_assoc in IH. simpl in IH.
  replace (length pre + 1)%nat with (S (length pre)) in IH by lia. exact IH.
Qed.

Lemma find_ktype_Some k s1 : forall pre s2 post,
  k ∉ s1 ->
  find_ktype k (pre ++ (s1 ++ k :: s2) ++ post) (length pre)
    (length (s1 ++ k :: s2)) = Some (length pre + length s1)%nat.
Proof.
  induction s1 as [|t s1 IH]; intros pre s2 post Hk; simpl.
  - rewrite lookup_app_r by lia. rewrite Nat.sub_diag. simpl.
    rewrite Z.eqb_refl. f_equal. lia.
  - rewrite lookup_app_r by lia. rewrite Nat.sub_diag. simpl.
    destruct (Z.eqb_spec k t) as [->|Hne]; [exfalso; apply Hk; left|].
    specialize (IH (pre ++ [t]) s2 post ltac:(intros Hin; apply Hk; right; exact Hin)).
    rewrite length_app, <- app_assoc in IH. simpl in IH.
    replace (length pre + 1)%nat with (S (length pre)) in IH by lia.
    rewrite IH. f_equal. lia.
Qed.

Lemma order_ktypes_spec offered junk body : forall sel rem (w : W),
  sel ++ rem ≡ₚ offered -> NoDup offered -> 0 ∉ offered ->
  Forall (fun k => k <> 0) body ->
  exists rem',
    order_ktypes (body ++ 0 :: junk) (sel ++ rem ++ [0]) (length offered)
      (length sel) w =
    (Next (select_ktypes offered body sel ++ rem' ++ [0],
           length (select_ktypes offered body sel)), w) /\
    select_ktypes offered body sel ++ rem' ≡ₚ offered.
Proof.
  induction body as [|k body IH]; intros sel rem w Hperm Hnd H0 Hbody.
  - exists rem. simpl. split; [reflexivity | exact Hperm].
  - inversion Hbody as [|? ? Hk Hbody']; subst.
    assert (Hnd' : NoDup (sel ++ rem)) by (rewrite Hperm; exact Hnd).
    apply NoDup_app in Hnd' as (Hnds & Hdisj & Hndr).
    assert (Hoff : forall x, x ∈ offered <-> x ∈ sel \/ x ∈ rem).
    { intros x. rewrite <- Hperm, elem_of_app. reflexivity. }
    assert (Hlen : length offered = (length sel + length rem)%nat).
    { rewrite <- Hperm, length_app. reflexivity. }
    simpl. destruct (Z.eqb_spec k 0) as [|_]; [contradiction|].
    unfold_m. rewrite lookup_app_r by lia. rewrite Nat.sub_diag.
    destruct rem as [|t rem]; simpl.
    + (* nothing is left to choose from *)
      destruct (Z.eqb_spec k 0) as [|_]; [contradiction|].
      replace (length offered - S (length sel))%nat with 0%nat by (simpl in Hlen; lia).
      simpl.
      assert (Hb : existsb (Z.eqb k) offered && negb (existsb (Z.eqb k) sel) = false).
      { destruct (existsb (Z.eqb k) offered) eqn:Ho; [|reflexivity].
        apply existsb_Zeqb, Hoff in Ho as [Ho|Ho]; [|inversion Ho].
        apply existsb_Zeqb in Ho. rewrite Ho. reflexivity. }
      rewrite Hb. apply (IH sel [] w); assumption.
    + assert (Hksel : forall x, x ∈ t :: rem -> existsb (Z.eqb x) sel = false).
      { intros x Hx. destruct (existsb (Z.eqb x) sel) eqn:Hs; [|reflexivity].
        apply existsb_Zeqb in Hs. destruct (Hdisj x Hs Hx). }
      destruct (Z.eqb_spec k t) as [->|Hne].
      * (* the wanted enctype is in the desired slot *)
        assert (Hb : existsb (Z.eqb t) offered && negb (existsb (Z.eqb t) sel) = true).
        { rewrite (Hksel t) by left. rewrite andb_true_r.
          apply existsb_Zeqb, Hoff. right. left. }
        rewrite Hb.
        replace (sel ++ t :: rem ++ [0]) with ((sel ++ [t]) ++ rem ++ [0])
          by (rewrite <- app_assoc; reflexivity).
        replace (S (length sel)) with (length (sel ++ [t]))
          by (rewrite length_app; simpl; lia).
        apply IH; try assumption. rewrite <- Hperm, <- app_assoc. reflexivity.
      * replace (length offered - S (length sel))%nat with (length rem)
          by (simpl in Hlen; lia).
        assert (HN : k ∉ rem ->
                     find_ktype k (sel ++ t :: rem ++ [0]) (S (length sel))
                       (length rem) = None).
        { intros Hnin. pose proof (find_ktype_None k rem (sel ++ [t]) [0] Hnin) as HN.
          rewrite length_app, <- app_assoc in HN. simpl in HN.
          replace (length sel + 1)%nat with (S (length sel)) in HN by lia. exact HN. }
        assert (HS : forall s1 s2, rem = s1 ++ k :: s2 -> k ∉ s1 ->
                     find_ktype k (sel ++ t :: rem ++ [0]) (S (length sel))
                       (length rem) = Some (S (length sel) + length s1)%nat).
        { intros s1 s2 -> Hk1.
          pose proof (find_ktype_Some k s1 (sel ++ [t]) s2 [0] Hk1) as HS.
          rewrite length_app in HS. rewrite <- (app_assoc sel [t]) in HS. simpl in HS.
          replace (length sel + 1)%nat with (S (length sel)) in HS by lia. exact HS. }
        destruct (decide (k ∈ rem)) as [Hin|Hnin].
        -- (* found, but not in the position we want: swap *)
           apply list_elem_of_split_l in Hin as (s1 & s2 & Hrem & Hk1).
           rewrite (HS s1 s2 Hrem Hk1). clear HS HN. subst rem.
           assert (Hb : existsb (Z.eqb k) offered && negb (existsb (Z.eqb k) sel) = true).
           { rewrite (Hksel k) by (right; apply elem_of_app; right; left).
             rewrite andb_true_r. apply existsb_Zeqb, Hoff. right. right.
             apply elem_of_app. right. left. }
           rewrite Hb.
           replace (<[(S (length sel) + length s1)%nat := t]>
                      (<[length sel := k]> (sel ++ t :: (s1 ++ k :: s2) ++ [0])))
             with ((sel ++ [k]) ++ (s1 ++ t :: s2) ++ [0]).
           2:{ rewrite (insert_app_r_alt sel) by lia.
               rewrite Nat.sub_diag. simpl.
               rewrite (insert_app_r_alt sel) by lia.
               replace (S (length sel + length s1) - length sel)%nat
                 with (S (length s1)) by lia.
               simpl. rewrite <- !app_assoc.
               rewrite (insert_app_r_alt s1) by lia.
               rewrite Nat.sub_diag. reflexivity. }
           replace (S (length sel)) with (length (sel ++ [k]))
             by (rewrite length_app; simpl; lia).
           apply IH; try assumption.
           rewrite <- Hperm, <- !app_assoc. apply Permutation_app_head. simpl.
           rewrite <- (Permutation_middle s1 s2 t).
           rewrite <- (Permutation_middle s1 s2 k).
           apply perm_swap.
        -- (* not found: dropped *)
           rewrite (HN Hnin).
           assert (Hb : existsb (Z.eqb k) offered && negb (existsb (Z.eqb k) sel) = false).
           { destruct (existsb (Z.eqb k) offered) eqn:Ho; [|reflexivity].
             apply existsb_Zeqb, Hoff in Ho as [Ho|Ho].
             - apply existsb_Zeqb in Ho. rewrite Ho. reflexivity.
             - apply elem_of_cons in Ho as [->|Ho]; [congruence | contradiction]. }
           rewrite Hb. apply (IH sel (t :: rem) w); assumption.
Qed.

Lemma select_ktypes_spec offered body : forall chosen,
  NoDup chosen ->
  exists added,
    select_ktypes offered body chosen = chosen ++ added /\
    NoDup (chosen ++ added) /\
    added `sublist_of` body /\
    (forall k, k ∈ added <-> k ∈ body /\ k ∈ offered /\ k ∉ chosen).
Proof.
  induction body as [|k body IH]; intros chosen Hnd; simpl.
  - exists []. rewrite app_nil_r.
    split; [reflexivity|]. split; [exact Hnd|]. split; [reflexivity|].
    intros k. split; [intros Hk | intros (Hk & _)]; inversion Hk.
  - assert (Hskip : existsb (Z.eqb k) offered && negb (existsb (Z.eqb k) chosen)
                    = false ->
                    exists added,
                      select_ktypes offered body chosen = chosen ++ added /\
                      NoDup (chosen ++ added) /\
                      added `sublist_of` k :: body /\
                      (forall x, x ∈ added <->
                                 x ∈ k :: body /\ x ∈ offered /\ x ∉ chosen)).
    { intros Hb. destruct (IH chosen Hnd) as (added & Heq & Hnd' & Hsub & Hmem).
      exists added. split; [exact Heq|]. split; [exact Hnd'|].
      split; [by apply sublist_cons|].
      intros x. rewrite Hmem, elem_of_cons. split; [tauto|].
      intros ([->|Hx] & Hxo & Hxc); [|tauto]. exfalso.
      apply existsb_Zeqb in Hxo. rewrite Hxo in Hb. simpl in Hb.
      apply negb_false_iff, existsb_Zeqb in Hb. contradiction. }
    destruct (existsb (Z.eqb k) offered && negb (existsb (Z.eqb k) chosen)) eqn:Hb;
      [|exact (Hskip eq_refl)]. clear Hskip.
    apply andb_prop in Hb as [Ho Hc]. apply existsb_Zeqb in Ho.
    assert (Hkc : k ∉ chosen).
    { intros Hin. apply existsb_Zeqb in Hin. rewrite Hin in Hc. discriminate. }
    destruct (IH (chosen ++ [k])) as (added & Heq & Hnd' & Hsub & Hmem).
    { apply NoDup_app. split; [exact Hnd|]. split; [|apply NoDup_singleton].
      intros x Hx Hx'. apply list_elem_of_singleton in Hx'. subst x. contradiction. }
    exists (k :: added). rewrite Heq, <- app_assoc. simpl.
    split; [reflexivity|]. rewrite <- app_assoc in Hnd'. simpl in Hnd'.
    split; [exact Hnd'|]. split; [by apply sublist_skip|].
    intros x. rewrite !elem_of_cons, Hmem, elem_of_app, list_elem_of_singleton.
    split.
    + intros [->|(Hx & Hxo & Hxc)]; [tauto|]. tauto.
    + intros ([->|Hx] & Hxo & Hxc); [tauto|].
      destruct (decide (x = k)) as [->|Hne]; [tauto|]. right. tauto.
Qed.

(** The loop of [krb5_get_in_tkt] over the caller's enctypes, run on
    the library's own list (distinct enctypes, none of them 0), leaves
    in front of that list, as the enctypes to request, exactly the
    caller's enctypes that the library offers: each once, in the
    caller's order of preference.  Enctypes that the library does not
    offer are dropped, and so are repetitions. *)
Theorem order_ktypes_selects offered body junk (w : W) :
  NoDup offered -> 0 ∉ offered -> Forall (fun k => k <> 0) body ->
  let chosen := select_ktypes offered body [] in
  (exists ktype,
      order_ktypes (body ++ 0 :: junk) (offered ++ [0]) (length offered) 0 w =
        (Next (ktype, length chosen), w) /\
      take (length chosen) ktype = chosen /\
      length ktype = S (length offered)) /\
  NoDup chosen /\
  chosen `sublist_of` body /\
  (forall k, k ∈ chosen <-> k ∈ body /\ k ∈ offered).
Proof.
  intros Hnd H0 Hbody chosen.
  destruct (order_ktypes_spec offered junk body [] offered w
              ltac:(reflexivity) Hnd H0 Hbody) as (rem' & Heq & Hperm).
  destruct (select_ktypes_spec offered body [] NoDup_nil_2)
    as (added & Hsel & Hnd' & Hsub & Hmem).
  simpl in Hsel, Hnd'. fold chosen in Heq, Hperm, Hsel. split; [|split; [|split]].
  - exists (chosen ++ rem' ++ [0]). split; [exact Heq|].
    split; [apply take_app_length|].
    rewrite app_assoc, length_app, Hperm. simpl. lia.
  - rewrite Hsel. exact Hnd'.
  - rewrite Hsel. exact Hsub.
  - intros k. rewrite Hsel, Hmem. split; [tauto|].
    intros (? & ?). repeat split; auto. intros Hin. inversion Hin.
Qed.

End EnctypeFacts.

Section ReplyFacts.
Context `{HD : headers} {W : Type} {E : externals (W := W)}.

(** ** What an accepted reply has been checked for *)

Lemma KRB5_KDCREP_SKEW_nonzero : KRB5_KDCREP_SKEW <> 0.
Proof.
  pose proof error_codes_nonzero as Hnz. rewrite Forall_forall in Hnz.
  apply Hnz. repeat (first [left; reflexivity | right]).
Qed.

(** Boolean facts of a finished run, as propositions. *)
Ltac bool_facts :=
  repeat match goal with
    | H : _ || _ = false |- _ => apply orb_false_elim in H as [? ?]
    | H : _ && _ = true |- _ => apply andb_prop in H as [? ?]
    | H : negb _ = false |- _ => apply negb_false_iff in H
    | H : negb _ = true |- _ => apply negb_true_iff in H
    | H : (_ =? _) = true |- _ => apply Z.eqb_eq in H
    | H : (_ =? _) = false |- _ => apply Z.eqb_neq in H
    | H : (_ >? _) = false |- _ => rewrite Z.gtb_ltb in H; apply Z.ltb_ge in H
    | H : (_ >? _) = true |- _ => rewrite Z.gtb_ltb in H; apply Z.ltb_lt in H
    end.


End ReplyFacts.

Section StashFacts.
Context `{HD : headers} {W : Type} {E : externals (W := W)}.

(** ** What is left in the credentials *)

Lemma stash_cleanup_clears creds :
  key_contents (cr_keyblock (stash_cleanup creds)) = None /\
  d_data (cr_ticket (stash_cleanup creds)) = None /\
  cr_addresses (stash_cleanup creds) = None /\
  cr_client (stash_cleanup creds) = cr_client creds /\
  cr_server (stash_cleanup creds) = cr_server creds.
Proof.
  unfold stash_cleanup.
  destruct (key_contents (cr_keyblock creds)) eqn:Hk; simpl;
    destruct (d_data (cr_ticket creds)) eqn:Ht; simpl;
    destruct (cr_addresses creds) eqn:Ha; simpl; auto.
Qed.


End StashFacts.

Section StepInvariants.
Context `{HD : headers} {W : Type} {E : externals (W := W)}.

(** ** What a step keeps and what it counts *)

(** What [init_creds_validate_reply] does to the frame: it touches only
    the retained error and the retained reply. *)
Lemma init_creds_validate_reply_frame context reply_ f w code f' w' :
  init_creds_validate_reply context reply_ (f, w) = (Next code, (f', w')) ->
  exists e r,
    f' = set_f_ctx (set_reply r (set_err_reply e (f_ctx f))) f /\
    (code <> 0 -> e = None /\ r = None) /\
    (code = 0 ->
     (r = None /\ exists er, e = Some er /\
                             err_error er <> KRB_ERR_RESPONSE_TOO_BIG) \/
     (e = None /\ exists rp, r = Some rp /\ rep_msg_type rp = KRB5_AS_REP)).
Proof.
  pose proof KRB5KRB_ERR_RESPONSE_TOO_BIG_nonzero as Hbig.
  assert (Hmsg : KRB5KRB_AP_ERR_MSG_TYPE <> 0 /\ KRB5KRB_AP_ERR_V4_REPLY <> 0).
  { pose proof error_codes_nonzero as Hnz. rewrite Forall_forall in Hnz.
    split; apply Hnz; repeat (first [left; reflexivity | right]). }
  destruct Hmsg as [Hmsg Hv4].
  unfold init_creds_validate_reply. unfold_m. simpl.
  destruct f as [c o rl fl]. simpl.
  repeat (exec1; simpl in * ); try discriminate; intros [= <- <- <-].
  all: repeat match goal with
         | H : (_ =? _) = true |- _ => apply Z.eqb_eq in H
         | H : (_ =? _) = false |- _ => apply Z.eqb_neq in H
         | H : negb _ = false |- _ => apply negb_false_iff in H
         | H : negb _ = true |- _ => apply negb_true_iff in H
         end.
  all: try (exists None, None; split; [reflexivity|];
            split; [auto | intros; congruence]).
  - eexists (Some _), None. split; [reflexivity|].
    split; [congruence|]. intros _. left. eauto.
  - eexists None, (Some _). split; [reflexivity|].
    split; [congruence|]. intros _. right. eauto.
Qed.


Lemma verify_as_reply_decrypted context time_now request as_reply w code
    as_reply' w' :
  verify_as_reply context time_now request as_reply w =
    (Next (code, as_reply'), w') ->
  exists p2, rep_enc_part2 as_reply' = Some p2.
Proof.
  unfold verify_as_reply. unfold_m.
  destruct (rep_enc_part2 as_reply) as [p2|]; [|discriminate].
  repeat (exec1; simpl in * ); try discriminate; intros [= <- <- <-]; eauto.
Qed.

Lemma store_preauth_frame po (c : krb5_init_creds_context (W := W)) :
  loopcount (store_preauth po c) = loopcount c /\
  err_reply (store_preauth po c) = err_reply c /\
  reply (store_preauth po c) = reply c /\
  encoded_previous_request (store_preauth po c) = encoded_previous_request c.
Proof. destruct po as [[[[[? ?] ?] ?] ?] ?]. simpl. auto. Qed.

#[local] Arguments init_creds_validate_reply : simpl never.
#[local] Arguments sort_padata : simpl never.
#[local] Arguments decrypt_as_reply : simpl never.
#[local] Arguments verify_as_reply : simpl never.
#[local] Arguments stash_as_reply : simpl never.
#[local] Arguments build_in_tkt_name : simpl never.
#[local] Arguments store_preauth : simpl never.

Lemma init_creds_step_reply_frame context in_ f w code f' w' :
  init_creds_step_reply context in_ (f, w) = (Next code, (f', w')) ->
  loopcount (f_ctx f') = loopcount (f_ctx f) /\
  f_out f' = f_out f /\ f_realm f' = f_realm f /\
  (f_flags f' = f_flags f \/
   (f_flags f' = Z.lor (f_flags f) KRB5_INIT_CREDS_STEP_FLAG_COMPLETE /\
    code = 0 /\
    err_reply (f_ctx f') = None /\
    exists rp p2, reply (f_ctx f') = Some rp /\ rep_enc_part2 rp = Some p2)).
Proof.
  unfold init_creds_step_reply, step_decrypt. unfold_m. simpl.
  destruct (init_creds_validate_reply context in_ (f, w)) as [[c|c|] [f1 w1]]
    eqn:Hv; simpl; [| |discriminate].
  2:{ destruct (proj2 (init_creds_validate_reply_flags context in_ f w) c).
      rewrite Hv. reflexivity. }
  apply init_creds_validate_reply_frame in Hv as (e & r & -> & Hne & Hz).
  destruct f as [ctx o rl fl]. simpl.
  destruct (c =? 0) eqn:Hc; simpl.
  2:{ intros [= <- <- <-]. simpl. auto. }
  apply Z.eqb_eq in Hc. subst c. specialize (Hz eq_refl). clear Hne.
  destruct Hz as [(-> & er & -> & Her) | (-> & rp & -> & Hrp)]; simpl.
  - repeat (exec1; simpl); try discriminate; intros [= <- <- <-]; simpl;
      rewrite ?(proj1 (store_preauth_frame _ _)); auto.
  - repeat (exec1; simpl); try discriminate; intros [= <- <- <-]; simpl;
      (split; [rewrite ?(proj1 (store_preauth_frame _ _)); reflexivity|]);
      (split; [reflexivity|]); (split; [reflexivity|]);
      try (left; reflexivity).
    all: right; split; [reflexivity|]; split; [reflexivity|];
      match goal with
      | H : verify_as_reply _ _ _ _ _ = (Next (_, _), _) |- _ =>
          destruct (verify_as_reply_decrypted _ _ _ _ _ _ _ _ H) as [p2' Hp2']
      end;
      (split; [rewrite ?(proj1 (proj2 (store_preauth_frame _ _))); reflexivity|]);
      eexists _, _; split; [reflexivity | exact Hp2'].
Qed.

(** [build_in_tkt_name] hands out a server exactly when it returns 0;
    with a service name, that server is the parsed name with the
    client's realm in place of its own. *)
Lemma build_in_tkt_name_result context service client w r w' :
  build_in_tkt_name context service client w = (r, w') ->
  r = Stuck \/
  exists code server,
    r = Next (code, server) /\
    (code = 0 <-> server <> None).
Proof.
  pose proof errno_nonzero as (Hm & _).
  unfold build_in_tkt_name. unfold_m. unfold truthy.
  repeat (exec1; simpl); intros [= <- <-]; auto; right; do 2 eexists;
    (split; [reflexivity|]);
    repeat match goal with
      | H : negb _ = true |- _ => apply negb_true_iff in H
      | H : negb _ = false |- _ => apply negb_false_iff in H
      | H : (_ =? _) = true |- _ => apply Z.eqb_eq in H
      | H : (_ =? _) = false |- _ => apply Z.eqb_neq in H
      end; split; intros; subst; congruence.
Qed.

Lemma init_creds_step_request_frame context f w code f' w' :
  init_creds_step_request context (f, w) = (Next code, (f', w')) ->
  loopcount (f_ctx f') = loopcount (f_ctx f) /\
  f_realm f' = f_realm f /\ f_flags f' = f_flags f /\
  reply (f_ctx f') = reply (f_ctx f) /\
  err_reply (f_ctx f') = err_reply (f_ctx f) /\
  (code = 0 ->
   (exists previous w1 w2,
      encoded_previous_request (f_ctx f') = Some previous /\
      krb5int_copy_data_contents context previous w1 = ((0, f_out f'), w2)) \/
   (exists e, err_reply (f_ctx f) = Some e /\
              wrap32 (err_error e + ERROR_TABLE_BASE_krb5) = 0)).
Proof.
  unfold init_creds_step_request. unfold_m. simpl.
  destruct f as [ctx o rl fl]. simpl.
  destruct (build_in_tkt_name context (in_tkt_service ctx)
              (req_client (request ctx)) w) as [r0 w0] eqn:Hb.
  apply build_in_tkt_name_result in Hb as [->|(c0 & s0 & -> & _)]; simpl;
    [discriminate|].
  repeat (exec1; simpl); try discriminate; intros [= <- <- <-]; simpl;
    rewrite ?(proj1 (store_preauth_frame _ _)),
            ?(proj1 (proj2 (store_preauth_frame _ _))),
            ?(proj1 (proj2 (proj2 (store_preauth_frame _ _)))); simpl;
    (split; [reflexivity|]); (split; [reflexivity|]); (split; [reflexivity|]);
    (split; [reflexivity|]); (split; [congruence|]);
    intros Hz; try (right; eexists; split; [reflexivity | exact Hz]);
    subst; unfold truthy in *;
    try match goal with
      | H : (0 =? 0) = false |- _ => discriminate H
      | H : negb (0 =? 0) = true |- _ => discriminate H
      end.
  all: left; do 3 eexists; split; [reflexivity | eassumption].
Qed.

#[local] Arguments init_creds_step_reply : simpl never.
#[local] Arguments init_creds_step_request : simpl never.

(** The end of a run of [krb5_init_creds_step], once the frames of its
    parts are known. *)
Ltac step_fin :=
  unfold truthy in *;
  repeat match goal with
    | H : negb _ = true |- _ => apply negb_true_iff in H
    | H : negb _ = false |- _ => apply negb_false_iff in H
    | H : _ || _ = false |- _ => apply orb_false_elim in H as [? ?]
    | H : (?c =? 0) = true |- _ => apply Z.eqb_eq in H; try subst c
    end;
  try match goal with
    | H : (0 =? ?k) = true |- _ =>
        apply Z.eqb_eq in H; symmetry in H; contradiction
    | H : ?k = 0, H' : ?k <> 0 |- _ => contradiction
    end;
  repeat match goal with
    | H : f_flags _ = _ |- _ => rewrite H in *
    | H : loopcount _ = _ |- _ => rewrite H in *
    | H : (_ =? 0) = false |- _ => rewrite H in *
    end; simpl in *.

(** One call of [krb5_init_creds_step] sets no flag but COMPLETE, and
    counts one round trip exactly when it returns 0 without COMPLETE,
    that is when it has produced a request.  When it sets COMPLETE it
    returns 0, it was given a reply, it hands out no request and no
    realm, and the context holds the decrypted reply and no error
    reply.  When it returns 0 without COMPLETE, the request on the
    context names a server. *)
Theorem krb5_init_creds_step_accounting context ctx in_ w code ctx' out realm
    flags w' :
  step_call context ctx in_ w = (Some (code, ctx', out, realm, flags), w') ->
  (flags = 0 \/ flags = KRB5_INIT_CREDS_STEP_FLAG_COMPLETE) /\
  loopcount ctx' =
    (if (code =? 0) && (flags =? 0) then loopcount ctx + 1 else loopcount ctx) /\
  (flags = KRB5_INIT_CREDS_STEP_FLAG_COMPLETE ->
   code = 0 /\ d_length in_ <> 0 /\
   out = mk_data 0 None /\ realm = mk_data 0 None /\
   err_reply ctx' = None /\
   exists rp p2, reply ctx' = Some rp /\ rep_enc_part2 rp = Some p2) /\
  (code = 0 -> flags = 0 ->
   exists server, req_server (request ctx') = Some server).
Proof.
  pose proof KRB5KRB_ERR_RESPONSE_TOO_BIG_nonzero as Hbig.
  pose proof KRB5KDC_ERR_C_PRINCIPAL_UNKNOWN_nonzero as Hunk.
  match goal with |- _ -> ?P => set (Post := P) end.
  unfold step_call, krb5_init_creds_step. unfold_m. simpl.
  destruct (Z.eqb_spec (d_length in_) 0) as [Hin|Hin]; simpl.
  - match goal with
    | |- context [init_creds_step_request ?c (?f, ?w)] =>
        pose proof (proj1 (init_creds_step_request_flags c f w)) as Hnl;
        destruct (init_creds_step_request c (f, w)) as [[c3|c3|] [f3 w3]] eqn:Hq;
        [apply init_creds_step_request_frame in Hq
           as (Hl3 & Hr3 & Hf3 & Hrp3 & He3 & Hp3)
        | destruct (Hnl c3 eq_refl)
        | ]
    end; simpl in *.
    2:{ intros [=]. }
    repeat (exec1; simpl); inj_step; subst Post; simpl; step_fin;
      (split; [left; reflexivity|]); (split; [reflexivity|]);
      (split; [intros Hc; discriminate Hc|]);
      intros Hc _; [eauto | subst; discriminate ..].
  - match goal with
    | |- context [init_creds_step_reply ?c ?i (?f, ?w)] =>
        pose proof (proj1 (init_creds_step_reply_flags c i f w)) as Hnl;
        destruct (init_creds_step_reply c i (f, w)) as [[c1|c1|] [f1 w1]] eqn:Hq;
        [apply init_creds_step_reply_frame in Hq
           as (Hl1 & Ho1 & Hr1 & Hf1)
        | destruct (Hnl c1 eq_refl)
        | ]
    end; simpl in *.
    2:{ intros [=]. }
    destruct Hf1 as [Hf1 | (Hf1 & -> & He1 & rp & p2 & Hrp & Hp2)].
    + (* the reply did not complete the exchange *)
      destruct (c1 =? KRB5KRB_ERR_RESPONSE_TOO_BIG); simpl.
      * destruct (encoded_previous_request (f_ctx f1)) as [previous|]; simpl;
          [|intros [=]].
        destruct (krb5int_copy_data_contents context previous w1)
          as [[c2 o2] w2]; simpl.
        rewrite Hf1. simpl. rewrite orb_false_r.
        destruct (truthy c2) eqn:Hc2; simpl.
        -- repeat (exec1; simpl); inj_step; subst Post; simpl; step_fin;
             (split; [left; reflexivity|]); (split; [reflexivity|]);
             (split; [intros Hc; discriminate Hc|]);
             intros Hc _; subst; discriminate.
        -- match goal with
           | |- context [init_creds_step_request ?c (?f, ?w)] =>
               pose proof (proj1 (init_creds_step_request_flags c f w)) as Hnl3;
               destruct (init_creds_step_request c (f, w))
                 as [[c3|c3|] [f3 w3]] eqn:Hq3;
               [apply init_creds_step_request_frame in Hq3
                  as (Hl3 & Hr3 & Hf3 & Hrp3 & He3 & Hp3)
               | destruct (Hnl3 c3 eq_refl)
               | ]
           end; simpl in *; [|intros [=]].
           repeat (exec1; simpl); inj_step; subst Post; simpl; step_fin;
             (split; [left; reflexivity|]); (split; [reflexivity|]);
             (split; [intros Hc; discriminate Hc|]);
             intros Hc _; [eauto | subst; discriminate ..].
      * rewrite Hf1. simpl. rewrite orb_false_r.
        destruct (truthy c1) eqn:Hc1; simpl.
        -- repeat (exec1; simpl); inj_step; subst Post; simpl; step_fin;
             (split; [left; reflexivity|]); (split; [reflexivity|]);
             (split; [intros Hc; discriminate Hc|]);
             intros Hc _; subst; discriminate.
        -- match goal with
           | |- context [init_creds_step_request ?c (?f, ?w)] =>
               pose proof (proj1 (init_creds_step_request_flags c f w)) as Hnl3;
               destruct (init_creds_step_request c (f, w))
                 as [[c3|c3|] [f3 w3]] eqn:Hq3;
               [apply init_creds_step_request_frame in Hq3
                  as (Hl3 & Hr3 & Hf3 & Hrp3 & He3 & Hp3)
               | destruct (Hnl3 c3 eq_refl)
               | ]
           end; simpl in *; [|intros [=]].
           repeat (exec1; simpl); inj_step; subst Post; simpl; step_fin;
             (split; [left; reflexivity|]); (split; [reflexivity|]);
             (split; [intros Hc; discriminate Hc|]);
             intros Hc _; [eauto | subst; discriminate ..].
    + (* COMPLETE was set: the call leaves at once *)
      destruct KRB5KRB_ERR_RESPONSE_TOO_BIG; [congruence| |];
        destruct KRB5KDC_ERR_C_PRINCIPAL_UNKNOWN; try congruence;
        simpl; rewrite Hf1; simpl; inj_step; subst Post; simpl;
        rewrite ?Hf1, ?Hl1; simpl;
        (split; [right; reflexivity|]); (split; [reflexivity|]);
        (split; [|intros _ Hc; discriminate Hc]); intros _;
        repeat split; eauto.
Qed.

Lemma get_ext_loop_success fuel context : forall x w r x' w',
  get_ext_loop fuel context x w = (r, (x', w')) ->
  r = Next 0 \/ r = Leave 0 ->
  is_Some_b (reply (x_ctx x')) = true.
Proof.
  induction fuel as [|fuel IH]; intros x w r x' w'; simpl.
  - intros [= <- <- <-] [Hr|Hr]; discriminate Hr.
  - destruct (step_call context (x_ctx x) (x_reply x) w)
      as [[[[[[code ctx1] request_] realm] flags]|] w1] eqn:Hstep.
    2:{ intros [= <- <- <-] [Hr|Hr]; discriminate Hr. }
    simpl.
    assert (Hgo : forall tcp_only,
      (let '(code0, reply_, use_master, w2) :=
         krb5_sendto_kdc context request_ realm (x_use_master x) tcp_only w1 in
       if truthy code0
       then (Next code0, ({| x_ctx := ctx1; x_reply := reply_;
                             x_tcp_only := tcp_only;
                             x_use_master := use_master |}, w2))
       else get_ext_loop fuel context
              {| x_ctx := ctx1; x_reply := reply_; x_tcp_only := tcp_only;
                 x_use_master := use_master |} w2) = (r, (x', w')) ->
      r = Next 0 \/ r = Leave 0 ->
      is_Some_b (reply (x_ctx x')) = true).
    { intros tcp_only.
      destruct (krb5_sendto_kdc context request_ realm (x_use_master x)
                  tcp_only w1) as [[[code0 reply_] um] w2].
      destruct (truthy code0) eqn:Hc0.
      - intros [= <- <- <-] [[= ->]|[=]]. discriminate Hc0.
      - apply IH. }
    destruct ((code =? KRB5KRB_ERR_RESPONSE_TOO_BIG) && (x_tcp_only x =? 0));
      [apply Hgo|].
    destruct (truthy code || truthy (Z.land flags KRB5_INIT_CREDS_STEP_FLAG_COMPLETE))
      eqn:Hstop; [|apply Hgo].
    intros [= <- <- <-] [[= ->]|[=]]. simpl in *.
    exact (proj2 (krb5_init_creds_step_complete _ _ _ _ _ _ _ _ _ _ Hstep Hstop)).
Qed.

Lemma get_ext_success_reply fuel context ctx use_master w ctx' use_master' w' :
  krb5int_init_creds_get_ext fuel context ctx use_master w =
    (Some (0, ctx', use_master'), w') ->
  is_Some_b (reply ctx') = true.
Proof.
  unfold krb5int_init_creds_get_ext.
  destruct (reply ctx) eqn:Hrp; [intros [= <- <- <-]; rewrite Hrp; reflexivity|].
  destruct (get_ext_loop fuel context _ w) as [[c|c|] [x1 w1]] eqn:Hloop;
    intros [= -> <- <- <-];
    eapply get_ext_loop_success; eauto.
Qed.

(** [krb5int_init_creds_get_ext] returns 0 only with the reply on the
    context: the exchange is complete.  So a second call on the context
    it left returns 0 at once, with the context, [*use_master] and the
    world as they are: nothing is sent twice. *)
Theorem krb5int_init_creds_get_ext_idempotent fuel context ctx use_master w
    ctx' use_master' w' :
  krb5int_init_creds_get_ext fuel context ctx use_master w =
    (Some (0, ctx', use_master'), w') ->
  is_Some_b (reply ctx') = true /\
  forall fuel2 use_master2 w2,
    krb5int_init_creds_get_ext fuel2 context ctx' use_master2 w2 =
    (Some (0, ctx', use_master2), w2).
Proof.
  intros Hrun.
  assert (Hr : is_Some_b (reply ctx') = true)
    by exact (get_ext_success_reply _ _ _ _ _ _ _ _ Hrun).
  split; [exact Hr|]. intros fuel2 um2 w2. unfold krb5int_init_creds_get_ext.
  destruct (reply ctx'); [reflexivity | discriminate].
Qed.

End StepInvariants.

Section ContextFacts.
Context `{HD : headers} {W : Type} {E : externals (W := W)}.

(** ** The server name and the copy of the error *)


(** [krb5_init_creds_get_error] always returns, and it hands out an
    error only when it returns 0: when a copy fails, [*error] is NULL.
    The error it hands out carries the times and the error code of the
    retained one, and has a client exactly when the retained one has. *)
Theorem krb5_init_creds_get_error_copy context
    (ctx : krb5_init_creds_context (W := W)) w :
  exists code err w',
    krb5_init_creds_get_error context ctx w = (Next (code, err), w') /\
    (code <> 0 -> err = None) /\
    (code = 0 -> (err = None <-> err_reply ctx = None)) /\
    (forall e e',
        err_reply ctx = Some e -> err = Some e' ->
        err_ctime e' = err_ctime e /\ err_cusec e' = err_cusec e /\
        err_susec e' = err_susec e /\ err_stime e' = err_stime e /\
        err_error e' = err_error e /\
        (err_client e' = None <-> err_client e = None)).
Proof.
  pose proof errno_nonzero as (Hm & _).
  unfold krb5_init_creds_get_error. unfold_m. unfold truthy.
  destruct (err_reply ctx) as [e|] eqn:He.
  2:{ do 3 eexists. split; [reflexivity|]. repeat split; congruence. }
  repeat (exec1; simpl); do 3 eexists; (split; [reflexivity|]);
    repeat match goal with
      | H : negb _ = true |- _ => apply negb_true_iff in H
      | H : negb _ = false |- _ => apply negb_false_iff in H
      | H : (_ =? _) = true |- _ => apply Z.eqb_eq in H
      | H : (_ =? _) = false |- _ => apply Z.eqb_neq in H
      end;
    (split; [congruence|]); (split; [intros; split; congruence|]);
    intros e0 e' [= <-] [= <-]; simpl; repeat split; congruence.
Qed.

End ContextFacts.

Section OrderingFacts.
Context `{HD : headers} {W : Type} {E : externals (W := W)}.

(** ** More on the pre-auth ordering *)

Lemma split_first_None l tl :
  split_first l tl = None <-> Forall (fun e => pa_type e <> l) tl.
Proof.
  induction tl as [|e tl IH]; simpl.
  - split; [constructor | reflexivity].
  - destruct (Z.eqb_spec (pa_type e) l) as [Heq|Hne].
    + split; [discriminate|]. intros H. inversion H; subst. contradiction.
    + destruct (split_first l tl) as [[[pre x] post]|].
      * split; [discriminate|]. intros H. inversion H as [|? ? _ Htl]; subst.
        apply IH in Htl. discriminate.
      * split; [|reflexivity]. intros _. constructor; [exact Hne|].
        apply IH. reflexivity.
Qed.

Lemma fold_move_pref_again ls : forall front tl,
  let st := fold_left move_pref ls (front, tl) in
  exists added,
    fst st = front ++ added /\
    fold_left move_pref ls (front, added ++ snd st) = st.
Proof.
  induction ls as [|l ls IH]; intros front tl; simpl.
  - exists []. rewrite app_nil_r. split; reflexivity.
  - assert (Hmv : move_pref (front, tl) l =
                   match split_first l tl with
                   | Some (pre, x, post) => (front ++ [x], pre ++ post)
                   | None => (front, tl)
                   end) by reflexivity.
    rewrite Hmv. clear Hmv.
    destruct (split_first l tl) as [[[pre x] post]|] eqn:Hs.
    + apply split_first_Some in Hs as (-> & Hx & Hpre).
      destruct (IH (front ++ [x]) (pre ++ post)) as (added & Hf & Hagain).
      exists (x :: added). rewrite Hf, <- app_assoc. split; [reflexivity|].
      unfold move_pref at 2. simpl. rewrite Hx, Z.eqb_refl. simpl.
      exact Hagain.
    + destruct (IH front tl) as (added & Hf & Hagain).
      exists added. split; [exact Hf|].
      assert (Hnone : split_first l (added ++
                        snd (fold_left move_pref ls (front, tl))) = None).
      { apply split_first_None.
        destruct (fold_move_pref_spec ls front tl)
          as (added' & Hf' & _ & _ & _ & Hperm & _).
        rewrite Hf in Hf'. apply app_inv_head in Hf'. subst added'.
        rewrite Hperm. apply split_first_None. exact Hs. }
      unfold move_pref at 2. simpl. rewrite Hnone. exact Hagain.
Qed.

(** Ordering is idempotent: an array that [sort_krb5_padata_sequence]
    has ordered comes back as it is when it is ordered again under the
    same preference string. *)
Theorem sort_krb5_padata_sequence_idempotent context realm es rest w arr' w1 :
  sort_krb5_padata_sequence context realm
    (Some (map Some es ++ None :: rest)) w = Some ((0, Some arr'), w1) ->
  fst (preference_string context realm w1) =
    fst (preference_string context realm w) ->
  exists w2,
    sort_krb5_padata_sequence context realm (Some arr') w1 =
    Some ((0, Some arr'), w2).
Proof.
  destruct es as [|e es].
  - simpl. intros [= <- <-] _. exists w. reflexivity.
  - rewrite sort_krb5_padata_sequence_spec.
    destruct (preference_string context realm w) as [s w0] eqn:Hp.
    intros [= <- <-] Hsame. simpl in Hsame.
    destruct (fold_move_pref_again (named_types s) [] (e :: es))
      as (added & Hf & Hagain).
    simpl in Hf.
    set (st := fold_left move_pref (named_types s) ([], e :: es)) in *.
    assert (Hne : exists e' es', fst st ++ snd st = e' :: es').
    { destruct (fold_move_pref_spec (named_types s) [] (e :: es))
        as (added' & Hf' & _ & _ & _ & Hperm & _).
      fold st in Hf', Hperm. simpl in Hf'. rewrite <- Hf' in Hperm.
      destruct (fst st ++ snd st) as [|e' es'] eqn:Hst; [|eauto].
      exfalso. exact (Permutation_nil_cons Hperm). }
    destruct Hne as (e' & es' & Hst).
    rewrite Hst, sort_krb5_padata_sequence_spec.
    destruct (preference_string context realm w0) as [s1 w2]. simpl in Hsame.
    subst s1. exists w2. cbv beta iota zeta.
    rewrite <- Hst at 1 2. rewrite Hf at 1 2. rewrite Hagain.
    rewrite Hst. reflexivity.
Qed.

(** Without a usable "preferred_preauth_types" entry (the lookup
    fails), the ordering tries PKINIT first: it works with the types
    17, 16, 15, 14, in this order.  So it orders the types [2, 16, 17]
    as [17, 16, 2], and in general it moves to the front entries of
    these four types only, in this order, and leaves the others in
    their original relative order. *)
Theorem sort_krb5_padata_sequence_default context realm w code value w1 :
  krb5_libdefault_string context realm KRB5_CONF_PREFERRED_PREAUTH_TYPES w =
    ((code, value), w1) ->
  code <> 0 ->
  (forall e2 e16 e17 rest,
      pa_type e2 = 2 -> pa_type e16 = 16 -> pa_type e17 = 17 ->
      sort_krb5_padata_sequence context realm
        (Some (Some e2 :: Some e16 :: Some e17 :: None :: rest)) w =
      Some ((0, Some (Some e17 :: Some e16 :: Some e2 :: None :: rest)), w1)) /\
  (forall es rest, exists front tail w',
      sort_krb5_padata_sequence context realm
        (Some (map Some es ++ None :: rest)) w =
      Some ((0, Some (map Some (front ++ tail) ++ None :: rest)), w') /\
      Forall (fun e => pa_type e ∈ [17; 16; 15; 14]) front /\
      map pa_type front `sublist_of` [17; 16; 15; 14] /\
      tail `sublist_of` es /\
      filter (fun e => pa_type e ∉ [17; 16; 15; 14]) tail =
      filter (fun e => pa_type e ∉ [17; 16; 15; 14]) es).
Proof.
  intros Hs Hcode.
  assert (Hpref : preference_string context realm w =
                  ("17, 16, 15, 14"%string, w1)).
  { unfold preference_string. rewrite Hs.
    destruct (Z.eqb_spec code 0); [contradiction | reflexivity]. }
  split.
  - intros e2 e16 e17 rest H2 H16 H17.
    pose proof (sort_krb5_padata_sequence_spec context realm e2 [e16; e17] rest w)
      as Ha.
    rewrite Hpref in Ha. simpl map in Ha. simpl app in Ha.
    rewrite Ha, named_types_default.
    destruct e2 as [t2 l2 c2], e16 as [t16 l16 c16], e17 as [t17 l17 c17].
    simpl in H2, H16, H17. subst. reflexivity.
  - intros es rest.
    destruct (sort_krb5_padata_sequence_shape context realm es rest w)
      as (front & tail & w' & Heq & _ & _ & Hin & Hord & Hsub & _ & Hfil).
    rewrite Hpref in Hin, Hord, Hfil. simpl fst in Hin, Hord, Hfil.
    rewrite named_types_default in Hin, Hord, Hfil.
    exists front, tail, w'. auto.
Qed.

End OrderingFacts.

Section AllInOneFacts.
Context `{HD : headers} {W : Type} {E : externals (W := W)}.

(** ** The all-in-one routine: the loop count and referrals *)

#[local] Arguments get_in_tkt_iteration : simpl never.

Lemma get_in_tkt_loop_count_top context key_proc keyseed decrypt_proc
    canon_flag is_tgt_req (fuel : nat) : forall g w,
  g_loopcount g <= MAX_IN_TKT_LOOPS + 1 ->
  let r := get_in_tkt_loop fuel context key_proc keyseed decrypt_proc
             canon_flag is_tgt_req (g, w) in
  g_loopcount g <= g_loopcount (fst (snd r)) /\
  (g_loopcount (fst (snd r)) = MAX_IN_TKT_LOOPS + 2 ->
   fst r = Leave KRB5_GET_IN_TKT_LOOP).
Proof.
  induction fuel as [|fuel IH]; intros g w Hlc; simpl.
  - unfold stuck. simpl. split; [lia|]. intros Heq. lia.
  - unfold bind.
    pose proof (get_in_tkt_iteration_count context key_proc keyseed decrypt_proc
                  canon_flag is_tgt_req g w) as (Hinc & Hfire & Hnext).
    destruct (get_in_tkt_iteration context key_proc keyseed decrypt_proc
                canon_flag is_tgt_req (g, w)) as [[again|c|] [g1 w1]] eqn:Hit;
      simpl in *.
    + specialize (Hnext again eq_refl).
      destruct again; simpl.
      * destruct (IH g1 w1 ltac:(lia)) as [Hle Htop]. split; [lia | exact Htop].
      * split; [lia|]. intros Heq. unfold MAX_IN_TKT_LOOPS in *. lia.
    + split; [lia|]. intros Heq.
      assert (Hgt : g_loopcount g > MAX_IN_TKT_LOOPS)
        by (unfold MAX_IN_TKT_LOOPS in *; lia).
      specialize (Hfire Hgt). injection Hfire as -> _ _. reflexivity.
    + split; [lia|]. intros Heq.
      assert (Hgt : g_loopcount g > MAX_IN_TKT_LOOPS)
        by (unfold MAX_IN_TKT_LOOPS in *; lia).
      specialize (Hfire Hgt). discriminate Hfire.
Qed.

#[local] Arguments get_in_tkt_loop : simpl never.
#[local] Arguments decrypt_as_reply : simpl never.
#[local] Arguments verify_as_reply : simpl never.
#[local] Arguments stash_as_reply : simpl never.
#[local] Arguments make_preauth_list : simpl never.
#[local] Arguments order_ktypes : simpl never.
#[local] Arguments tgt_is_local_realm : simpl never.

(** Whatever the KDC answers, [krb5_get_in_tkt] ends with its loop
    count between 0 and MAX_IN_TKT_LOOPS + 2 = 18, and the count reaches
    18 only when the routine returns KRB5_GET_IN_TKT_LOOP: the loop
    body is entered at most 17 times. *)
Theorem krb5_get_in_tkt_loop_count context options addrs ktypes ptypes key_proc
    keyseed decrypt_proc decryptarg creds ccache ret_as_reply w code creds'
    ret_as_reply' g w' :
  krb5_get_in_tkt context options addrs ktypes ptypes key_proc keyseed
    decrypt_proc decryptarg creds ccache ret_as_reply w =
    (Next (code, creds', ret_as_reply', Some g), w') ->
  0 <= g_loopcount g <= MAX_IN_TKT_LOOPS + 2 /\
  (g_loopcount g = MAX_IN_TKT_LOOPS + 2 -> code = KRB5_GET_IN_TKT_LOOP).
Proof.
  unfold krb5_get_in_tkt, get_in_tkt_negotiate. unfold_m. simpl.
  repeat (exec1; simpl); try discriminate; intros [= <- <- <- <- <-]; simpl;
    try (split; [unfold MAX_IN_TKT_LOOPS; lia |
                 intros Heq; unfold MAX_IN_TKT_LOOPS in Heq; discriminate Heq]).
  all: match goal with
       | H : get_in_tkt_loop ?fuel ?c ?kp ?ks ?dp ?cf ?it (?g0, ?w0) = _ |- _ =>
           pose proof (get_in_tkt_loop_count_bound c kp ks dp cf it fuel g0 w0
                         ltac:(simpl; unfold MAX_IN_TKT_LOOPS; lia)) as Hb;
           pose proof (get_in_tkt_loop_count_top c kp ks dp cf it fuel g0 w0
                         ltac:(simpl; unfold MAX_IN_TKT_LOOPS; lia))
             as [Hlo Htop];
           rewrite H in Hb, Hlo, Htop; simpl in Hb, Hlo, Htop
       end.
  all: split; [lia|]; intros Heq; specialize (Htop Heq);
    first [discriminate Htop | injection Htop as ->; reflexivity].
Qed.

#[local] Arguments tgt_is_local_realm : simpl nomatch.

(** A referral rewrites the server for the realm the KDC named.
    [rewrite_server_realm] hands out a server exactly when it returns
    0.  Where the copy functions it uses copy faithfully, the server is
    the old one with the new realm, and for a TGT request also with the
    new realm as its second component: for credentials that
    [tgt_is_local_realm] accepts (server krbtgt/R@R), it is
    krbtgt/REALM@REALM. *)
Theorem rewrite_server_realm_referral context old_server realm tgs w code
    server w' :
  rewrite_server_realm context old_server realm tgs w =
    (Next (code, server), w') ->
  (code = 0 <-> server <> None) /\
  ((forall p w0 p' w1,
       krb5_copy_principal context p w0 = ((0, p'), w1) -> p' = p) ->
   (forall d w0 d' w1,
       krb5int_copy_data_contents context d w0 = ((0, d'), w1) -> d' = d) ->
   forall s, server = Some s ->
     s = mk_princ realm
           (if tgs then <[1%nat := realm]> (princ_data old_server)
            else princ_data old_server)
           (princ_type old_server) /\
     (forall creds client w0,
         tgs = true ->
         cr_server creds = Some old_server -> cr_client creds = Some client ->
         fst (tgt_is_local_realm creds w0) = Next true ->
         exists c0 c1,
           princ_data old_server = [c0; c1] /\
           data_eq_string c0 KRB5_TGS_NAME = true /\
           s = mk_princ realm [c0; realm] (princ_type old_server))).
Proof.
  intros Hrun.
  assert (Hshape :
    (code = 0 <-> server <> None) /\
    ((forall p w0 p' w1,
         krb5_copy_principal context p w0 = ((0, p'), w1) -> p' = p) ->
     (forall d w0 d' w1,
         krb5int_copy_data_contents context d w0 = ((0, d'), w1) -> d' = d) ->
     forall s, server = Some s ->
       s = mk_princ realm
             (if tgs then <[1%nat := realm]> (princ_data old_server)
              else princ_data old_server)
             (princ_type old_server))).
  { revert Hrun. unfold rewrite_server_realm. unfold_m. unfold truthy.
    repeat (exec1; simpl); try discriminate; intros [= <- <- <-];
      repeat match goal with
        | H : negb _ = true |- _ => apply negb_true_iff in H
        | H : negb _ = false |- _ => apply negb_false_iff in H
        | H : (_ =? _) = true |- _ => apply Z.eqb_eq in H
        | H : (_ =? _) = false |- _ => apply Z.eqb_neq in H
        end; subst;
      (split; [split; congruence|]); intros Hcp Hcd s [= <-];
      repeat match goal with
        | H : krb5_copy_principal _ _ _ = _ |- _ => apply Hcp in H; subst
        | H : krb5int_copy_data_contents _ _ _ = _ |- _ => apply Hcd in H; subst
        end; reflexivity. }
  destruct Hshape as [Hiff Hs]. split; [exact Hiff|].
  intros Hcp Hcd s Hsrv. specialize (Hs Hcp Hcd s Hsrv). split; [exact Hs|].
  intros creds client w0 -> Hserver Hclient. subst s.
  unfold tgt_is_local_realm. unfold_m. rewrite Hserver, Hclient. simpl.
  destruct (princ_data old_server) as [|c0 [|c1 [|c2 comps]]]; simpl;
    try discriminate.
  destruct (data_eq_string c0 KRB5_TGS_NAME) eqn:Hname; simpl; [|discriminate].
  intros _. exists c0, c1. auto.
Qed.

End AllInOneFacts.

Section TransportFacts.
Context `{HD : headers} {W : Type} {E : externals (W := W)}.

Lemma reply_codes_nonzero :
  KRB5KRB_AP_ERR_MSG_TYPE <> 0 /\ KRB5KRB_AP_ERR_V4_REPLY <> 0.
Proof.
  pose proof error_codes_nonzero as Hnz. rewrite Forall_forall in Hnz.
  split; apply Hnz; repeat (first [left; reflexivity | right]).
Qed.

(** [send_as_request] hands out an error reply or an AS-REP only
    together with the return value 0, never both, and only the kind the
    caller asked for; when it returns 0 to a caller that asked for
    both, it has handed out one of them.  An AS-REP it hands out has
    the message type KRB5_AS_REP, and a RESPONSE_TOO_BIG error it hands
    out was received over TCP: over UDP that error is answered by
    sending again. *)
Theorem send_as_request_outcome context packet realm ret_err_reply
    ret_as_reply use_master w code err rep use_master' w' :
  send_as_request context packet realm ret_err_reply ret_as_reply use_master w =
    (Next (code, err, rep, use_master'), w') ->
  (code <> 0 -> err = None /\ rep = None) /\
  (err = None \/ rep = None) /\
  (err <> None -> ret_err_reply = true) /\
  (rep <> None -> ret_as_reply = true) /\
  (code = 0 -> ret_err_reply = true -> ret_as_reply = true ->
   err <> None \/ rep <> None) /\
  (forall r, rep = Some r -> rep_msg_type r = KRB5_AS_REP) /\
  (forall e, err = Some e -> err_error e = KRB_ERR_RESPONSE_TOO_BIG ->
   exists um0 w1 w2 reply,
     krb5_sendto_kdc context packet realm um0 1 w1 =
       ((0, reply, use_master'), w2) /\
     decode_krb5_error reply w2 = ((0, e), w')).
Proof.
  destruct reply_codes_nonzero as [Hmsg Hv4].
  assert (Ht : forall z, truthy z = false -> z = 0).
  { intros z. unfold truthy. destruct (Z.eqb_spec z 0); [auto | discriminate]. }
  assert (Hn : forall z, truthy z = true -> z <> 0).
  { intros z. unfold truthy. destruct (Z.eqb_spec z 0); [discriminate | auto]. }
  set (Post := fun (r : Z * option krb5_error * option krb5_kdc_rep * Z) (w' : W) =>
    let '(code, err, rep, use_master') := r in
    (code <> 0 -> err = None /\ rep = None) /\
    (err = None \/ rep = None) /\
    (err <> None -> ret_err_reply = true) /\
    (rep <> None -> ret_as_reply = true) /\
    (code = 0 -> ret_err_reply = true -> ret_as_reply = true ->
     err <> None \/ rep <> None) /\
    (forall r, rep = Some r -> rep_msg_type r = KRB5_AS_REP) /\
    (forall e, err = Some e -> err_error e = KRB_ERR_RESPONSE_TOO_BIG ->
     exists um0 w1 w2 reply,
       krb5_sendto_kdc context packet realm um0 1 w1 =
         ((0, reply, use_master'), w2) /\
       decode_krb5_error reply w2 = ((0, e), w'))).
  intros Hrun. change (Post (code, err, rep, use_master') w').
  revert Hrun. generalize (code, err, rep, use_master'). intros r.
  unfold send_as_request, send_as_request_pass. unfold_m.
  repeat (exec1; simpl; try discriminate).
  all: intros [= <- <-]; subst Post; simpl.
  all: repeat match goal with
       | H : truthy _ = true |- _ => apply Hn in H
       | H : truthy _ = false |- _ => apply Ht in H; subst
       | H : negb _ = true |- _ => apply negb_true_iff in H
       | H : negb _ = false |- _ => apply negb_false_iff in H
       | H : (_ =? _) = true |- _ => apply Z.eqb_eq in H
       | H : (_ =? _) = false |- _ => apply Z.eqb_neq in H
       | H : _ && _ = false |- _ => apply andb_false_iff in H
       | H : (_, _) = (_, _) |- _ => injection H as ? ?; subst
       end.
  all: repeat match goal with
       | |- _ /\ _ => split
       | |- forall _, _ => intro
       end.
  all: try solve [auto | congruence | contradiction | left; congruence
                 | right; congruence | discriminate].
  all: match goal with H : Some _ = Some _ |- _ => injection H as <- end.
  all: try solve [eauto 10].
  all: match goal with
       | H : _ \/ _ |- _ =>
           destruct H as [Hb|Hb];
             [apply Z.eqb_neq in Hb; contradiction | discriminate Hb]
       end.
Qed.
End TransportFacts.

Section InitFacts.
Context `{HD : headers} {W : Type} {E : externals (W := W)} {I : init_externals (W := W)}.

Lemma bind_Next {S A B} (m : M S A) (k : A -> M S B) s r s' :
  bind m k s = (Next r, s') ->
  exists x s1, m s = (Next x, s1) /\ k x s1 = (Next r, s').
Proof. unfold bind. destruct (m s) as [[x|c|] s1]; [eauto | discriminate..]. Qed.

Lemma call_Next {A} (f : W -> A * W) w x w' :
  call f w = (Next x, w') -> f w = (x, w').
Proof. unfold call. destruct (f w). congruence. Qed.

Lemma check_Next {S} code (s : S) u s' :
  check code s = (Next u, s') -> code = 0 /\ s' = s.
Proof.
  unfold check. destruct (Z.eqb_spec code 0); unfold ret, leave; [|discriminate].
  intros [= _ <-]. auto.
Qed.

Lemma alloc_Next {S} (ok : bool) (s : S) u s' :
  (if ok then ret tt else leave ENOMEM) s = (Next u, s') -> ok = true /\ s' = s.
Proof. destruct ok; unfold ret, leave; [|discriminate]. intros [= _ <-]. auto. Qed.

Lemma leaves_nonzero_bind {S A B} (m : M S A) (k : A -> M S B) :
  leaves_nonzero m -> (forall x, leaves_nonzero (k x)) ->
  leaves_nonzero (bind m k).
Proof.
  intros Hm Hk s c s'. unfold bind.
  destruct (m s) as [[x|c1|] s1] eqn:Hms; [apply Hk | | discriminate].
  intros [= <- <-]. eapply Hm; eauto.
Qed.

Lemma leaves_nonzero_ret {S A} (a : A) : leaves_nonzero (ret (S := S) a).
Proof. intros s c s'. discriminate. Qed.

Lemma leaves_nonzero_stuck {S A} : leaves_nonzero (stuck (S := S) (A := A)).
Proof. intros s c s'. discriminate. Qed.

Lemma leaves_nonzero_call {A} (f : W -> A * W) : leaves_nonzero (call f).
Proof. intros s c s'. unfold call. destruct (f s). discriminate. Qed.

Lemma leaves_nonzero_deref {S A} (p : option A) : leaves_nonzero (deref (S := S) p).
Proof. destruct p; [apply leaves_nonzero_ret | apply leaves_nonzero_stuck]. Qed.

Lemma leaves_nonzero_check {S} code : leaves_nonzero (check (S := S) code).
Proof.
  intros s c s'. unfold check. destruct (Z.eqb_spec code 0); [discriminate|].
  intros [= <- <-]. assumption.
Qed.

Lemma leaves_nonzero_leave {S A} code :
  code <> 0 -> leaves_nonzero (leave (S := S) (A := A) code).
Proof. intros Hne s c s'. intros [= <- <-]. assumption. Qed.

Lemma leaves_nonzero_boolean context realm option_ old :
  leaves_nonzero (krb5_libdefault_boolean context realm option_ old).
Proof.
  unfold krb5_libdefault_boolean.
  apply leaves_nonzero_bind; [apply leaves_nonzero_call|].
  intros [rc str]. destruct (truthy rc); [apply leaves_nonzero_ret|].
  apply leaves_nonzero_bind; [apply leaves_nonzero_deref|].
  intros s. apply leaves_nonzero_ret.
Qed.

Lemma leaves_nonzero_entries : forall n i ptypes,
  leaves_nonzero (make_preauth_entries (W := W) n i ptypes).
Proof.
  induction n as [|n IH]; intros i ptypes; simpl; [apply leaves_nonzero_ret|].
  apply leaves_nonzero_bind; [apply leaves_nonzero_call|].
  intros [|]; [|apply leaves_nonzero_ret].
  apply leaves_nonzero_bind; [apply leaves_nonzero_deref|]. intros ptype.
  apply leaves_nonzero_bind; [apply IH|]. intros rest. apply leaves_nonzero_ret.
Qed.

Lemma leaves_nonzero_preauth_list context ptypes nptypes :
  leaves_nonzero (make_preauth_list context ptypes nptypes).
Proof.
  unfold make_preauth_list.
  apply leaves_nonzero_bind.
  { destruct (nptypes <? 0); [apply leaves_nonzero_deref | apply leaves_nonzero_ret]. }
  intros n. apply leaves_nonzero_bind; [apply leaves_nonzero_call|].
  intros [|]; [|apply leaves_nonzero_ret].
  apply leaves_nonzero_bind; [apply leaves_nonzero_entries|].
  intros [es|]; apply leaves_nonzero_ret.
Qed.

Ltac leaves_nz :=
  repeat first
    [ apply leaves_nonzero_ret | apply leaves_nonzero_stuck
    | apply leaves_nonzero_call | apply leaves_nonzero_deref
    | apply leaves_nonzero_check | apply leaves_nonzero_boolean
    | apply leaves_nonzero_preauth_list
    | apply leaves_nonzero_leave;
        first [ apply errno_nonzero | apply KRB5_CONFIG_ETYPE_NOSUPP_nonzero ]
    | apply leaves_nonzero_bind; [|intros ?]
    | match goal with
      | |- leaves_nonzero (match ?x with _ => _ end) => destruct x
      | |- leaves_nonzero (if ?x then _ else _) => destruct x
      end ].

Lemma leaves_nonzero_init_body context client prompter_ data start_time_ options :
  leaves_nonzero
    (init_creds_init_body context client prompter_ data start_time_ options).
Proof.
  unfold init_creds_init_body, init_boolean, init_lifetime.
  leaves_nz.
Qed.

Tactic Notation "bind_inv" hyp(H) "as" ident(x) ident(w) ident(Hx) :=
  apply bind_Next in H as (x & w & Hx & H).

Ltac init_inv H :=
  unfold init_creds_init_body in H;
  let u := fresh "u" in let w0 := fresh "w" in let H0 := fresh "H" in
  let ok1 := fresh "ok" in let w1 := fresh "w" in let H1 := fresh "Halloc" in
  bind_inv H as ok1 w1 H1; apply call_Next in H1;
  bind_inv H as u w0 H0; apply alloc_Next in H0 as [-> ->]; clear u;
  let ok2 := fresh "ok" in let w2 := fresh "w" in let H2 := fresh "Halloc" in
  bind_inv H as ok2 w2 H2; apply call_Next in H2;
  bind_inv H as u w0 H0; apply alloc_Next in H0 as [-> ->]; clear u;
  let cp := fresh "cp" in let w3 := fresh "w" in let Hcopy := fresh "Hcopy" in
  bind_inv H as cp w3 Hcopy; apply call_Next in Hcopy;
  destruct cp as [?code ?client'];
  bind_inv H as u w0 H0; apply check_Next in H0 as [-> ->]; clear u;
  let opts := fresh "opts" in let w4 := fresh "w" in let Hopts := fresh "Hopts" in
  bind_inv H as opts w4 Hopts;
  let oe := fresh "oe" in let w5 := fresh "w" in let Hopte := fresh "Hopte" in
  bind_inv H as oe w5 Hopte; apply call_Next in Hopte;
  destruct oe as [?code ?opte_];
  bind_inv H as u w0 H0; apply check_Next in H0 as [-> ->]; clear u;
  let fs := fresh "fs" in let w6 := fresh "w" in let Hfast := fresh "Hfast" in
  bind_inv H as fs w6 Hfast; apply call_Next in Hfast;
  destruct fs as [?code ?fast_state_];
  bind_inv H as u w0 H0; apply check_Next in H0 as [-> ->]; clear u;
  let fwd := fresh "fwd" in let w7 := fresh "w" in let Hfwd := fresh "Hfwd" in
  bind_inv H as fwd w7 Hfwd;
  let prx := fresh "prx" in let w8 := fresh "w" in let Hprx := fresh "Hprx" in
  bind_inv H as prx w8 Hprx;
  let canon := fresh "canon" in let w9 := fresh "w" in
  let Hcanon := fresh "Hcanon" in
  bind_inv H as canon w9 Hcanon;
  let tkt_life_ := fresh "tkt_life_" in let w10 := fresh "w" in
  let Htkt := fresh "Htkt" in
  bind_inv H as tkt_life_ w10 Htkt;
  let renew_life_ := fresh "renew_life_" in let w11 := fresh "w" in
  let Hrenew := fresh "Hrenew" in
  bind_inv H as renew_life_ w11 Hrenew;
  let ktype := fresh "ktype" in let w12 := fresh "w" in
  let Hktype := fresh "Hktype" in
  bind_inv H as ktype w12 Hktype;
  let addresses := fresh "addresses" in let w13 := fresh "w" in
  let Haddr := fresh "Haddr" in
  bind_inv H as addresses w13 Haddr;
  let w14 := fresh "w" in
  bind_inv H as u w14 H0; clear H0 u;
  let preauth_ := fresh "preauth_" in let w15 := fresh "w" in
  let Hpreauth := fresh "Hpreauth" in
  bind_inv H as preauth_ w15 Hpreauth;
  let salt_ := fresh "salt_" in let w16 := fresh "w" in
  let Hsalt := fresh "Hsalt" in
  bind_inv H as salt_ w16 Hsalt;
  let nonce := fresh "nonce" in let w17 := fresh "w" in
  let Hnonce := fresh "Hnonce" in
  bind_inv H as nonce w17 Hnonce;
  unfold ret in H; injection H as <- <-.

Lemma init_wrapper context client prompter_ data start_time_ options w code octx w' :
  krb5_init_creds_init context client prompter_ data start_time_ options w =
    (Next (code, octx), w') ->
  (code = 0 /\ exists ctx, octx = Some ctx /\
     init_creds_init_body context client prompter_ data start_time_ options w =
       (Next ctx, w')) \/
  (code <> 0 /\ octx = None).
Proof.
  unfold krb5_init_creds_init.
  destruct (init_creds_init_body _ _ _ _ _ _ w) as [[ctx|c|] w1] eqn:Hbody;
    [| |discriminate]; intros [= <- <- <-].
  - left. eauto.
  - right. split; [|reflexivity]. eapply leaves_nonzero_init_body; eauto.
Qed.

(** [krb5_init_creds_init] returns 0 exactly when it hands out a
    context, and the context it hands out is fresh: no round trip
    counted, no reply and no error reply, no request encoded, no
    request time, no service name and no server principal, no key
    callback, empty credentials; the start time, the prompter and its
    data are the caller's, and the client of the request is the copy
    that [krb5_copy_principal] made of the caller's. *)
Theorem krb5_init_creds_init_fresh context client prompter_ data start_time_
    options w code octx w' :
  krb5_init_creds_init context client prompter_ data start_time_ options w =
    (Next (code, octx), w') ->
  (code = 0 <-> octx <> None) /\
  forall ctx, octx = Some ctx ->
    loopcount ctx = 0 /\ reply ctx = None /\ err_reply ctx = None /\
    encoded_request_body ctx = None /\ encoded_previous_request ctx = None /\
    request_time ctx = 0 /\ in_tkt_service ctx = None /\
    req_server (request ctx) = None /\ req_padata (request ctx) = None /\
    gak_fct ctx = None /\
    cr_client (cred ctx) = None /\ cr_server (cred ctx) = None /\
    start_time ctx = start_time_ /\ prompter ctx = prompter_ /\
    prompter_data ctx = data /\
    exists w1 w2,
      krb5_copy_principal context client w1 =
        ((0, req_client (request ctx)), w2).
Proof.
  intros Hrun. apply init_wrapper in Hrun as [(-> & ctx & -> & H)|(Hne & ->)].
  - split; [split; [discriminate | reflexivity]|].
    intros ? [= <-]. init_inv H. simpl.
    repeat (split; [reflexivity|]). eauto.
  - split; [split; [contradiction | congruence]|]. discriminate.
Qed.

Lemma land_lor_same a m : Z.land (Z.lor a m) m = m.
Proof.
  apply Z.bits_inj'. intros n Hn. rewrite Z.land_spec, Z.lor_spec.
  destruct (Z.testbit a n), (Z.testbit m n); reflexivity.
Qed.

Lemma land_lor_keep a c m : Z.land a m = m -> Z.land (Z.lor a c) m = m.
Proof.
  intros H. apply Z.bits_inj'. intros n Hn.
  apply (f_equal (fun z => Z.testbit z n)) in H. revert H.
  rewrite !Z.land_spec, Z.lor_spec.
  destruct (Z.testbit a n), (Z.testbit m n), (Z.testbit c n); auto.
Qed.

Lemma land_lor_part a m1 m2 :
  Z.land a (Z.lor m1 m2) = Z.lor m1 m2 -> Z.land a m1 = m1 /\ Z.land a m2 = m2.
Proof.
  intros H. split; apply Z.bits_inj'; intros n Hn;
    apply (f_equal (fun z => Z.testbit z n)) in H; revert H;
    rewrite !Z.land_spec, Z.lor_spec;
    destruct (Z.testbit a n), (Z.testbit m1 n), (Z.testbit m2 n); auto.
Qed.

Lemma lor_within a c m : Z.land a m = a -> Z.land c m = c ->
  Z.land (Z.lor a c) m = Z.lor a c.
Proof.
  intros Ha Hc. rewrite Z.land_lor_distr_l, Ha, Hc. reflexivity.
Qed.

Lemma land_within_l a b : Z.land a (Z.lor a b) = a.
Proof.
  apply Z.bits_inj'. intros n Hn. rewrite Z.land_spec, Z.lor_spec.
  destruct (Z.testbit a n), (Z.testbit b n); reflexivity.
Qed.

Lemma land_within_r a b c : Z.land a c = a -> Z.land a (Z.lor b c) = a.
Proof.
  intros H. apply Z.bits_inj'. intros n Hn.
  apply (f_equal (fun z => Z.testbit z n)) in H. revert H.
  rewrite !Z.land_spec, Z.lor_spec.
  destruct (Z.testbit a n), (Z.testbit b n), (Z.testbit c n); auto.
Qed.

Lemma land_within_lr a b c : Z.land a b = a -> Z.land a (Z.lor b c) = a.
Proof. rewrite (Z.lor_comm b c). apply land_within_r. Qed.

Ltac within :=
  first [ apply Z.land_diag | apply land_within_l
        | solve [apply land_within_r; within]
        | solve [apply land_within_lr; within] ].

Lemma init_boolean_given context realm flags flag given option_ tmp w v w' :
  init_boolean context realm flags flag given option_ tmp w = (Next v, w') ->
  Z.land flags flag <> 0 -> v = given.
Proof.
  unfold init_boolean, truthy. intros H Hf.
  destruct (Z.eqb_spec (Z.land flags flag) 0); [contradiction|].
  simpl in H. unfold ret in H. congruence.
Qed.

Lemma init_lifetime_given context realm flags flag given option_ d w v w' :
  init_lifetime context realm flags flag given option_ d w = (Next v, w') ->
  Z.land flags flag <> 0 -> v = given.
Proof.
  unfold init_lifetime, truthy. intros H Hf.
  destruct (Z.eqb_spec (Z.land flags flag) 0); [contradiction|].
  simpl in H. unfold ret in H. congruence.
Qed.

(** The KDC options of the request that [krb5_init_creds_init] sets up:
    the default options of the library context are all kept; a start
    time above 0 asks for a postdated ticket (ALLOW_POSTDATE and
    POSTDATED), a renewable lifetime above 0 for a renewable one; what
    the caller's options say on forwardable, proxiable and canonicalize
    is followed when it says yes; and no bit is set beyond the defaults
    and these six. *)
Theorem krb5_init_creds_init_kdc_options context client prompter_ data
    start_time_ options w ctx w' :
  krb5_init_creds_init context client prompter_ data start_time_ options w =
    (Next (0, Some ctx), w') ->
  let o := req_kdc_options (request ctx) in
  let flags := opte_flags (opte ctx) in
  Z.land o (kdc_default_options context) = kdc_default_options context /\
  (start_time_ > 0 ->
   Z.land o KDC_OPT_ALLOW_POSTDATE = KDC_OPT_ALLOW_POSTDATE /\
   Z.land o KDC_OPT_POSTDATED = KDC_OPT_POSTDATED) /\
  (renew_life ctx > 0 -> Z.land o KDC_OPT_RENEWABLE = KDC_OPT_RENEWABLE) /\
  (Z.land flags KRB5_GET_INIT_CREDS_OPT_FORWARDABLE <> 0 ->
   opte_forwardable (opte ctx) <> 0 ->
   Z.land o KDC_OPT_FORWARDABLE = KDC_OPT_FORWARDABLE) /\
  (Z.land flags KRB5_GET_INIT_CREDS_OPT_PROXIABLE <> 0 ->
   opte_proxiable (opte ctx) <> 0 ->
   Z.land o KDC_OPT_PROXIABLE = KDC_OPT_PROXIABLE) /\
  (Z.land flags KRB5_GET_INIT_CREDS_OPT_CANONICALIZE <> 0 ->
   Z.land o KDC_OPT_CANONICALIZE = KDC_OPT_CANONICALIZE) /\
  let all :=
    Z.lor (kdc_default_options context)
      (Z.lor KDC_OPT_FORWARDABLE
         (Z.lor KDC_OPT_PROXIABLE
            (Z.lor KDC_OPT_CANONICALIZE
               (Z.lor (Z.lor KDC_OPT_ALLOW_POSTDATE KDC_OPT_POSTDATED)
                  KDC_OPT_RENEWABLE)))) in
  Z.land o all = o.
Proof.
  intros Hrun.
  apply init_wrapper in Hrun as [(_ & ctx0 & [= <-] & H)|(Hne & _)];
    [|contradiction].
  init_inv H.
  pose proof (init_boolean_given _ _ _ _ _ _ _ _ _ _ Hfwd) as Gfwd.
  pose proof (init_boolean_given _ _ _ _ _ _ _ _ _ _ Hprx) as Gprx.
  pose proof (init_boolean_given _ _ _ _ _ _ _ _ _ _ Hcanon) as Gcanon.
  clear - Gfwd Gprx Gcanon. simpl.
  assert (Ht : forall z, truthy z = false -> z = 0).
  { intros z. unfold truthy. destruct (Z.eqb_spec z 0); [auto | discriminate]. }
  destruct (truthy fwd) eqn:Efwd, (truthy prx) eqn:Eprx,
    (truthy canon) eqn:Ecanon, (Z.gtb_spec start_time_ 0),
    (Z.gtb_spec renew_life_ 0).
  all: repeat match goal with
       | |- _ /\ _ => split
       | |- _ -> _ => intro
       end.
  all: try lia.
  all: try (apply Ht in Efwd; specialize (Gfwd ltac:(assumption)); congruence).
  all: try (apply Ht in Eprx; specialize (Gprx ltac:(assumption)); congruence).
  all: try (apply Ht in Ecanon; specialize (Gcanon ltac:(assumption)); congruence).
  all: try solve [repeat first [apply land_lor_same | apply land_lor_keep];
                  apply Z.land_diag].
  all: try solve [
    match goal with
    | |- Z.land ?o _ = _ =>
        apply (land_lor_part o KDC_OPT_ALLOW_POSTDATE KDC_OPT_POSTDATED)
    end;
    repeat first [apply land_lor_same | apply land_lor_keep]].
  all: repeat apply lor_within; within.
Qed.

Lemma count_until_take stop : forall cells n,
  count_until stop cells = Some n ->
  ~ In stop (take n cells) /\ (n < length cells)%nat.
Proof.
  induction cells as [|c rest IH]; intros n; simpl; [discriminate|].
  destruct (Z.eqb_spec c stop) as [->|Hne].
  - intros [= <-]. simpl. split; [tauto | lia].
  - destruct (count_until stop rest) as [m|]; [|discriminate].
    intros [= <-]. destruct (IH m eq_refl) as [Hin Hlt]. simpl.
    split; [intros [?|?]; [congruence | tauto] | lia].
Qed.

Lemma init_lifetime_default context realm flags flag given option_ d w v w' :
  init_lifetime context realm flags flag given option_ d w = (Next v, w') ->
  Z.land flags flag = 0 ->
  (forall w0, fst (fst (krb5_libdefault_string context realm option_ w0)) <> 0) ->
  v = d.
Proof.
  unfold init_lifetime, truthy. intros H Hf Hno. rewrite Hf in H. simpl in H.
  apply bind_Next in H as ([rc str] & w1 & Hl & H). apply call_Next in Hl.
  specialize (Hno w). rewrite Hl in Hno. simpl in Hno.
  destruct (Z.eqb_spec rc 0); [contradiction|]. unfold ret in H. congruence.
Qed.



End InitFacts.

Section ScriptedChecks.

#[local] Existing Instance mit_headers.
#[local] Existing Instance scripted_kdc.
#[local] Existing Instance scripted_options.

Lemma make_preauth_list_result_witness :
  exists code r w',
    make_preauth_list (test_context None) [2; 16; 0; 5] (-1) (world0 []) =
      (Next (code, r), w') /\
    ((code = ENOMEM /\ r = None) \/
     (code = 0 /\
      r = Some (map (fun t => Some (mk_pa t 0 None)) [2; 16] ++ [None]))).
Proof.
  apply (make_preauth_list_result (test_context None) [2; 16; 0; 5] (-1)
           [2; 16] (world0 [])).
  right. split; [lia|]. split; [repeat constructor; lia|].
  exists [5]. reflexivity.
Defined.

Lemma order_ktypes_selects_witness :
  let chosen := select_ktypes [18; 17; 23] [23; 99; 18; 23] [] in
  (exists ktype,
      order_ktypes ([23; 99; 18; 23] ++ 0 :: []) ([18; 17; 23] ++ [0])
        (length [18; 17; 23]) 0 (world0 []) =
        (Next (ktype, length chosen), world0 []) /\
      take (length chosen) ktype = chosen /\
      length ktype = S (length [18; 17; 23])) /\
  NoDup chosen /\
  chosen `sublist_of` [23; 99; 18; 23] /\
  (forall k, k ∈ chosen <-> k ∈ [23; 99; 18; 23] /\ k ∈ [18; 17; 23]).
Proof.
  apply (order_ktypes_selects [18; 17; 23] [23; 99; 18; 23] [] (world0 [])).
  - compute_done.
  - compute_done.
  - repeat constructor; lia.
Defined.



Lemma krb5_init_creds_step_accounting_witness :
  exists code ctx' out realm flags w',
    step_call (test_context None) alice_ctx (mk_data 0 None) (world0 []) =
      (Some (code, ctx', out, realm, flags), w') /\
    loopcount ctx' =
      (if (code =? 0) && (flags =? 0) then loopcount alice_ctx + 1
       else loopcount alice_ctx) /\
    (code = 0 -> flags = 0 ->
     exists server, req_server (request ctx') = Some server).
Proof.
  destruct (step_call (test_context None) alice_ctx (mk_data 0 None) (world0 []))
    as [[[[[[code ctx'] out] realm] flags]|] w'] eqn:Hrun;
    [|vm_compute in Hrun; discriminate Hrun].
  destruct (krb5_init_creds_step_accounting (test_context None) alice_ctx
              (mk_data 0 None) (world0 []) code ctx' out realm flags w' Hrun)
    as (_ & Hcount & _ & Hserver).
  exists code, ctx', out, realm, flags, w'. auto.
Defined.

Lemma krb5int_init_creds_get_ext_idempotent_witness :
  exists ctx' use_master' w',
    krb5int_init_creds_get_ext 5 (test_context None) alice_ctx 0
      (world0 [as_rep_reply]) = (Some (0, ctx', use_master'), w') /\
    is_Some_b (reply ctx') = true /\
    krb5int_init_creds_get_ext 5 (test_context None) ctx' 0 w' =
      (Some (0, ctx', 0), w').
Proof.
  destruct (krb5int_init_creds_get_ext 5 (test_context None) alice_ctx 0
              (world0 [as_rep_reply]))
    as [[[[code ctx'] um]|] w'] eqn:Hrun;
    [|vm_compute in Hrun; discriminate Hrun].
  assert (Hcode : code = 0).
  { vm_compute in Hrun. injection Hrun as <- _ _ _. reflexivity. }
  subst code.
  destruct (krb5int_init_creds_get_ext_idempotent 5 (test_context None)
              alice_ctx 0 (world0 [as_rep_reply]) ctx' um w' Hrun)
    as [Hreply Hagain].
  exists ctx', um, w'. split; [reflexivity|]. split; [exact Hreply|].
  apply Hagain.
Defined.


Lemma sort_krb5_padata_sequence_idempotent_witness :
  exists arr' w1 w2,
    sort_krb5_padata_sequence (test_context (Some "16, 2"%string))
      (data_of_string "EXAMPLE")
      (Some (map Some [mk_pa 2 0 None; mk_pa 17 0 None; mk_pa 16 0 None]
               ++ None :: []))
      (world0 []) = Some ((0, Some arr'), w1) /\
    sort_krb5_padata_sequence (test_context (Some "16, 2"%string))
      (data_of_string "EXAMPLE") (Some arr') w1 = Some ((0, Some arr'), w2).
Proof.
  destruct (sort_krb5_padata_sequence (test_context (Some "16, 2"%string))
              (data_of_string "EXAMPLE")
              (Some (map Some [mk_pa 2 0 None; mk_pa 17 0 None; mk_pa 16 0 None]
                       ++ None :: []))
              (world0 []))
    as [[[code [arr'|]] w1]|] eqn:Hrun;
    [|vm_compute in Hrun; discriminate Hrun..].
  assert (Hcode : code = 0 /\ w1 = world0 []).
  { vm_compute in Hrun. injection Hrun as <- _ <-. auto. }
  destruct Hcode as [-> ->].
  destruct (sort_krb5_padata_sequence_idempotent
              (test_context (Some "16, 2"%string)) (data_of_string "EXAMPLE")
              [mk_pa 2 0 None; mk_pa 17 0 None; mk_pa 16 0 None] []
              (world0 []) arr' (world0 []) Hrun eq_refl) as [w2 Hagain].
  exists arr', (world0 []), w2. split; [reflexivity | exact Hagain].
Defined.

Lemma sort_krb5_padata_sequence_default_witness :
  exists w1,
    sort_krb5_padata_sequence (test_context None) (data_of_string "EXAMPLE")
      (Some [Some (mk_pa 2 0 None); Some (mk_pa 16 0 None);
             Some (mk_pa 17 0 None); None])
      (world0 []) =
    Some ((0, Some [Some (mk_pa 17 0 None); Some (mk_pa 16 0 None);
                    Some (mk_pa 2 0 None); None]), w1).
Proof.
  destruct (krb5_libdefault_string (test_context None)
              (data_of_string "EXAMPLE") KRB5_CONF_PREFERRED_PREAUTH_TYPES
              (world0 [])) as [[code value] w1] eqn:Hrun.
  assert (Hne : code <> 0).
  { vm_compute in Hrun. injection Hrun as <- _ _. discriminate. }
  destruct (sort_krb5_padata_sequence_default (test_context None)
              (data_of_string "EXAMPLE") (world0 []) code value w1 Hrun Hne)
    as [Hthree _].
  exists w1. apply Hthree; reflexivity.
Defined.

Lemma krb5_get_in_tkt_loop_count_witness :
  exists code creds' ret_as_reply' g w',
    krb5_get_in_tkt (test_context None) 0 None None None (Some toy_key_proc) tt
      (Some toy_decrypt_proc) tt alice_creds None None
      (world0 [as_rep_reply]) =
      (Next (code, creds', ret_as_reply', Some g), w') /\
    0 <= g_loopcount g <= MAX_IN_TKT_LOOPS + 2.
Proof.
  destruct (krb5_get_in_tkt (test_context None) 0 None None None
              (Some toy_key_proc) tt (Some toy_decrypt_proc) tt alice_creds
              None None (world0 [as_rep_reply]))
    as [[[[[code creds'] ret_as_reply'] [g|]]|c|] w'] eqn:Hrun;
    [|vm_compute in Hrun; discriminate Hrun..].
  exists code, creds', ret_as_reply', g, w'. split; [reflexivity|].
  apply (krb5_get_in_tkt_loop_count (test_context None) 0 None None None
           (Some toy_key_proc) tt (Some toy_decrypt_proc) tt alice_creds None
           None (world0 [as_rep_reply]) code creds' ret_as_reply' g w' Hrun).
Defined.

Lemma rewrite_server_realm_referral_witness :
  exists code server w',
    rewrite_server_realm (test_context None) (tgs_principal "EXAMPLE")
      (data_of_string "OTHER") true (world0 []) = (Next (code, server), w') /\
    (code = 0 <-> server <> None).
Proof.
  destruct (rewrite_server_realm (test_context None) (tgs_principal "EXAMPLE")
              (data_of_string "OTHER") true (world0 []))
    as [[[code server]|c|] w'] eqn:Hrun;
    [|vm_compute in Hrun; discriminate Hrun..].
  exists code, server, w'. split; [reflexivity|].
  apply (rewrite_server_realm_referral (test_context None)
           (tgs_principal "EXAMPLE") (data_of_string "OTHER") true (world0 [])
           code server w' Hrun).
Defined.

Lemma krb5_init_creds_init_fresh_witness :
  exists code octx w',
    krb5_init_creds_init (test_context None) (user_principal "alice" "EXAMPLE")
      tt tt 60 (Some kinit_options) (world0 []) = (Next (code, octx), w') /\
    (code = 0 <-> octx <> None).
Proof.
  destruct (krb5_init_creds_init (test_context None)
              (user_principal "alice" "EXAMPLE") tt tt 60 (Some kinit_options) (world0 []))
    as [[[code octx]|c|] w'] eqn:Hrun;
    [|vm_compute in Hrun; discriminate Hrun..].
  exists code, octx, w'. split; [reflexivity|].
  apply (krb5_init_creds_init_fresh (test_context None)
           (user_principal "alice" "EXAMPLE") tt tt 60 (Some kinit_options) (world0 [])
           code octx w' Hrun).
Defined.

Lemma krb5_init_creds_init_kdc_options_witness :
  exists ctx w',
    krb5_init_creds_init (test_context None) (user_principal "alice" "EXAMPLE")
      tt tt 60 (Some kinit_options) (world0 []) = (Next (0, Some ctx), w') /\
    Z.land (req_kdc_options (request ctx)) KDC_OPT_POSTDATED =
      KDC_OPT_POSTDATED /\
    Z.land (req_kdc_options (request ctx)) KDC_OPT_FORWARDABLE =
      KDC_OPT_FORWARDABLE.
Proof.
  destruct (krb5_init_creds_init (test_context None)
              (user_principal "alice" "EXAMPLE") tt tt 60 (Some kinit_options) (world0 []))
    as [[[code [ctx|]]|c|] w'] eqn:Hrun;
    [|vm_compute in Hrun; discriminate Hrun..].
  assert (Hshape : code = 0 /\ opte ctx = tt).
  { vm_compute in Hrun. injection Hrun as <- <- _. auto. }
  destruct Hshape as [-> Hopte].
  destruct (krb5_init_creds_init_kdc_options (test_context None)
              (user_principal "alice" "EXAMPLE") tt tt 60 (Some kinit_options) (world0 [])
              ctx w' Hrun)
    as (_ & Hpost & _ & Hfwd & _).
  exists ctx, w'. split; [reflexivity|].
  split; [apply Hpost; lia|].
  apply Hfwd; rewrite Hopte; discriminate.
Defined.



Lemma send_as_request_outcome_witness :
  exists code err rep use_master' w',
    send_as_request (test_context None) (data_of_bytes [x6a; x07])
      (data_of_string "EXAMPLE") true true 0
      (world0 [too_big_reply; as_rep_reply]) =
      (Next (code, err, rep, use_master'), w') /\
    (err = None \/ rep = None) /\
    (forall r, rep = Some r -> rep_msg_type r = KRB5_AS_REP).
Proof.
  destruct (send_as_request (test_context None) (data_of_bytes [x6a; x07])
              (data_of_string "EXAMPLE") true true 0
              (world0 [too_big_reply; as_rep_reply]))
    as [[[[[code err] rep] um]|c|] w'] eqn:Hrun;
    [|vm_compute in Hrun; discriminate Hrun..].
  destruct (send_as_request_outcome (test_context None)
              (data_of_bytes [x6a; x07]) (data_of_string "EXAMPLE") true true 0
              (world0 [too_big_reply; as_rep_reply]) code err rep um w' Hrun)
    as (_ & Hone & _ & _ & _ & Htype & _).
  exists code, err, rep, um, w'. auto.
Defined.

End ScriptedChecks.
